(** * IIIF tile downloader: a shallow embedding of [app.py]

    The development follows the source file top to bottom: the Python
    primitives the program relies on (text, binary64 arithmetic, JSON
    values, exceptions), the tile fetcher [fetch_tile], the progress
    tracker [update_progress], the background task
    [download_and_stitch_image] and the three request handlers.  The
    second half states and proves the properties of the design document
    against these definitions; its last part proves further properties
    of the code, from the retry loop to the server as a whole. *)

From Stdlib Require Import ZArith QArith Qround Lia String Ascii List Sorted SpecFloat.
From stdpp Require Import base gmap strings list pretty sorting.

Open Scope Z_scope.

(** ** Python text

    Identifiers and messages are Latin-1 text: one [ascii] per code point
    0..255.  The character classes below are the ones CPython's Unicode
    database gives to these code points. *)

Module PyStr.

(** [c.isalpha() or c.isdecimal() or c.isdigit() or c.isnumeric()] for a
    single Latin-1 character. *)
Definition char_isalnum (c : ascii) : bool :=
  let n := N_of_ascii c in
  ((48 <=? n) && (n <=? 57) || (65 <=? n) && (n <=? 90) || (97 <=? n) && (n <=? 122)
   || (n =? 170) || (n =? 178) || (n =? 179) || (n =? 181) || (n =? 185) || (n =? 186)
   || (188 <=? n) && (n <=? 190) || (192 <=? n) && (n <=? 214)
   || (216 <=? n) && (n <=? 246) || (248 <=? n))%N.

(** [c.isspace()] for a single Latin-1 character. *)
Definition char_isspace (c : ascii) : bool :=
  let n := N_of_ascii c in
  ((9 <=? n) && (n <=? 13) || (28 <=? n) && (n <=? 32) || (n =? 133) || (n =? 160))%N.

Fixpoint all_chars (p : ascii -> bool) (s : string) : bool :=
  match s with
  | EmptyString => true
  | String c rest => p c && all_chars p rest
  end.

(** [s.isalnum()]: every character is alphanumeric and there is at least
    one character. *)
Definition isalnum (s : string) : bool :=
  match s with
  | EmptyString => false
  | String _ _ => all_chars char_isalnum s
  end.

(** [c in s] for a one-character string [c]. *)
Fixpoint contains (c : ascii) (s : string) : bool :=
  match s with
  | EmptyString => false
  | String d rest => Ascii.eqb c d || contains c rest
  end.

(** [s.replace(c, '')] for a one-character string [c]. *)
Fixpoint remove (c : ascii) (s : string) : string :=
  match s with
  | EmptyString => EmptyString
  | String d rest => if Ascii.eqb c d then remove c rest else String d (remove c rest)
  end.

Fixpoint lstrip (s : string) : string :=
  match s with
  | EmptyString => EmptyString
  | String c rest => if char_isspace c then lstrip rest else s
  end.

Fixpoint rstrip (s : string) : string :=
  match s with
  | EmptyString => EmptyString
  | String c rest =>
      match rstrip rest with
      | EmptyString => if char_isspace c then EmptyString else String c EmptyString
      | kept => String c kept
      end
  end.

(** [s.strip()] *)
Definition strip (s : string) : string := rstrip (lstrip s).

(** [not s] for a string. *)
Definition is_empty (s : string) : bool :=
  match s with EmptyString => true | String _ _ => false end.

Fixpoint ends_with_slash (s : string) : bool :=
  match s with
  | EmptyString => false
  | String c EmptyString => Ascii.eqb c "/"
  | String _ rest => ends_with_slash rest
  end.

(** [os.path.join(a, b)] on a POSIX system. *)
Definition path_join (a b : string) : string :=
  match b with
  | String "/" _ => b
  | _ => if is_empty a || ends_with_slash a then a +:+ b else a +:+ "/" +:+ b
  end.

(** [os.path.basename(p)] on a POSIX system. *)
Fixpoint basename (p : string) : string :=
  match p with
  | EmptyString => EmptyString
  | String _ rest => if contains "/" p then basename rest else p
  end.

End PyStr.

(** ** Python numbers

    [int] is [Z].  A finite [float] is the rational it denotes; the
    functions below compute the IEEE 754 binary64 result of an exact
    rational: round to nearest, ties to even, 53 significant bits, with
    gradual underflow.  Every finite binary64 number is an integer
    multiple of 2^-1074, so rounding works on that integer grid. *)

Module PyFloat.

(** One unit in the last place of the smallest binary64 numbers is
    [1 / binary64_unit]. *)
Definition binary64_unit : Z := 2 ^ 1074.

(** Nearest integer to [n / d], ties to the even one ([0 < d]). *)
Definition round_half_even (n d : Z) : Z :=
  let q := n / d in
  let r := n mod d in
  if 2 * r <? d then q
  else if 2 * r =? d then (if Z.even q then q else q + 1)
  else q + 1.

(** Number of low bits dropped so that 53 significant bits remain. *)
Definition binary64_shift (n d : Z) : Z := Z.max (Z.log2 (n / d) - 52) 0.

(** [n / d], a non-negative number of grid units, rounded to a multiple of
    [2 ^ binary64_shift n d]. *)
Definition binary64_units (n d : Z) : Z :=
  let s := binary64_shift n d in
  round_half_even n (d * 2 ^ s) * 2 ^ s.

(** The binary64 number nearest to the rational [x], as a rational. *)
Definition binary64_round (x : Q) : Q :=
  let n := Qnum x * binary64_unit in
  let d := Zpos (Qden x) in
  Qmake (Z.sgn n * binary64_units (Z.abs n) d) (Z.to_pos binary64_unit).

(** Rounded results of this size and above are not finite binary64
    numbers. *)
Definition binary64_huge : Q := inject_Z (2 ^ 1024).

Definition is_finite (x : Q) : bool :=
  negb (Qle_bool binary64_huge x) && negb (Qle_bool x (- binary64_huge)).

(** The exact quotient [a / b] of two integers, [b <> 0]. *)
Definition exact_quotient (a b : Z) : Q :=
  if 0 <? b then Qmake a (Z.to_pos b) else Qmake (- a) (Z.to_pos (- b)).

(** [x * y] and [x + y] on floats, whenever the result is finite (the
    program multiplies a quotient by 85 and adds 5; the results stay
    below 100). *)
Definition float_mul (x y : Q) : Q := binary64_round (x * y).
Definition float_add (x y : Q) : Q := binary64_round (x + y).

(** [math.ceil(x)] of a finite float. *)
Definition ceil (x : Q) : Z := Qceiling x.

End PyFloat.

(** ** Exceptions, JSON values and HTTP responses *)

(** The exception classes the program can meet.  [HTTPError],
    [ConnectionError] and [JSONDecodeError] are the subclasses of
    [requests.exceptions.RequestException] that matter here; the others
    derive from [Exception] only. *)
Inductive exn_class :=
| RequestException
| HTTPError
| ConnectionError
| JSONDecodeError
| KeyError
| IndexError
| TypeError
| AttributeError
| ValueError
| ZeroDivisionError
| OverflowError
| OSError.

(** An exception: its class and [str(e)]. *)
Record exn := mk_exn { exn_cls : exn_class; exn_str : string }.

(** [isinstance(e, requests.exceptions.RequestException)] *)
Definition is_RequestException (e : exn) : bool :=
  match exn_cls e with
  | RequestException | HTTPError | ConnectionError | JSONDecodeError => true
  | _ => false
  end.

(** A parsed JSON document whose numbers are integers, which is how the
    image descriptor types its dimensions. *)
#[warnings="-register-all"]
Inductive json :=
| JNull
| JInt (z : Z)
| JStr (s : string)
| JList (l : list json)
| JDict (d : list (string * json)).

(** A [requests.Response]: [body_json] is what [.json()] returns, [None]
    when the body is not a JSON document. *)
Record response := mk_response {
  status_code : Z;
  reason : string;
  url : string;
  content : string;
  body_json : option json
}.

(** What one [requests.get] call does: it returns a response or raises. *)
Inductive outcome :=
| Returned (r : response)
| Raised (e : exn).

(** A decoded tile and the output canvas.  The canvas keeps the pastes
    it received, oldest first. *)
Record image := mk_image { im_width : Z; im_height : Z; im_data : string }.

Record canvas := mk_canvas {
  cv_width : Z;
  cv_height : Z;
  cv_pastes : list (image * (Z * Z))
}.

(** ** The progress record and the state of a task *)

(** One value of the [download_progress] dictionary. *)
Record ProgressRecord := mk_record {
  message : string;
  progress : option Q;
  error : option string;
  completed : bool;
  file_path : option string;
  timestamp : Q
}.

(** Everything outside the program: the remote server (the answer to the
    task's [n]-th request, counted from 0), the wall clock (the value of
    the [n]-th [time.time()] call), the working directory, the file
    system and the imaging library. *)
Record world := mk_world {
  remote : nat -> string -> outcome;
  time_time : nat -> Q;
  os_getcwd : string;
  os_makedirs : string -> option exn;
  pil_new : Z -> Z -> option exn;
  pil_open : string -> exn + image;
  pil_save : canvas -> string -> option exn
}.

(** The state a background task reads and writes.  [download_progress]
    is the global dictionary; [final_img] and [tile_num] are the task's
    local variables; the remaining fields record what the task did to
    its surroundings ([progress_log]: the [update_progress] calls in
    order, [http_log]: the URLs requested in order, [slept]: the number
    of [time.sleep(1)] calls, [clock_reads]: the number of [time.time()]
    calls, [files]: the files saved). *)
Record state := mk_state {
  download_progress : gmap string ProgressRecord;
  progress_log : list (string * ProgressRecord);
  http_log : list string;
  slept : nat;
  clock_reads : nat;
  final_img : option canvas;
  tile_num : Z;
  files : gmap string canvas
}.

(** The state in which a task starts, given the dictionary as it is
    then. *)
Definition new_task (dp : gmap string ProgressRecord) : state :=
  mk_state dp [] [] 0 0 None 0 ∅.

(** ** Computations that may raise *)

Inductive result (A : Type) :=
| Ok (a : A)
| Raise (e : exn).

Arguments Ok {A} a.
Arguments Raise {A} e.

Definition M (A : Type) : Type := state -> result A * state.

Definition ret {A} (a : A) : M A := fun st => (Ok a, st).

Definition raise {A} (e : exn) : M A := fun st => (Raise e, st).

Definition bind {A B} (m : M A) (k : A -> M B) : M B :=
  fun st =>
    match m st with
    | (Ok a, st') => k a st'
    | (Raise e, st') => (Raise e, st')
    end.

Notation "x <- m ;; k" := (bind m (fun x => k))
  (at level 100, m at next level, right associativity).
Notation "m ;;; k" := (bind m (fun _ => k))
  (at level 100, right associativity).

(** Sequencing of pure computations that may raise. *)
Definition rbind {A B} (r : result A) (k : A -> result B) : result B :=
  match r with
  | Ok a => k a
  | Raise e => Raise e
  end.

Notation "x <~ r ;; k" := (rbind r (fun x => k))
  (at level 100, r at next level, right associativity).

(** A pure computation that may raise, run inside [M]. *)
Definition lift {A} (r : result A) : M A := fun st => (r, st).

(** [for x in l: body(x)] *)
Fixpoint for_each {A} (l : list A) (body : A -> M unit) : M unit :=
  match l with
  | [] => ret tt
  | x :: rest => body x ;;; for_each rest body
  end.

(** ** Primitive operations of the task

    The calls to [app.logger] only write to the log of the process,
    which nothing in the program reads back; they are left out. *)

(** [requests.get(url, headers=HEADERS, timeout=30)]: the headers and
    the timeout are the same in every call, so the URL identifies the
    request. *)
Definition requests_get (env : world) (u : string) : M response :=
  fun st =>
    let st' := mk_state (download_progress st) (progress_log st) (http_log st ++ [u])
                 (slept st) (clock_reads st) (final_img st) (tile_num st) (files st) in
    match remote env (length (http_log st)) u with
    | Returned r => (Ok r, st')
    | Raised e => (Raise e, st')
    end.

(** [time.sleep(1)] *)
Definition time_sleep : M unit :=
  fun st =>
    (Ok tt, mk_state (download_progress st) (progress_log st) (http_log st)
              (S (slept st)) (clock_reads st) (final_img st) (tile_num st) (files st)).

(** The message [raise_for_status] builds: empty unless the status is
    4xx or 5xx. *)
Definition http_error_msg (r : response) : string :=
  if (400 <=? status_code r) && (status_code r <? 500) then
    pretty (status_code r) +:+ " Client Error: " +:+ reason r +:+ " for url: " +:+ url r
  else if (500 <=? status_code r) && (status_code r <? 600) then
    pretty (status_code r) +:+ " Server Error: " +:+ reason r +:+ " for url: " +:+ url r
  else "".

(** [resp.raise_for_status()]: an [HTTPError] when there is a message,
    nothing otherwise. *)
Definition raise_for_status (r : response) : M unit :=
  if PyStr.is_empty (http_error_msg r) then ret tt
  else raise (mk_exn HTTPError (http_error_msg r)).

(** Truth value of a response object: [resp.ok]. *)
Definition response_ok (r : response) : bool :=
  negb ((400 <=? status_code r) && (status_code r <? 600)).

(** [resp.json()] *)
Definition response_json (r : response) : result json :=
  match body_json r with
  | Some j => Ok j
  | None => Raise (mk_exn JSONDecodeError "Expecting value: line 1 column 1 (char 0)")
  end.

Definition type_name (j : json) : string :=
  match j with
  | JNull => "NoneType"
  | JInt _ => "int"
  | JStr _ => "str"
  | JList _ => "list"
  | JDict _ => "dict"
  end.

Fixpoint assoc (key : string) (d : list (string * json)) : option json :=
  match d with
  | [] => None
  | (k, v) :: rest => if String.eqb k key then Some v else assoc key rest
  end.

(** [j[key]] for a string key. *)
Definition getitem (j : json) (key : string) : result json :=
  match j with
  | JDict d =>
      match assoc key d with
      | Some v => Ok v
      | None => Raise (mk_exn KeyError ("'" +:+ key +:+ "'"))
      end
  | JList _ => Raise (mk_exn TypeError "list indices must be integers or slices, not str")
  | JStr _ => Raise (mk_exn TypeError "string indices must be integers, not 'str'")
  | _ => Raise (mk_exn TypeError ("'" +:+ type_name j +:+ "' object is not subscriptable"))
  end.

(** [j[0]] *)
Definition getitem0 (j : json) : result json :=
  match j with
  | JList (x :: _) => Ok x
  | JList [] => Raise (mk_exn IndexError "list index out of range")
  | JStr (String c _) => Ok (JStr (String c EmptyString))
  | JStr EmptyString => Raise (mk_exn IndexError "string index out of range")
  | JDict _ => Raise (mk_exn KeyError "0")
  | _ => Raise (mk_exn TypeError ("'" +:+ type_name j +:+ "' object is not subscriptable"))
  end.

(** [j.get(key, default)] *)
Definition dict_get (j : json) (key : string) (default : json) : result json :=
  match j with
  | JDict d => Ok (match assoc key d with Some v => v | None => default end)
  | _ => Raise (mk_exn AttributeError ("'" +:+ type_name j +:+ "' object has no attribute 'get'"))
  end.

(** The operands of [a / b] when both are integers; the [TypeError] of
    that division otherwise. *)
Definition int_operands (a b : json) : result (Z * Z) :=
  match a, b with
  | JInt x, JInt y => Ok (x, y)
  | _, _ =>
      Raise (mk_exn TypeError
               ("unsupported operand type(s) for /: '" +:+ type_name a +:+ "' and '"
                +:+ type_name b +:+ "'"))
  end.

(** [a / b] on integers: the correctly rounded quotient. *)
Definition truediv (a b : Z) : result Q :=
  if b =? 0 then Raise (mk_exn ZeroDivisionError "division by zero")
  else
    let q := PyFloat.binary64_round (PyFloat.exact_quotient a b) in
    if PyFloat.is_finite q then Ok q
    else Raise (mk_exn OverflowError "integer division result too large for a float").

(** [math.ceil(a / b)] *)
Definition ceil_truediv (a b : Z) : result Z :=
  match truediv a b with
  | Ok q => Ok (PyFloat.ceil q)
  | Raise e => Raise e
  end.

(** [5 + (tile_num / total_tiles) * 85] *)
Definition tile_progress (tile_num total_tiles : Z) : result Q :=
  match truediv tile_num total_tiles with
  | Ok q => Ok (PyFloat.float_add 5 (PyFloat.float_mul q 85))
  | Raise e => Raise e
  end.

(** [Image.new("RGB", (width, height))], then [tile_num = 0].  The
    library refuses a negative size with a [ValueError]; whether it can
    allocate a canvas of a given size is up to the world. *)
Definition Image_new (env : world) (w h : Z) : M unit :=
  fun st =>
    if (w <? 0) || (h <? 0) then
      (Raise (mk_exn ValueError "Width and height must be >= 0"), st)
    else
      match pil_new env w h with
      | Some e => (Raise e, st)
      | None =>
          (Ok tt, mk_state (download_progress st) (progress_log st) (http_log st) (slept st)
                    (clock_reads st) (Some (mk_canvas w h [])) 0 (files st))
      end.

(** [Image.open(BytesIO(body))].  The library decodes lazily; an error it
    would report only when the tile is pasted is reported here, which is
    before anything of the state has changed either way. *)
Definition Image_open (env : world) (body : string) : M image :=
  match pil_open env body with
  | inl e => raise e
  | inr img => ret img
  end.

(** [final_img.paste(tile_img, (x, y))] *)
Definition paste (tile_img : image) (x y : Z) : M unit :=
  fun st =>
    match final_img st with
    | Some cv =>
        (Ok tt, mk_state (download_progress st) (progress_log st) (http_log st) (slept st)
                  (clock_reads st)
                  (Some (mk_canvas (cv_width cv) (cv_height cv) (cv_pastes cv ++ [(tile_img, (x, y))])))
                  (tile_num st) (files st))
    | None => (Raise (mk_exn AttributeError "'NoneType' object has no attribute 'paste'"), st)
    end.

(** [tile_num += 1], returning the new value. *)
Definition next_tile_num : M Z :=
  fun st =>
    (Ok (tile_num st + 1),
     mk_state (download_progress st) (progress_log st) (http_log st) (slept st)
       (clock_reads st) (final_img st) (tile_num st + 1) (files st)).

(** [final_img.save(output_file, "JPEG", quality=95)] *)
Definition Image_save (env : world) (output_file : string) : M unit :=
  fun st =>
    match final_img st with
    | Some cv =>
        match pil_save env cv output_file with
        | Some e => (Raise e, st)
        | None =>
            (Ok tt, mk_state (download_progress st) (progress_log st) (http_log st) (slept st)
                      (clock_reads st) (final_img st) (tile_num st)
                      (<[output_file := cv]> (files st)))
        end
    | None => (Raise (mk_exn AttributeError "'NoneType' object has no attribute 'save'"), st)
    end.

(** [os.makedirs(downloads_dir, exist_ok=True)] *)
Definition makedirs (env : world) (dir : string) : M unit :=
  match os_makedirs env dir with
  | Some e => raise e
  | None => ret tt
  end.

(** ** [fetch_tile] *)

(** The [for attempt in range(1, retries + 1)] loop of [fetch_tile] and
    the code after it.  [resp] is the local variable of that name: the
    last response obtained so far. *)
Fixpoint fetch_tile_loop (env : world) (u : string) (retries : Z)
    (attempts : list Z) (resp : option response) : M (option response) :=
  match attempts with
  | [] =>
      match resp with
      | Some r => raise_for_status r ;;; ret None
      | None => raise (mk_exn RequestException "Failed to fetch tile after all retries")
      end
  | attempt :: rest =>
      fun st =>
        match requests_get env u st with
        | (Ok r, st1) =>
            if status_code r =? 200 then (Ok (Some r), st1)
            else (time_sleep ;;; fetch_tile_loop env u retries rest (Some r)) st1
        | (Raise e, st1) =>
            if is_RequestException e then
              if attempt =? retries then (Raise e, st1)
              else (time_sleep ;;; fetch_tile_loop env u retries rest resp) st1
            else (Raise e, st1)
        end
  end.

Definition fetch_tile (env : world) (u : string) (retries : Z) : M (option response) :=
  fetch_tile_loop env u retries (seqZ 1 retries) None.

(** ** [update_progress] *)

Definition update_progress (env : world) (session_id msg : string)
    (prog : option Q) (err : option string) (done_flag : bool)
    (path : option string) : M unit :=
  fun st =>
    let rec := mk_record msg prog err done_flag path (time_time env (clock_reads st)) in
    (Ok tt,
     mk_state (<[session_id := rec]> (download_progress st))
       (progress_log st ++ [(session_id, rec)]) (http_log st) (slept st)
       (S (clock_reads st)) (final_img st) (tile_num st) (files st)).

(** ** The tile grid *)

(** One cell of the grid: its position in the grid, the pixel offset of
    its top left corner and its pixel extent. *)
Record TileSpec := mk_tile {
  t_row : Z;
  t_col : Z;
  origin_x : Z;
  origin_y : Z;
  t_width : Z;
  t_height : Z
}.

(** The rectangle the loop body computes for [row] and [col]:
    [x = col * tile_width], [y = row * tile_height],
    [w = min(tile_width, width - x)], [h = min(tile_height, height - y)]. *)
Definition tile_spec (width height tile_width tile_height row col : Z) : TileSpec :=
  let x := col * tile_width in
  let y := row * tile_height in
  mk_tile row col x y (Z.min tile_width (width - x)) (Z.min tile_height (height - y)).

(** The rectangles in the order the two nested loops visit them. *)
Definition tile_grid (width height tile_width tile_height cols rows : Z) : list TileSpec :=
  flat_map
    (fun row => map (fun col => tile_spec width height tile_width tile_height row col)
                  (seqZ 0 cols))
    (seqZ 0 rows).

(** The planning step on its own: [cols], [rows] and the rectangles. *)
Definition plan (width height tile_width tile_height : Z) : result (list TileSpec) :=
  match ceil_truediv width tile_width with
  | Raise e => Raise e
  | Ok cols =>
      match ceil_truediv height tile_height with
      | Raise e => Raise e
      | Ok rows => Ok (tile_grid width height tile_width tile_height cols rows)
      end
  end.

(** The pixel [(px, py)] lies in the rectangle of [t]. *)
Definition in_tile (t : TileSpec) (px py : Z) : Prop :=
  origin_x t <= px < origin_x t + t_width t /\ origin_y t <= py < origin_y t + t_height t.

(** ** [download_and_stitch_image] *)

(** [f"{x},{y},{w},{h}"] and the tile URL built from it. *)
Definition tile_url (base_url : string) (t : TileSpec) : string :=
  let region :=
    pretty (origin_x t) +:+ "," +:+ pretty (origin_y t) +:+ ","
    +:+ pretty (t_width t) +:+ "," +:+ pretty (t_height t) in
  base_url +:+ "/" +:+ region +:+ "/full/0/default.jpg".

(** The body of the inner loop. *)
Definition process_tile (env : world) (session_id base_url : string)
    (width height tile_width tile_height total_tiles row col : Z) : M unit :=
  let t := tile_spec width height tile_width tile_height row col in
  resp <- fetch_tile env (tile_url base_url t) 3 ;;
  match resp with
  | Some r =>
      if response_ok r && negb (PyStr.is_empty (content r)) then
        tile_img <- Image_open env (content r) ;;
        paste tile_img (origin_x t) (origin_y t)
      else raise (mk_exn RequestException ("Failed to download tile: " +:+ tile_url base_url t))
  | None => raise (mk_exn RequestException ("Failed to download tile: " +:+ tile_url base_url t))
  end ;;;
  n <- next_tile_num ;;
  p <- lift (tile_progress n total_tiles) ;;
  update_progress env session_id
    ("Downloaded tile " +:+ pretty n +:+ "/" +:+ pretty total_tiles) (Some p) None false None.

(** The test at the head of the task: true when the identifier is
    refused. *)
Definition task_rejects (image_id : string) : bool :=
  PyStr.contains "/" image_id || PyStr.contains "\" image_id || negb (PyStr.isalnum image_id).

Definition base_url_of (image_id : string) : string :=
  "https://iiif-antenati.cultura.gov.it/iiif/2/" +:+ image_id.

Definition output_file_of (env : world) (image_id : string) : string :=
  PyStr.path_join (PyStr.path_join (os_getcwd env) "downloads") (image_id +:+ "_stitched.jpg").

(** The statements that read the descriptor, from [info["width"]] to
    the computation of [rows]: they yield [(width, height, tile_width,
    tile_height, cols, rows)].  The source evaluates [info["tiles"][0]]
    a second time for the tile height; the value is the same. *)
Definition read_descriptor (info : json) : result (Z * Z * Z * Z * Z * Z) :=
  width <~ getitem info "width" ;;
  height <~ getitem info "height" ;;
  tiles <~ getitem info "tiles" ;;
  tile0 <~ getitem0 tiles ;;
  tile_width <~ getitem tile0 "width" ;;
  tile_height <~ dict_get tile0 "height" tile_width ;;
  wt <~ int_operands width tile_width ;;
  cols <~ ceil_truediv (fst wt) (snd wt) ;;
  ht <~ int_operands height tile_height ;;
  rows <~ ceil_truediv (fst ht) (snd ht) ;;
  Ok (fst wt, fst ht, snd wt, snd ht, cols, rows).

Definition info_url (image_id : string) : string := base_url_of image_id +:+ "/info.json".

(** The metadata request and what is read from its answer. *)
Definition fetch_metadata (env : world) (image_id : string) : M (Z * Z * Z * Z * Z * Z) :=
  info_resp <- requests_get env (info_url image_id) ;;
  raise_for_status info_resp ;;;
  info <- lift (response_json info_resp) ;;
  lift (read_descriptor info).

(** The two nested loops. *)
Definition download_tiles (env : world) (session_id base_url : string)
    (width height tile_width tile_height cols rows : Z) : M unit :=
  for_each (seqZ 0 rows) (fun row =>
    for_each (seqZ 0 cols) (fun col =>
      process_tile env session_id base_url width height tile_width tile_height
        (cols * rows) row col)).

(** The statements of the [try] block after the identifier has passed
    the test. *)
Definition stitch (env : world) (image_id session_id : string) : M unit :=
  makedirs env (PyStr.path_join (os_getcwd env) "downloads") ;;;
  meta <- fetch_metadata env image_id ;;
  let '(width, height, tile_width, tile_height, cols, rows) := meta in
  let total_tiles := cols * rows in
  update_progress env session_id
    ("Image size: " +:+ pretty width +:+ "x" +:+ pretty height +:+ ", downloading "
     +:+ pretty total_tiles +:+ " tiles...") (Some 5%Q) None false None ;;;
  Image_new env width height ;;;
  download_tiles env session_id (base_url_of image_id)
    width height tile_width tile_height cols rows ;;;
  update_progress env session_id "Saving final image..." (Some 95%Q) None false None ;;;
  Image_save env (output_file_of env image_id) ;;;
  update_progress env session_id "Image ready for download!" (Some 100%Q) None true
    (Some (output_file_of env image_id)).

(** The [try] block. *)
Definition try_block (env : world) (image_id session_id : string) : M unit :=
  update_progress env session_id "Fetching image metadata..." (Some 0%Q) None false None ;;;
  if task_rejects image_id then
    update_progress env session_id "Invalid image ID" None
      (Some "Please provide a valid alphanumeric IIIF image ID") false None
  else stitch env image_id session_id.

(** The whole task: the [try] block and its two handlers.  It returns
    the state it leaves behind; no exception escapes. *)
Definition download_and_stitch_image (env : world) (image_id session_id : string)
    (st : state) : state :=
  match try_block env image_id session_id st with
  | (Ok _, st') => st'
  | (Raise e, st') =>
      if is_RequestException e then
        snd (update_progress env session_id "Network error occurred" None
               (Some ("Failed to download image: " +:+ exn_str e)) false None st')
      else
        snd (update_progress env session_id "An error occurred" None
               (Some ("Unexpected error: " +:+ exn_str e)) false None st')
  end.

(** The records one task writes, in order. *)
Definition session_writes (env : world) (image_id session_id : string) : list ProgressRecord :=
  map snd (progress_log (download_and_stitch_image env image_id session_id (new_task ∅))).

(** ** The request handlers *)

(** What a handler returns: a JSON body with a status, or a file. *)
Inductive reply_body :=
| ErrorBody (msg : string)
| SessionBody (session_id : string)
| ProgressBody (r : ProgressRecord).

Inductive reply :=
| Json (status : Z) (body : reply_body)
| SendFile (path download_name mimetype : string).

(** The test of [start_download]: true when the identifier is refused. *)
Definition intake_rejects (image_id : string) : bool :=
  PyStr.contains "/" image_id || PyStr.contains "\" image_id
  || negb (PyStr.isalnum (PyStr.remove "-" (PyStr.remove "_" image_id))).

(** [start_download]: [field] is [data.get('image_id', '')], [fresh] the
    value of [str(uuid.uuid4())].  Besides the reply it returns the
    arguments of the thread it starts, if it starts one. *)
Definition start_download (field fresh : string) : reply * option (string * string) :=
  let image_id := PyStr.strip field in
  if PyStr.is_empty image_id then
    (Json 400 (ErrorBody "Please enter an IIIF image ID"), None)
  else if intake_rejects image_id then
    (Json 400 (ErrorBody "Invalid image ID format. Please provide a valid IIIF image ID."), None)
  else (Json 200 (SessionBody fresh), Some (image_id, fresh)).

(** [get_progress] *)
Definition get_progress (dp : gmap string ProgressRecord) (session_id : string) : reply :=
  match dp !! session_id with
  | None => Json 404 (ErrorBody "Session not found")
  | Some r => Json 200 (ProgressBody r)
  end.

(** [download_file]: [path_exists] is [os.path.exists]. *)
Definition download_file (dp : gmap string ProgressRecord) (path_exists : string -> bool)
    (session_id : string) : reply :=
  match dp !! session_id with
  | None => Json 404 (ErrorBody "Session not found")
  | Some progress_data =>
      if negb (completed progress_data) then Json 400 (ErrorBody "Download not completed yet")
      else
        match file_path progress_data with
        | None => Json 404 (ErrorBody "File not found")
        | Some path =>
            if PyStr.is_empty path || negb (path_exists path) then
              Json 404 (ErrorBody "File not found")
            else SendFile path (PyStr.basename path) "image/jpeg"
        end
  end.

(** ** The server: sessions running side by side

    The dictionary is shared.  A thread is the list of writes it has
    still to make: a task never reads the dictionary, so its writes are
    the same whatever the other threads do ([task_replays_writes]
    below).  [srv_sessions] are the identifiers [start_download] has
    handed out. *)
Record server := mk_server {
  srv_progress : gmap string ProgressRecord;
  srv_sessions : list string;
  srv_threads : list (list (string * ProgressRecord))
}.

Definition server_start : server := mk_server ∅ [] [].

(** The writes of a task, with the key each one goes to. *)
Definition task_writes (env : world) (image_id session_id : string)
  : list (string * ProgressRecord) :=
  progress_log (download_and_stitch_image env image_id session_id (new_task ∅)).

Inductive server_step : server -> server -> Prop :=
| step_start (s : server) (env : world) (field fresh image_id : string) (r : reply) :
    start_download field fresh = (r, Some (image_id, fresh)) ->
    server_step s
      (mk_server (srv_progress s) (fresh :: srv_sessions s)
         (task_writes env image_id fresh :: srv_threads s))
| step_refuse (s : server) (field fresh : string) (r : reply) :
    start_download field fresh = (r, None) ->
    server_step s s
| step_write (s : server) (before after : list (list (string * ProgressRecord)))
    (session_id : string) (r : ProgressRecord) (rest : list (string * ProgressRecord)) :
    srv_threads s = before ++ ((session_id, r) :: rest) :: after ->
    server_step s
      (mk_server (<[session_id := r]> (srv_progress s)) (srv_sessions s)
         (before ++ rest :: after)).

Inductive reachable : server -> Prop :=
| reach_start : reachable server_start
| reach_step (s s' : server) : reachable s -> server_step s s' -> reachable s'.

(** ** What the design document states, in its own words *)

(** [ceil(a / b)] over the integers, [0 < b]. *)
Definition ceil_div (a b : Z) : Z := - ((- a) / b).

(** The rectangles [tiles] are pairwise disjoint, their union is
    [[0, width) x [0, height)], and there are [count] of them. *)
Definition exact_tiling (width height count : Z) (tiles : list TileSpec) : Prop :=
  (forall i j t1 t2 px py,
      tiles !! i = Some t1 -> tiles !! j = Some t2 -> i <> j ->
      ~ (in_tile t1 px py /\ in_tile t2 px py))
  /\ (forall px py,
         (0 <= px < width /\ 0 <= py < height) <-> (exists t, In t tiles /\ in_tile t px py))
  /\ Z.of_nat (length tiles) = count.

(** The grid planning step produces an exact tiling with
    [ceil(width / tile_width) * ceil(height / tile_height)] rectangles. *)
Definition plans_exact_tiling (width height tile_width tile_height : Z) : Prop :=
  exists tiles,
    plan width height tile_width tile_height = Ok tiles
    /\ exact_tiling width height
         (ceil_div width tile_width * ceil_div height tile_height) tiles.

(** *** Vocabulary for the tile fetcher *)

(** The answer of the remote server to the [i]-th request made from the
    state [st] on (counted from 0), should it be a request for [u]. *)
Definition attempt (env : world) (st : state) (u : string) (i : nat) : outcome :=
  remote env (length (http_log st) + i) u.

(** An attempt fails in a way [fetch_tile] retries: a response whose
    status is not 200, or a transport exception. *)
Definition failure (o : outcome) : bool :=
  match o with
  | Returned r => negb (status_code r =? 200)
  | Raised e => is_RequestException e
  end.

(** Number of requests made between two states. *)
Definition attempts_made (st st' : state) : nat :=
  (length (http_log st') - length (http_log st))%nat.

(** The state after [k] requests for [u] and [sl] sleeps. *)
Definition after_attempts (st : state) (u : string) (k sl : nat) : state :=
  mk_state (download_progress st) (progress_log st) (http_log st ++ replicate k u)
    (sl + slept st) (clock_reads st) (final_img st) (tile_num st) (files st).

(** The local variable [resp] after the first [k] attempts have failed. *)
Fixpoint resp_after (env : world) (st : state) (u : string) (k : nat)
    (resp : option response) : option response :=
  match k with
  | O => resp
  | S k' =>
      match attempt env st u k' with
      | Returned r => Some r
      | Raised _ => resp_after env st u k' resp
      end
  end.

(** The retry contract in the words of the design document: when all
    [retries] attempts fail and some attempt obtained a response, the
    error surfaced is the failure status of the last response obtained. *)
Definition surfaces_last_response_status : Prop :=
  forall env u st n r,
    (forall i, (i < S n)%nat -> failure (attempt env st u i) = true) ->
    resp_after env st u (S n) None = Some r ->
    fst (fetch_tile env u (Z.of_nat (S n)) st) = Raise (mk_exn HTTPError (http_error_msg r)).

(** *** Vocabulary for sessions *)

(** The value of [5 + (tile_num / total_tiles) * 85] in binary64
    arithmetic. *)
Definition tile_progress_value (tile_num total_tiles : Z) : Q :=
  PyFloat.float_add 5
    (PyFloat.float_mul (PyFloat.binary64_round (PyFloat.exact_quotient tile_num total_tiles)) 85).

(** What the descriptor of [image_id] yields in the world [env]. *)
Definition metadata_of (env : world) (image_id : string) : result (Z * Z * Z * Z * Z * Z) :=
  fst (fetch_metadata env image_id (new_task ∅)).

(** The record [update_progress] writes when the clock has been read
    [i] times before. *)
Definition record_at (env : world) (i : nat) (msg : string) (prog : option Q)
    (err : option string) (done_flag : bool) (path : option string) : ProgressRecord :=
  mk_record msg prog err done_flag path (time_time env i).

Definition start_record (env : world) : ProgressRecord :=
  record_at env 0 "Fetching image metadata..." (Some 0%Q) None false None.

Definition invalid_record (env : world) : ProgressRecord :=
  record_at env 1 "Invalid image ID" None
    (Some "Please provide a valid alphanumeric IIIF image ID") false None.

Definition size_record (env : world) (width height total_tiles : Z) : ProgressRecord :=
  record_at env 1
    ("Image size: " +:+ pretty width +:+ "x" +:+ pretty height +:+ ", downloading "
     +:+ pretty total_tiles +:+ " tiles...") (Some 5%Q) None false None.

(** The record written after tile number [j], counted from 1. *)
Definition tile_record (env : world) (total_tiles : Z) (j : nat) : ProgressRecord :=
  record_at env (S j)
    ("Downloaded tile " +:+ pretty (Z.of_nat j) +:+ "/" +:+ pretty total_tiles)
    (Some (tile_progress_value (Z.of_nat j) total_tiles)) None false None.

Definition tile_records (env : world) (total_tiles : Z) (k : nat) : list ProgressRecord :=
  map (tile_record env total_tiles) (seq 1 k).

Definition saving_record (env : world) (i : nat) : ProgressRecord :=
  record_at env i "Saving final image..." (Some 95%Q) None false None.

Definition ready_record (env : world) (i : nat) (path : string) : ProgressRecord :=
  record_at env i "Image ready for download!" (Some 100%Q) None true (Some path).

(** The record one of the two handlers writes for the exception [e]. *)
Definition handler_record (env : world) (i : nat) (e : exn) : ProgressRecord :=
  if is_RequestException e then
    record_at env i "Network error occurred" None
      (Some ("Failed to download image: " +:+ exn_str e)) false None
  else
    record_at env i "An error occurred" None
      (Some ("Unexpected error: " +:+ exn_str e)) false None.

(** A record is terminal when it reports completion or an error. *)
Definition terminal (r : ProgressRecord) : Prop :=
  completed r = true \/ error r <> None.

(** A success response with an empty body. *)
Definition empty_success (o : outcome) : bool :=
  match o with
  | Returned r => (status_code r =? 200) && PyStr.is_empty (content r)
  | Raised _ => false
  end.

(** No tile request made so far was answered by a success response with
    an empty body.  Request 0 is the metadata request. *)
Definition no_empty_tile (env : world) (st : state) : Prop :=
  forall n u, (1 <= n)%nat -> http_log st !! n = Some u -> empty_success (remote env n u) = false.

(** The task stopped at a tile whose success response had an empty
    body: the exception is the one raised for that tile's URL [u], only
    requests for [u] were answered that way, and the canvas holds the
    [k] tiles pasted before. *)
Definition empty_tile_raised (env : world) (st : state) (e : exn) (k : nat) : Prop :=
  exists u,
    e = mk_exn RequestException ("Failed to download tile: " +:+ u)
    /\ (forall n u', (1 <= n)%nat -> http_log st !! n = Some u' ->
                     empty_success (remote env n u') = true -> u' = u)
    /\ exists cv, final_img st = Some cv /\ length (cv_pastes cv) = k.

(** The state after [i] turns of the tile loop: the records written so
    far follow [head], the canvas holds [i] pastes. *)
Definition tiles_done (env : world) (head : list ProgressRecord) (total_tiles : Z)
    (i : nat) (st : state) : Prop :=
  map snd (progress_log st) = head ++ tile_records env total_tiles i
  /\ tile_num st = Z.of_nat i
  /\ clock_reads st = S (S i)
  /\ (exists cv, final_img st = Some cv /\ length (cv_pastes cv) = i)
  /\ no_empty_tile env st.

(** The state when turn [i] of the tile loop (counted from 0) has raised
    [e]. *)
Definition tile_failed (env : world) (head : list ProgressRecord) (total_tiles : Z)
    (i : nat) (e : exn) (st : state) : Prop :=
  map snd (progress_log st) = head ++ tile_records env total_tiles i
  /\ clock_reads st = S (S i)
  /\ (no_empty_tile env st \/ empty_tile_raised env st e i).

(** The progress values of a list of records: the [progress] fields that
    are present, in order. *)
Definition progress_values (ws : list ProgressRecord) : list Q := omap progress ws.

(** The two terminal forms of a record. *)
Definition completed_form (r : ProgressRecord) : Prop :=
  completed r = true /\ file_path r <> None /\ error r = None.

Definition failed_form (r : ProgressRecord) : Prop :=
  error r <> None /\ completed r = false /\ file_path r = None.

(** A session completes when it writes a record with [completed] set. *)
Definition session_completes (env : world) (image_id session_id : string) : Prop :=
  exists r, In r (session_writes env image_id session_id) /\ completed r = true.

(** The ways a task can end, with what it leaves in the state. *)
Inductive session_end (env : world) (image_id session_id : string) : state -> Prop :=
| end_invalid (st : state) :
    task_rejects image_id = true ->
    map snd (progress_log st) = [start_record env; invalid_record env] ->
    http_log st = [] ->
    session_end env image_id session_id st
| end_early (st : state) (e : exn) :
    map snd (progress_log st) = [start_record env; handler_record env 1 e] ->
    no_empty_tile env st ->
    session_end env image_id session_id st
| end_tiles (st : state) (width height tile_width tile_height cols rows : Z) (k : nat)
    (e : exn) :
    metadata_of env image_id = Ok (width, height, tile_width, tile_height, cols, rows) ->
    (k <= length (tile_grid width height tile_width tile_height cols rows))%nat ->
    map snd (progress_log st)
    = [start_record env; size_record env width height (cols * rows)]
      ++ tile_records env (cols * rows) k ++ [handler_record env (S (S k)) e] ->
    no_empty_tile env st \/ empty_tile_raised env st e k ->
    session_end env image_id session_id st
| end_save (st : state) (width height tile_width tile_height cols rows : Z) (e : exn) :
    metadata_of env image_id = Ok (width, height, tile_width, tile_height, cols, rows) ->
    map snd (progress_log st)
    = [start_record env; size_record env width height (cols * rows)]
      ++ tile_records env (cols * rows)
           (length (tile_grid width height tile_width tile_height cols rows))
      ++ [saving_record env
            (S (S (length (tile_grid width height tile_width tile_height cols rows))));
          handler_record env
            (S (S (S (length (tile_grid width height tile_width tile_height cols rows))))) e] ->
    no_empty_tile env st ->
    session_end env image_id session_id st
| end_ready (st : state) (width height tile_width tile_height cols rows : Z) :
    metadata_of env image_id = Ok (width, height, tile_width, tile_height, cols, rows) ->
    map snd (progress_log st)
    = [start_record env; size_record env width height (cols * rows)]
      ++ tile_records env (cols * rows)
           (length (tile_grid width height tile_width tile_height cols rows))
      ++ [saving_record env
            (S (S (length (tile_grid width height tile_width tile_height cols rows))));
          ready_record env
            (S (S (S (length (tile_grid width height tile_width tile_height cols rows)))))
            (output_file_of env image_id)] ->
    no_empty_tile env st ->
    session_end env image_id session_id st.

(** *** Vocabulary for the stitcher, the validation and the server *)

(** The stitching contract in the words of the design document: an
    image composited at the origin of a planned tile has the width and
    the height of that tile. *)
Definition mismatch_is_fatal : Prop :=
  forall env image_id session_id width height tile_width tile_height cols rows cv img t,
    metadata_of env image_id = Ok (width, height, tile_width, tile_height, cols, rows) ->
    In t (tile_grid width height tile_width tile_height cols rows) ->
    final_img (download_and_stitch_image env image_id session_id (new_task ∅)) = Some cv ->
    In (img, (origin_x t, origin_y t)) (cv_pastes cv) ->
    im_width img = t_width t /\ im_height img = t_height t.

(** The validation rule in the words of the design document: the test
    at intake and the test at the head of the task agree on every
    identifier. *)
Definition validation_agrees : Prop :=
  forall image_id, intake_rejects image_id = task_rejects image_id.

(** A computation writes progress records under the key [session_id]
    only. *)
Definition keeps_key (session_id : string) {A} (m : M A) : Prop :=
  forall st,
    Forall (fun kr => fst kr = session_id) (progress_log st) ->
    Forall (fun kr => fst kr = session_id) (progress_log (snd (m st))).

(** Every key of the dictionary, and every key a thread has still to
    write, is an identifier [start_download] handed out. *)
Definition server_inv (s : server) : Prop :=
  (forall k, is_Some (srv_progress s !! k) -> In k (srv_sessions s))
  /\ Forall (Forall (fun kr => In (fst kr) (srv_sessions s))) (srv_threads s).

(** *** Vocabulary for tasks that share the dictionary *)

(** The state [st] with the dictionary [dp] in place of its own. *)
Definition with_dictionary (dp : gmap string ProgressRecord) (st : state) : state :=
  mk_state dp (progress_log st) (http_log st) (slept st) (clock_reads st) (final_img st)
    (tile_num st) (files st).

(** The dictionary after the writes [ws] have been made to [dp] in
    order. *)
Definition replay (ws : list (string * ProgressRecord)) (dp : gmap string ProgressRecord)
  : gmap string ProgressRecord :=
  fold_left (fun m kr => <[fst kr := snd kr]> m) ws dp.

(** A computation neither reads nor writes the dictionary. *)
Definition quiet {A} (m : M A) : Prop :=
  forall st,
    progress_log (snd (m st)) = progress_log st
    /\ forall dp, m (with_dictionary dp st) = (fst (m st), with_dictionary dp (snd (m st))).

(** A computation never reads the dictionary: run on another dictionary
    it returns the same result and makes the same writes. *)
Definition oblivious {A} (m : M A) : Prop :=
  forall st, exists ws,
    progress_log (snd (m st)) = progress_log st ++ ws
    /\ forall dp,
         m (with_dictionary dp st)
         = (fst (m st), with_dictionary (replay ws dp) (snd (m st))).

(** *** The Standard Library's binary64, to compare the rounding with *)

(** The value of a finite [spec_float]. *)
Definition spec_float_value (f : spec_float) : Q :=
  match f with
  | S754_finite s m e =>
      let v := if 0 <=? e then inject_Z (Zpos m * 2 ^ e) else Qmake (Zpos m) (Z.to_pos (2 ^ (- e))) in
      if s then Qopp v else v
  | _ => 0%Q
  end.

Definition spec_int (z : Z) : spec_float :=
  match z with
  | Z0 => S754_zero false
  | Zpos p => SFdiv 53 1024 (S754_finite false p 0) (S754_finite false 1 0)
  | Zneg p => SFdiv 53 1024 (S754_finite true p 0) (S754_finite false 1 0)
  end.

(** *** Vocabulary for what a task leaves behind *)

(** Where a rectangle is pasted. *)
Definition origin (t : TileSpec) : Z * Z := (origin_x t, origin_y t).

(** The requests for the rectangles [ts] when the one at position [i] is
    asked for [ks !! i] times in a row. *)
Definition tile_requests (base : string) (ks : list nat) (ts : list TileSpec) : list string :=
  flat_map (fun kt => replicate (fst kt) (tile_url base (snd kt))) (zip ks ts).

(** [ks] counts the requests made for each of [n] tiles fetched with
    success: between one and three. *)
Definition retry_counts (n : nat) (ks : list nat) : Prop :=
  length ks = n /\ Forall (fun k => (1 <= k <= 3)%nat) ks.

(** No record written so far reports completion. *)
Definition unfinished (log : list (string * ProgressRecord)) : Prop :=
  Forall (fun kr => completed (snd kr) = false) log.

(** A URL the task may ask for: the descriptor, or a rectangle of the
    grid the descriptor yields. *)
Definition planned_request (env : world) (image_id u : string) : Prop :=
  u = info_url image_id
  \/ exists W H tw th cols rows t,
       metadata_of env image_id = Ok (W, H, tw, th, cols, rows)
       /\ In t (tile_grid W H tw th cols rows)
       /\ u = tile_url (base_url_of image_id) t.

(** The surroundings after [i] turns of the tile loop over [grid]: no
    file saved, the canvas of the image's size holding a paste at the
    origin of each of the first [i] rectangles, in order, and the
    requests made. *)
Definition stitching (image_id : string) (W H : Z) (grid : list TileSpec) (i : nat)
    (st : state) : Prop :=
  files st = ∅
  /\ unfinished (progress_log st)
  /\ (exists cv, final_img st = Some cv /\ cv_width cv = W /\ cv_height cv = H
        /\ map snd (cv_pastes cv) = map origin (take i grid))
  /\ exists ks, retry_counts i ks
       /\ http_log st
          = info_url image_id :: tile_requests (base_url_of image_id) ks (take i grid).

(** The surroundings of a task that has failed. *)
Definition stitching_failed (env : world) (image_id : string) (st : state) : Prop :=
  files st = ∅
  /\ unfinished (progress_log st)
  /\ Forall (planned_request env image_id) (http_log st).

(** The surroundings of a task that went through: the canvas, saved
    under the output file name, holds one paste per rectangle of the
    grid, at its origin and in the order of the grid; the requests were
    the one for the descriptor and then, rectangle by rectangle, those
    for its tile. *)
Definition stitched (env : world) (image_id : string) (st : state) : Prop :=
  exists W H tw th cols rows cv ks,
    metadata_of env image_id = Ok (W, H, tw, th, cols, rows)
    /\ final_img st = Some cv /\ cv_width cv = W /\ cv_height cv = H
    /\ map snd (cv_pastes cv) = map origin (tile_grid W H tw th cols rows)
    /\ files st = {[output_file_of env image_id := cv]}
    /\ retry_counts (length (tile_grid W H tw th cols rows)) ks
    /\ http_log st
       = info_url image_id
         :: tile_requests (base_url_of image_id) ks (tile_grid W H tw th cols rows)
    /\ exists kr, In kr (progress_log st) /\ completed (snd kr) = true.

(** *** Vocabulary for the records the handlers serve *)

(** The shape of a record: one that reports completion carries progress
    100, a file path and no error; any other carries no file path; one
    that reports an error carries no progress value and no completion;
    any other carries a progress value between 0 and 100. *)
Definition record_wellformed (r : ProgressRecord) : Prop :=
  (completed r = true -> progress r = Some 100%Q /\ error r = None /\ file_path r <> None)
  /\ (completed r = false -> file_path r = None)
  /\ (error r <> None -> completed r = false /\ progress r = None)
  /\ (error r = None -> exists p, progress r = Some p /\ (0 <= p <= 100)%Q).

(** Some task writes the record [r]. *)
Definition written_by_task (r : ProgressRecord) : Prop :=
  exists env image_id session_id, In r (session_writes env image_id session_id).

(** Every record of the dictionary, and every record a thread has still
    to write, is one a task writes. *)
Definition server_records_inv (s : server) : Prop :=
  (forall k r, srv_progress s !! k = Some r -> written_by_task r)
  /\ Forall (Forall (fun kr => written_by_task (snd kr))) (srv_threads s).

(** Every thread belongs to the session at its position in
    [srv_sessions]: what it has still to write is the rest of the writes
    of a task of that session, and the dictionary holds under the
    session's key the last write the thread has made, if any. *)
Definition server_owned (s : server) : Prop :=
  length (srv_sessions s) = length (srv_threads s)
  /\ forall i sid th,
       srv_sessions s !! i = Some sid -> srv_threads s !! i = Some th ->
       exists env image_id written,
         task_writes env image_id sid = written ++ th
         /\ srv_progress s !! sid = snd <$> last written.

(** ** Scenarios

    Stub servers and worlds on which the statements below are tried. *)

(** The descriptor of an image [w] by [h] with tiles [tw] by [th]. *)
Definition info_json (w h tw th : Z) : json :=
  JDict [("width"%string, JInt w); ("height"%string, JInt h);
         ("tiles"%string,
          JList [JDict [("width"%string, JInt tw); ("height"%string, JInt th)]])].

Definition ok_response (u body : string) (j : option json) : response :=
  mk_response 200 "OK" u body j.

Definition server_error (u : string) : response :=
  mk_response 500 "Internal Server Error" u "" None.

Definition connection_refused : exn := mk_exn ConnectionError "Connection refused".

(** A world around the server [srv] and the decoder [decode]: the clock
    counts its readings, directories and canvases can always be made and
    files saved. *)
Definition stub_world (srv : nat -> string -> outcome) (decode : string -> exn + image)
  : world :=
  mk_world srv (fun n => inject_Z (Z.of_nat n)) "/srv" (fun _ => None) (fun _ _ => None)
    decode (fun _ _ => None).

(** The decoder of the scenarios: every body is a tile [w] by [h]. *)
Definition decode_as (w h : Z) (body : string) : exn + image :=
  inr (mk_image w h body).

(** A server that fails twice, with a 500 and then a refused connection,
    and succeeds from the third request on. *)
Definition flaky_server (n : nat) (u : string) : outcome :=
  match n with
  | O => Returned (server_error u)
  | S O => Raised connection_refused
  | _ => Returned (ok_response u "tile" None)
  end.

(** A server that answers the first request with a 500 and refuses every
    later connection. *)
Definition mixed_server (n : nat) (u : string) : outcome :=
  match n with
  | O => Returned (server_error u)
  | _ => Raised connection_refused
  end.

(** A server that answers the first request with the descriptor of an
    image [w] by [h] with tiles [tw] by [th], and every later request
    with [body]. *)
Definition image_server (w h tw th : Z) (body : string) (n : nat) (u : string) : outcome :=
  match n with
  | O => Returned (ok_response u "{}" (Some (info_json w h tw th)))
  | _ => Returned (ok_response u body None)
  end.

(** The server after [start_download] accepted the identifier [abc] and
    handed out [sid1], and the same server after the thread made its
    first write. *)
Definition scenario_world : world := stub_world (image_server 2 2 2 2 "jpeg") (decode_as 2 2).

Definition started_server : server :=
  mk_server ∅ ["sid1"%string] [task_writes scenario_world "abc" "sid1"].

Definition busy_server : server :=
  mk_server (<["sid1"%string := start_record scenario_world]> ∅) ["sid1"%string]
    ([] ++ tl (task_writes scenario_world "abc" "sid1") :: []).

(** A server that answers every request with 204 and no body. *)
Definition no_content_server (n : nat) (u : string) : outcome :=
  Returned (mk_response 204 "No Content" u "" None).

(** A server that answers the first request with a 500; the second
    request fails inside the client with an exception that is not a
    [RequestException]. *)
Definition broken_client_server (n : nat) (u : string) : outcome :=
  match n with
  | O => Returned (server_error u)
  | _ => Raised (mk_exn ValueError "check_hostname requires server_hostname")
  end.

(** A server that answers every request with a 500. *)
Definition failing_server (n : nat) (u : string) : outcome := Returned (server_error u).

(** A descriptor whose tile entry has a width only. *)
Definition square_info (w h tw : Z) : json :=
  JDict [("width"%string, JInt w); ("height"%string, JInt h);
         ("tiles"%string, JList [JDict [("width"%string, JInt tw)]])].

(** The server of the scenario after the thread of [sid1] has made all
    its writes. *)
Definition finished_server : server :=
  mk_server (replay (task_writes scenario_world "abc" "sid1") ∅) ["sid1"%string]
    ([] ++ [] :: []).

(** The server of the scenario once more, after [start_download] has
    handed out a second identifier. *)
Definition restarted_server : server :=
  mk_server (srv_progress finished_server) ["sid2"%string; "sid1"%string]
    (task_writes scenario_world "abc" "sid2" :: srv_threads finished_server).

(** * Properties *)

(** ** Binary64 rounding *)

Section Rounding.

Import PyFloat.

Lemma div_le_cross n1 d1 n2 d2 :
  0 < d1 -> 0 < d2 -> n1 * d2 <= n2 * d1 -> n1 / d1 <= n2 / d2.
Proof.
  intros H1 H2 H.
  apply Z.div_le_lower_bound; [lia|].
  pose proof (Z.mul_div_le n1 d1 H1).
  assert (d1 * (d2 * (n1 / d1)) <= d1 * n2) by nia.
  nia.
Qed.

Lemma round_half_even_bounds n d :
  0 < d -> n / d <= round_half_even n d <= n / d + 1.
Proof.
  intros Hd. unfold round_half_even.
  repeat match goal with |- context [if ?b then _ else _] => destruct b end; lia.
Qed.

Lemma round_half_even_mono n1 d1 n2 d2 :
  0 < d1 -> 0 < d2 -> n1 * d2 <= n2 * d1 ->
  round_half_even n1 d1 <= round_half_even n2 d2.
Proof.
  intros H1 H2 H.
  pose proof (div_le_cross _ _ _ _ H1 H2 H) as Hq.
  pose proof (round_half_even_bounds n1 d1 H1) as B1.
  pose proof (round_half_even_bounds n2 d2 H2) as B2.
  destruct (Z.eq_dec (n1 / d1) (n2 / d2)) as [E|NE]; [|lia].
  pose proof (Z.div_mod n1 d1 ltac:(lia)) as E1.
  pose proof (Z.div_mod n2 d2 ltac:(lia)) as E2.
  pose proof (Z.mod_pos_bound n1 d1 H1) as R1.
  pose proof (Z.mod_pos_bound n2 d2 H2) as R2.
  assert (Hr : (n1 mod d1) * d2 <= (n2 mod d2) * d1).
  { rewrite E1, E2 in H. rewrite E in H. nia. }
  unfold round_half_even in *. rewrite <- E in *.
  set (q := n1 / d1) in *. set (r1 := n1 mod d1) in *. set (r2 := n2 mod d2) in *.
  destruct (Z.ltb_spec (2 * r1) d1); [destruct (2 * r2 <? d2), (2 * r2 =? d2), (Z.even q); lia|].
  destruct (Z.ltb_spec (2 * r2) d2); [exfalso; nia|].
  destruct (Z.eqb_spec (2 * r1) d1).
  - destruct (Z.even q); [destruct (2 * r2 =? d2); lia|]. 
    destruct (2 * r2 =? d2); lia.
  - destruct (Z.eqb_spec (2 * r2) d2); [exfalso; nia|lia].
Qed.

Lemma binary64_shift_nonneg n d : 0 <= binary64_shift n d.
Proof. unfold binary64_shift. lia. Qed.

Lemma binary64_quot_upper n d :
  0 <= n -> 0 < d -> n / (d * 2 ^ binary64_shift n d) < 2 ^ 53.
Proof.
  intros Hn Hd. pose proof (binary64_shift_nonneg n d) as Hs.
  rewrite <- Z.div_div by lia.
  assert (Hf : 0 <= n / d) by (apply Z.div_pos; lia).
  apply Z.div_lt_upper_bound; [lia|].
  rewrite <- Z.pow_add_r by lia.
  destruct (Z.eq_dec (n / d) 0) as [->|Hnz]; [lia|].
  destruct (Z.log2_spec (n / d)) as [_ Hu]; [lia|].
  eapply Z.lt_le_trans; [exact Hu|].
  apply Z.pow_le_mono_r; [lia|]. unfold binary64_shift. lia.
Qed.

Lemma binary64_quot_lower n d :
  0 <= n -> 0 < d -> 0 < binary64_shift n d ->
  2 ^ 52 <= n / (d * 2 ^ binary64_shift n d).
Proof.
  intros Hn Hd Hs.
  rewrite <- Z.div_div by lia.
  assert (Hl : binary64_shift n d = Z.log2 (n / d) - 52) by (unfold binary64_shift in *; lia).
  assert (Hpos : 0 < n / d).
  { destruct (Z_lt_le_dec 0 (n / d)); [lia|]. rewrite Z.log2_nonpos in Hl by lia. lia. }
  destruct (Z.log2_spec (n / d) Hpos) as [Hlo _].
  apply Z.div_le_lower_bound; [lia|].
  rewrite <- Z.pow_add_r by lia.
  replace (binary64_shift n d + 52) with (Z.log2 (n / d)) by lia. exact Hlo.
Qed.

Lemma binary64_shift_mono n1 d1 n2 d2 :
  0 < d1 -> 0 < d2 -> n1 * d2 <= n2 * d1 ->
  binary64_shift n1 d1 <= binary64_shift n2 d2.
Proof.
  intros H1 H2 H. unfold binary64_shift.
  pose proof (Z.log2_le_mono _ _ (div_le_cross _ _ _ _ H1 H2 H)). lia.
Qed.

Lemma binary64_units_mono n1 d1 n2 d2 :
  0 <= n1 -> 0 < d1 -> 0 < d2 -> n1 * d2 <= n2 * d1 ->
  binary64_units n1 d1 <= binary64_units n2 d2.
Proof.
  intros Hn H1 H2 H.
  assert (Hn2 : 0 <= n2) by nia.
  pose proof (binary64_shift_mono _ _ _ _ H1 H2 H) as Hs.
  pose proof (binary64_shift_nonneg n1 d1) as Hs1.
  unfold binary64_units.
  set (s1 := binary64_shift n1 d1) in *. set (s2 := binary64_shift n2 d2) in *.
  assert (P1 : 0 < 2 ^ s1) by (apply Z.pow_pos_nonneg; lia).
  assert (P2 : 0 < 2 ^ s2) by (apply Z.pow_pos_nonneg; lia).
  destruct (Z.eq_dec s1 s2) as [E|NE].
  - rewrite <- E. apply Z.mul_le_mono_nonneg_r; [lia|].
    apply round_half_even_mono; nia.
  - assert (Hlt : s1 + 1 <= s2) by lia.
    pose proof (binary64_quot_upper n1 d1 Hn H1) as U. fold s1 in U.
    pose proof (binary64_quot_lower n2 d2 Hn2 H2 ltac:(fold s2; lia)) as L. fold s2 in L.
    pose proof (round_half_even_bounds n1 (d1 * 2 ^ s1) ltac:(nia)) as B1.
    pose proof (round_half_even_bounds n2 (d2 * 2 ^ s2) ltac:(nia)) as B2.
    assert (Hp : 2 ^ (s1 + 1) <= 2 ^ s2) by (apply Z.pow_le_mono_r; lia).
    rewrite Z.pow_add_r in Hp by lia. change (2 ^ 1) with 2 in Hp.
    transitivity (2 ^ 53 * 2 ^ s1).
    + apply Z.mul_le_mono_nonneg_r; lia.
    + transitivity (2 ^ 52 * 2 ^ s2).
      * change (2 ^ 53) with (2 ^ 52 * 2). nia.
      * apply Z.mul_le_mono_nonneg_r; lia.
Qed.

Lemma binary64_units_nonneg n d : 0 <= n -> 0 < d -> 0 <= binary64_units n d.
Proof.
  intros Hn Hd. unfold binary64_units.
  pose proof (binary64_shift_nonneg n d).
  assert (0 < 2 ^ binary64_shift n d) by (apply Z.pow_pos_nonneg; lia).
  pose proof (round_half_even_bounds n (d * 2 ^ binary64_shift n d) ltac:(nia)).
  assert (0 <= n / (d * 2 ^ binary64_shift n d)) by (apply Z.div_pos; nia).
  nia.
Qed.

Lemma round_half_even_scale n d c :
  0 < d -> 0 < c -> round_half_even (n * c) (d * c) = round_half_even n d.
Proof.
  intros Hd Hc. unfold round_half_even.
  rewrite Z.div_mul_cancel_r by lia.
  rewrite Z.mul_mod_distr_r by lia.
  replace (2 * (n mod d * c) <? d * c) with (2 * (n mod d) <? d)
    by (destruct (Z.ltb_spec (2 * (n mod d)) d), (Z.ltb_spec (2 * (n mod d * c)) (d * c)); auto; nia).
  replace (2 * (n mod d * c) =? d * c) with (2 * (n mod d) =? d)
    by (destruct (Z.eqb_spec (2 * (n mod d)) d), (Z.eqb_spec (2 * (n mod d * c)) (d * c)); auto; nia).
  reflexivity.
Qed.

Lemma binary64_units_ceil a b :
  0 < a < 2 ^ 53 -> 0 < b < 2 ^ 53 ->
  (ceil_div a b - 1) * binary64_unit < binary64_units (a * binary64_unit) b
    <= ceil_div a b * binary64_unit.
Proof.
  intros Ha Hb.
  set (U := binary64_unit).
  assert (HU : U = 2 ^ 1074) by reflexivity.
  assert (HUpos : 0 < U) by (rewrite HU; apply Z.pow_pos_nonneg; lia).
  set (s := binary64_shift (a * U) b).
  assert (Hn : 0 <= a * U) by nia.
  (* the quotient is large enough to be normal and small enough to stay below 2^1127 *)
  assert (Hflo : 2 ^ 1021 <= a * U / b).
  { apply Z.div_le_lower_bound; [lia|].
    assert (b * 2 ^ 1021 <= 2 ^ 53 * 2 ^ 1021) by (apply Z.mul_le_mono_nonneg_r; lia).
    assert (2 ^ 53 * 2 ^ 1021 = U) by (rewrite HU, <- Z.pow_add_r by lia; reflexivity).
    nia. }
  assert (Hfhi : a * U / b < 2 ^ 1127).
  { apply Z.div_lt_upper_bound; [lia|].
    assert (2 ^ 1127 = 2 ^ 53 * U) by (rewrite HU, <- Z.pow_add_r by lia; reflexivity).
    nia. }
  assert (Hlog : 1021 <= Z.log2 (a * U / b) <= 1126).
  { split.
    - apply Z.log2_le_pow2; [|exact Hflo]. 
      eapply Z.lt_le_trans; [|exact Hflo]. apply Z.pow_pos_nonneg; lia.
    - assert (Z.log2 (a * U / b) < 1127); [|lia].
      apply Z.log2_lt_pow2; [|exact Hfhi].
      eapply Z.lt_le_trans; [|exact Hflo]. apply Z.pow_pos_nonneg; lia. }
  assert (Hs : 0 < s <= 1074) by (unfold s, binary64_shift; lia).
  set (K := 2 ^ (1074 - s)).
  assert (HK : 0 < K) by (apply Z.pow_pos_nonneg; lia).
  assert (HP : 0 < 2 ^ s) by (apply Z.pow_pos_nonneg; lia).
  assert (HUK : U = K * 2 ^ s).
  { unfold K. rewrite <- Z.pow_add_r by lia. rewrite HU. f_equal. lia. }
  pose proof (binary64_quot_lower (a * U) b Hn ltac:(lia) ltac:(fold s; lia)) as Hq.
  fold s in Hq.
  unfold binary64_units. fold s.
  replace (a * U) with (a * K * 2 ^ s) in * by (rewrite HUK; ring).
  rewrite Z.div_mul_cancel_r in Hq by lia.
  rewrite round_half_even_scale by lia.
  assert (Hb2 : b < 2 * K).
  { pose proof (Z.mul_div_le (a * K) b ltac:(lia)). 
    assert (2 ^ 52 * b <= a * K) by nia.
    assert (a * K < 2 ^ 53 * K) by nia.
    change (2 ^ 53) with (2 ^ 52 * 2) in *. nia. }
  set (c := ceil_div a b).
  set (rm := (- a) mod b).
  assert (Hrm : 0 <= rm < b) by (apply Z.mod_pos_bound; lia).
  assert (Hac : a = c * b - rm).
  { unfold c, ceil_div, rm. pose proof (Z.div_mod (- a) b ltac:(lia)). lia. }
  pose proof (round_half_even_bounds (a * K) b ltac:(lia)) as Bm.
  set (m := round_half_even (a * K) b) in *.
  assert (Hgoal : (c - 1) * K < m <= c * K); [|rewrite HUK; nia].
  split.
  - (* strictly above the previous integer *)
    set (t := b - rm).
    assert (Ht : 1 <= t <= b) by (unfold t; lia).
    assert (HaK : a * K = (c - 1) * K * b + t * K) by (unfold t; rewrite Hac; ring).
    destruct (Z_lt_le_dec (t * K) b) as [Hsmall|Hbig].
    + assert (Hq0 : a * K / b = (c - 1) * K).
      { rewrite HaK, Z.div_add_l by lia. rewrite (Z.div_small (t * K)) by lia. lia. }
      assert (Hr0 : (a * K) mod b = t * K).
      { rewrite HaK, Z.add_comm, Z.mod_add by lia. apply Z.mod_small. lia. }
      assert (Hm : m = a * K / b + 1).
      { unfold m, round_half_even. rewrite Hr0.
        destruct (Z.ltb_spec (2 * (t * K)) b); [nia|].
        destruct (Z.eqb_spec (2 * (t * K)) b); [nia|]. reflexivity. }
      lia.
    + assert (1 <= t * K / b) by (apply Z.div_le_lower_bound; lia).
      assert (a * K / b = (c - 1) * K + t * K / b) by (rewrite HaK, Z.div_add_l by lia; reflexivity).
      lia.
  - destruct (Z.eq_dec rm 0) as [E0|NE0].
    + assert (HaK : a * K = c * K * b) by (rewrite Hac, E0; ring).
      assert (Hm : m = c * K).
      { unfold m, round_half_even. rewrite HaK, Z.div_mul, Z.mod_mul by lia.
        destruct (Z.ltb_spec (2 * 0) b); [reflexivity|lia]. }
      lia.
    + assert (a * K / b < c * K); [|lia].
      apply Z.div_lt_upper_bound; [lia|]. rewrite Hac. nia.
Qed.

Lemma binary64_signed_mono n1 d1 n2 d2 :
  0 < d1 -> 0 < d2 -> n1 * d2 <= n2 * d1 ->
  Z.sgn n1 * binary64_units (Z.abs n1) d1 <= Z.sgn n2 * binary64_units (Z.abs n2) d2.
Proof.
  intros H1 H2 H.
  pose proof (binary64_units_nonneg (Z.abs n1) d1 (Z.abs_nonneg _) H1) as P1.
  pose proof (binary64_units_nonneg (Z.abs n2) d2 (Z.abs_nonneg _) H2) as P2.
  destruct (Z_lt_le_dec n1 0) as [Hneg1|Hpos1].
  - destruct (Z_lt_le_dec n2 0) as [Hneg2|Hpos2].
    + rewrite !Z.sgn_neg, !Z.abs_neq by lia.
      pose proof (binary64_units_mono (- n2) d2 (- n1) d1 ltac:(lia) H2 H1 ltac:(nia)). lia.
    + rewrite Z.sgn_neg by lia.
      assert (0 <= Z.sgn n2) by (destruct n2; simpl; lia). nia.
  - assert (0 <= n2) by nia.
    destruct (Z.eq_dec n1 0) as [->|Hnz1].
    + simpl Z.sgn. assert (0 <= Z.sgn n2) by (destruct n2; simpl; lia). nia.
    + assert (0 < n2) by nia.
      rewrite !Z.sgn_pos, !Z.abs_eq by lia.
      pose proof (binary64_units_mono n1 d1 n2 d2 ltac:(lia) H1 H2 H). lia.
Qed.

(** Rounding is monotone. *)
Lemma binary64_round_mono (x y : Q) :
  (x <= y)%Q -> (binary64_round x <= binary64_round y)%Q.
Proof.
  intros H. unfold Qle in *. unfold binary64_round. cbn [Qnum Qden].
  apply Z.mul_le_mono_nonneg_r; [lia|].
  apply binary64_signed_mono; try lia.
  assert (0 < binary64_unit) by (unfold binary64_unit; apply Z.pow_pos_nonneg; lia).
  nia.
Qed.

(** Rounding respects equality of rationals. *)
Lemma binary64_round_comp (x y : Q) :
  (x == y)%Q -> (binary64_round x == binary64_round y)%Q.
Proof.
  intros H. apply Qle_antisym; apply binary64_round_mono; rewrite H; apply Qle_refl.
Qed.

(** Small integers are left as they are. *)
Lemma binary64_round_0 : (PyFloat.binary64_round 0 == 0)%Q.
Proof. vm_compute. reflexivity. Qed.

Lemma binary64_round_1 : (PyFloat.binary64_round 1 == 1)%Q.
Proof. vm_compute. reflexivity. Qed.

Lemma binary64_round_5 : (PyFloat.binary64_round 5 == 5)%Q.
Proof. vm_compute. reflexivity. Qed.

Lemma binary64_round_85 : (PyFloat.binary64_round 85 == 85)%Q.
Proof. vm_compute. reflexivity. Qed.

Lemma binary64_round_90 : (PyFloat.binary64_round 90 == 90)%Q.
Proof. vm_compute. reflexivity. Qed.

(** The smallest positive binary64 number is left as it is. *)
Lemma binary64_round_tiny :
  (PyFloat.binary64_round (1 # Z.to_pos (2 ^ 1074)) == 1 # Z.to_pos (2 ^ 1074))%Q.
Proof. vm_compute. reflexivity. Qed.

End Rounding.

(** Below 2^53 the rounding of the quotient does not move it across an
    integer: [math.ceil(a / b)] is the exact ceiling. *)
Lemma ceil_truediv_exact a b :
  0 < a < 2 ^ 53 -> 0 < b < 2 ^ 53 -> ceil_truediv a b = Ok (ceil_div a b).
Proof.
  intros Ha Hb.
  pose proof (binary64_units_ceil a b Ha Hb) as [Hlo Hhi].
  assert (HU : 0 < PyFloat.binary64_unit)
    by (unfold PyFloat.binary64_unit; apply Z.pow_pos_nonneg; lia).
  assert (Hc : 1 <= ceil_div a b <= a).
  { unfold ceil_div.
    assert (- a <= (- a) / b) by (apply Z.div_le_lower_bound; nia).
    assert ((- a) / b < 0) by (apply Z.div_lt_upper_bound; lia). lia. }
  unfold ceil_truediv, truediv.
  destruct (Z.eqb_spec b 0) as [?|_]; [lia|].
  unfold PyFloat.exact_quotient. destruct (Z.ltb_spec 0 b) as [_|?]; [|lia].
  unfold PyFloat.binary64_round. cbn [Qnum Qden].
  rewrite Z2Pos.id by lia.
  assert (Hn : 0 < a * PyFloat.binary64_unit) by nia.
  rewrite Z.sgn_pos, Z.abs_eq, Z.mul_1_l by lia.
  set (k := PyFloat.binary64_units (a * PyFloat.binary64_unit) b) in *.
  assert (Hfin : PyFloat.is_finite (k # Z.to_pos PyFloat.binary64_unit) = true).
  { unfold PyFloat.is_finite, PyFloat.binary64_huge, Qle_bool, Qopp, inject_Z. cbn [Qnum Qden].
    rewrite Z2Pos.id by lia.
    apply andb_true_iff; split; apply negb_true_iff, Z.leb_gt.
    - assert (k < 2 ^ 53 * PyFloat.binary64_unit) by nia.
      assert (2 ^ 53 * PyFloat.binary64_unit <= 2 ^ 1024 * PyFloat.binary64_unit)
        by (apply Z.mul_le_mono_nonneg_r; [lia|apply Z.pow_le_mono_r; lia]).
      lia.
    - assert (0 < 2 ^ 1024) by (apply Z.pow_pos_nonneg; lia). nia. }
  rewrite Hfin. f_equal.
  unfold PyFloat.ceil, Qceiling, Qfloor, Qopp. cbn [Qnum Qden].
  rewrite Z2Pos.id by lia.
  assert ((- k) / PyFloat.binary64_unit = - ceil_div a b); [|lia].
  symmetry. apply Z.div_unique with (r := ceil_div a b * PyFloat.binary64_unit - k); lia.
Qed.

(** ** The tile grid *)

Lemma ceil_div_spec a b :
  0 < b -> (ceil_div a b - 1) * b < a <= ceil_div a b * b.
Proof.
  intros Hb. unfold ceil_div.
  pose proof (Z.div_mod (- a) b ltac:(lia)).
  pose proof (Z.mod_pos_bound (- a) b Hb). nia.
Qed.

Lemma flat_map_bind {A B} (f : A -> list B) (l : list A) :
  flat_map f l = l ≫= f.
Proof. induction l as [|x l IH]; [reflexivity|]. simpl. rewrite IH. reflexivity. Qed.

Lemma length_flat_map_const {A B} (f : A -> list B) (l : list A) (n : nat) :
  (forall x, length (f x) = n) -> length (flat_map f l) = (length l * n)%nat.
Proof.
  intros Hf. induction l as [|x l IH]; [reflexivity|].
  simpl. rewrite length_app, Hf, IH. reflexivity.
Qed.

Lemma tile_grid_length W H tw th cols rows :
  length (tile_grid W H tw th cols rows) = (Z.to_nat rows * Z.to_nat cols)%nat.
Proof.
  unfold tile_grid.
  rewrite (length_flat_map_const _ _ (Z.to_nat cols)).
  - rewrite length_seqZ. reflexivity.
  - intros row. rewrite length_map, length_seqZ. reflexivity.
Qed.

Lemma tile_grid_In W H tw th cols rows t :
  In t (tile_grid W H tw th cols rows) <->
  exists row col, 0 <= row < rows /\ 0 <= col < cols /\ t = tile_spec W H tw th row col.
Proof.
  unfold tile_grid. rewrite in_flat_map. split.
  - intros (row & Hrow & Ht). apply in_map_iff in Ht as (col & <- & Hcol).
    apply list_elem_of_In, elem_of_seqZ in Hrow.
    apply list_elem_of_In, elem_of_seqZ in Hcol.
    exists row, col. repeat split; lia.
  - intros (row & col & Hrow & Hcol & ->).
    exists row. split.
    + apply list_elem_of_In, elem_of_seqZ. lia.
    + apply in_map_iff. exists col. split; [reflexivity|].
      apply list_elem_of_In, elem_of_seqZ. lia.
Qed.

Lemma tile_grid_NoDup W H tw th cols rows :
  NoDup (tile_grid W H tw th cols rows).
Proof.
  unfold tile_grid. rewrite flat_map_bind.
  apply NoDup_bind.
  - intros r1 r2 t _ _ H1 H2.
    apply list_elem_of_In, in_map_iff in H1 as (c1 & <- & _).
    apply list_elem_of_In, in_map_iff in H2 as (c2 & E & _).
    apply (f_equal t_row) in E. simpl in E. congruence.
  - intros row _.
    change (NoDup ((fun col => tile_spec W H tw th row col) <$> seqZ 0 cols)).
    apply NoDup_fmap_2; [|apply NoDup_seqZ].
    intros c1 c2 E. apply (f_equal t_col) in E. exact E.
  - apply NoDup_seqZ.
Qed.

(** A pixel determines the cell whose rectangle holds it. *)
Lemma in_tile_cell W H tw th row col px py :
  0 < tw -> 0 < th ->
  in_tile (tile_spec W H tw th row col) px py -> col = px / tw /\ row = py / th.
Proof.
  unfold in_tile, tile_spec. cbn. intros Htw Hth [Hx Hy].
  split.
  - apply Z.div_unique with (r := px - col * tw); lia.
  - apply Z.div_unique with (r := py - row * th); lia.
Qed.

Lemma tile_grid_disjoint W H tw th cols rows i j t1 t2 px py :
  0 < tw -> 0 < th ->
  tile_grid W H tw th cols rows !! i = Some t1 ->
  tile_grid W H tw th cols rows !! j = Some t2 ->
  i <> j -> ~ (in_tile t1 px py /\ in_tile t2 px py).
Proof.
  intros Htw Hth H1 H2 Hij [P1 P2].
  assert (I1 : In t1 (tile_grid W H tw th cols rows))
    by (apply list_elem_of_In, list_elem_of_lookup; eauto).
  assert (I2 : In t2 (tile_grid W H tw th cols rows))
    by (apply list_elem_of_In, list_elem_of_lookup; eauto).
  apply tile_grid_In in I1 as (r1 & c1 & _ & _ & ->).
  apply tile_grid_In in I2 as (r2 & c2 & _ & _ & ->).
  apply in_tile_cell in P1 as [-> ->]; [|lia..].
  apply in_tile_cell in P2 as [-> ->]; [|lia..].
  apply Hij. eapply NoDup_lookup; eauto using tile_grid_NoDup.
Qed.

(** Every rectangle of the grid lies inside the image, whatever [cols]
    and [rows] are. *)
Lemma tile_grid_inside W H tw th cols rows t px py :
  0 < tw -> 0 < th ->
  In t (tile_grid W H tw th cols rows) -> in_tile t px py ->
  (0 <= px < W /\ px < cols * tw) /\ (0 <= py < H /\ py < rows * th).
Proof.
  intros Htw Hth Ht Hin.
  apply tile_grid_In in Ht as (row & col & Hrow & Hcol & ->).
  unfold in_tile, tile_spec in Hin. cbn in Hin. nia.
Qed.

(** The grid covers every pixel below [cols * tw] and [rows * th]. *)
Lemma tile_grid_covers W H tw th cols rows px py :
  0 < tw -> 0 < th ->
  0 <= px < W -> px < cols * tw -> 0 <= py < H -> py < rows * th ->
  exists t, In t (tile_grid W H tw th cols rows) /\ in_tile t px py.
Proof.
  intros Htw Hth Hx Hxc Hy Hyr.
  exists (tile_spec W H tw th (py / th) (px / tw)).
  pose proof (Z.div_mod px tw ltac:(lia)). pose proof (Z.mod_pos_bound px tw Htw).
  pose proof (Z.div_mod py th ltac:(lia)). pose proof (Z.mod_pos_bound py th Hth).
  split.
  - apply tile_grid_In. exists (py / th), (px / tw).
    repeat split; try (apply Z.div_pos; lia); try (apply Z.div_lt_upper_bound; lia).
  - unfold in_tile, tile_spec. cbn. lia.
Qed.

Lemma tile_grid_exact W H tw th :
  0 < W -> 0 < H -> 0 < tw -> 0 < th ->
  exact_tiling W H (ceil_div W tw * ceil_div H th)
    (tile_grid W H tw th (ceil_div W tw) (ceil_div H th)).
Proof.
  intros HW HH Htw Hth.
  pose proof (ceil_div_spec W tw Htw) as Hc.
  pose proof (ceil_div_spec H th Hth) as Hr.
  split; [|split].
  - intros i j t1 t2 px py. apply tile_grid_disjoint; assumption.
  - intros px py. split.
    + intros [Hx Hy]. apply tile_grid_covers; lia.
    + intros (t & Ht & Hin). 
      destruct (tile_grid_inside _ _ _ _ _ _ _ _ _ Htw Hth Ht Hin). lia.
  - rewrite tile_grid_length, Nat2Z.inj_mul, !Z2Nat.id by nia. ring.
Qed.

(** A tile larger than the image, up to 2^1074: the quotient rounds to
    a number in (0, 1], whose ceiling is 1. *)
Lemma ceil_truediv_large_tile a b :
  0 < a -> a <= b -> b <= 2 ^ 1074 -> ceil_truediv a b = Ok 1.
Proof.
  intros Ha Hab Hb.
  assert (Hpow : 0 < 2 ^ 1074) by (apply Z.pow_pos_nonneg; lia).
  unfold ceil_truediv, truediv.
  destruct (Z.eqb_spec b 0) as [?|_]; [lia|].
  set (q := PyFloat.binary64_round (PyFloat.exact_quotient a b)).
  assert (Hx : (1 # Z.to_pos (2 ^ 1074) <= PyFloat.exact_quotient a b)%Q
               /\ (PyFloat.exact_quotient a b <= 1)%Q).
  { unfold PyFloat.exact_quotient. destruct (Z.ltb_spec 0 b); [|lia].
    unfold Qle. cbn [Qnum Qden]. rewrite !Z2Pos.id by lia. split; nia. }
  destruct Hx as [Hlo Hhi].
  assert (Hq : (0 < q)%Q /\ (q <= 1)%Q).
  { split.
    - eapply Qlt_le_trans; [|apply binary64_round_mono; exact Hlo].
      rewrite binary64_round_tiny. reflexivity.
    - rewrite <- binary64_round_1. apply binary64_round_mono. exact Hhi. }
  destruct Hq as [Hq0 Hq1].
  assert (Hfin : PyFloat.is_finite q = true).
  { unfold PyFloat.is_finite. apply andb_true_iff. split; apply negb_true_iff.
    - destruct (Qle_bool PyFloat.binary64_huge q) eqn:E; [|reflexivity].
      apply Qle_bool_iff in E. exfalso.
      assert (H1 : (PyFloat.binary64_huge <= 1)%Q) by (eapply Qle_trans; eauto).
      revert H1. unfold PyFloat.binary64_huge, Qle. cbn. 
      assert (1 < 2 ^ 1024) by (apply Z.pow_gt_1; lia). lia.
    - destruct (Qle_bool q (- PyFloat.binary64_huge)) eqn:E; [|reflexivity].
      apply Qle_bool_iff in E. exfalso.
      assert (H1 : (0 < - PyFloat.binary64_huge)%Q) by (eapply Qlt_le_trans; eauto).
      revert H1. unfold PyFloat.binary64_huge, Qlt. cbn.
      assert (0 < 2 ^ 1024) by (apply Z.pow_pos_nonneg; lia). lia. }
  rewrite Hfin. f_equal. unfold PyFloat.ceil.
  assert (Hc1 : Qceiling q <= 1).
  { rewrite <- (Qceiling_Z 1). apply Qceiling_resp_le. exact Hq1. }
  assert (Hc0 : 0 < Qceiling q).
  { pose proof (Qle_ceiling q) as Hle.
    assert (H0 : (0 < inject_Z (Qceiling q))%Q) by (eapply Qlt_le_trans; eauto).
    revert H0. unfold Qlt, inject_Z. cbn. lia. }
  lia.
Qed.

Lemma ceil_div_large_tile a b : 0 < a -> a <= b -> ceil_div a b = 1.
Proof.
  intros Ha Hab. pose proof (ceil_div_spec a b ltac:(lia)). nia.
Qed.

(** For an image dimension below 2^53 and a tile dimension up to 2^1074
    [math.ceil(a / b)] is the exact ceiling. *)
Lemma ceil_truediv_is_ceil_div a b :
  0 < a < 2 ^ 53 -> 0 < b <= 2 ^ 1074 -> ceil_truediv a b = Ok (ceil_div a b).
Proof.
  intros Ha Hb. destruct (Z_lt_le_dec b (2 ^ 53)) as [Hsmall|Hlarge].
  - apply ceil_truediv_exact; lia.
  - rewrite ceil_truediv_large_tile, ceil_div_large_tile by lia. reflexivity.
Qed.

(** C1, as amended: for positive image dimensions below 2^53 and
    positive tile dimensions up to 2^1074 the planning step produces
    rectangles that are pairwise disjoint, whose union is exactly the
    image rectangle, and whose number is
    [ceil(width / tile_width) * ceil(height / tile_height)]. *)
Theorem grid_plan_exact_tiling W H tw th :
  0 < W < 2 ^ 53 -> 0 < H < 2 ^ 53 -> 0 < tw <= 2 ^ 1074 -> 0 < th <= 2 ^ 1074 ->
  plans_exact_tiling W H tw th.
Proof.
  intros HW HH Htw Hth. unfold plans_exact_tiling, plan.
  rewrite !ceil_truediv_is_ceil_div by assumption.
  eexists. split; [reflexivity|]. apply tile_grid_exact; lia.
Qed.

Lemma grid_plan_exact_tiling_witness : plans_exact_tiling 1000 600 384 400.
Proof. apply grid_plan_exact_tiling; lia. Defined.

(** Past 2^1074 the quotient of a small image dimension by the tile
    dimension rounds to zero. *)
Example ceil_truediv_huge_tile : ceil_truediv 1 (2 ^ 1080) = Ok 0.
Proof. vm_compute. reflexivity. Qed.

Lemma Ok_inj {A} (a b : A) : Ok a = Ok b -> a = b.
Proof. intros H. injection H as H. exact H. Qed.

(** C1 as stated fails: for an image 2^53 + 1 pixels wide with tiles of
    width 1 the float division rounds the quotient down to 2^53, so the
    plan has one rectangle fewer than [ceil(width / tile_width)]. *)
Lemma grid_plan_not_exact_for_wide_image : ~ plans_exact_tiling (2 ^ 53 + 1) 1 1 1.
Proof.
  intros (tiles & Hplan & _ & _ & Hcount).
  unfold plan in Hplan.
  assert (E1 : ceil_truediv (2 ^ 53 + 1) 1 = Ok (2 ^ 53)) by (vm_compute; reflexivity).
  assert (E2 : ceil_truediv 1 1 = Ok 1) by (vm_compute; reflexivity).
  rewrite E1, E2 in Hplan. apply Ok_inj in Hplan. rewrite <- Hplan in Hcount.
  rewrite tile_grid_length, Nat2Z.inj_mul in Hcount.
  rewrite (Z2Nat.id 1), (Z2Nat.id (2 ^ 53)) in Hcount by (apply Z.pow_nonneg || idtac; lia).
  unfold ceil_div in Hcount. rewrite !Z.div_1_r in Hcount. lia.
Qed.

(** ** The tile fetcher *)

Lemma after_attempts_zero st u : after_attempts st u 0 0 = st.
Proof. destruct st. unfold after_attempts. cbn. rewrite app_nil_r. reflexivity. Qed.

Lemma after_attempts_more st u k sl k' sl' :
  after_attempts (after_attempts st u k sl) u k' sl'
  = after_attempts st u (k + k') (sl' + sl).
Proof.
  unfold after_attempts. cbn. f_equal.
  - rewrite <- app_assoc, replicate_add. reflexivity.
  - lia.
Qed.

Lemma attempt_after env st u k sl i :
  attempt env (after_attempts st u k sl) u i = attempt env st u (k + i).
Proof.
  unfold attempt, after_attempts. cbn.
  rewrite length_app, length_replicate. f_equal. lia.
Qed.

(** One turn of the retry loop. *)
Lemma fetch_tile_loop_step env u retries a len resp st :
  0 < len ->
  fetch_tile_loop env u retries (seqZ a len) resp st =
  match attempt env st u 0 with
  | Returned r =>
      if status_code r =? 200 then (Ok (Some r), after_attempts st u 1 0)
      else fetch_tile_loop env u retries (seqZ (a + 1) (len - 1)) (Some r)
             (after_attempts st u 1 1)
  | Raised e =>
      if is_RequestException e then
        if a =? retries then (Raise e, after_attempts st u 1 0)
        else fetch_tile_loop env u retries (seqZ (a + 1) (len - 1)) resp
               (after_attempts st u 1 1)
      else (Raise e, after_attempts st u 1 0)
  end.
Proof.
  intros Hlen. rewrite seqZ_cons by lia.
  replace (Z.succ a) with (a + 1) by lia. replace (Z.pred len) with (len - 1) by lia.
  cbn [fetch_tile_loop]. unfold requests_get, attempt.
  rewrite Nat.add_0_r.
  destruct (remote env (length (http_log st)) u) as [r|e].
  - destruct (status_code r =? 200); reflexivity.
  - destruct (is_RequestException e); [|reflexivity].
    destruct (a =? retries); reflexivity.
Qed.

(** The loop once its attempts are used up. *)
Lemma fetch_tile_loop_end env u retries a len resp st :
  len <= 0 ->
  fetch_tile_loop env u retries (seqZ a len) resp st =
  match resp with
  | Some r =>
      if PyStr.is_empty (http_error_msg r) then (Ok None, st)
      else (Raise (mk_exn HTTPError (http_error_msg r)), st)
  | None => (Raise (mk_exn RequestException "Failed to fetch tile after all retries"), st)
  end.
Proof.
  intros Hlen. unfold seqZ. replace (Z.to_nat len) with 0%nat by lia. cbn.
  destruct resp as [r|]; [|reflexivity].
  unfold bind, raise_for_status. destruct (PyStr.is_empty (http_error_msg r)); reflexivity.
Qed.

(** The first [k] attempts fail and none of them is the last one: the
    loop goes on with the remaining attempts. *)
Lemma fetch_tile_loop_skip env u retries k :
  forall a len resp st,
    Z.of_nat k <= len ->
    (forall i, (i < k)%nat -> failure (attempt env st u i) = true) ->
    (forall i, (i < k)%nat -> a + Z.of_nat i <> retries) ->
    fetch_tile_loop env u retries (seqZ a len) resp st =
    fetch_tile_loop env u retries (seqZ (a + Z.of_nat k) (len - Z.of_nat k))
      (resp_after env st u k resp) (after_attempts st u k k).
Proof.
  induction k as [|k IH]; intros a len resp st Hlen Hfail Hlast.
  - cbn [resp_after]. rewrite after_attempts_zero.
    replace (a + Z.of_nat 0) with a by lia. replace (len - Z.of_nat 0) with len by lia.
    reflexivity.
  - rewrite IH by (try lia; intros; (apply Hfail || apply Hlast); lia).
    rewrite fetch_tile_loop_step by lia.
    rewrite attempt_after, Nat.add_0_r, !after_attempts_more.
    specialize (Hfail k ltac:(lia)). specialize (Hlast k ltac:(lia)).
    cbn [resp_after].
    replace (a + Z.of_nat k + 1) with (a + Z.of_nat (S k)) by lia.
    replace (len - Z.of_nat k - 1) with (len - Z.of_nat (S k)) by lia.
    replace (k + 1)%nat with (S k) by lia. cbn [Nat.add].
    destruct (attempt env st u k) as [r|e]; cbn [failure] in Hfail.
    + apply negb_true_iff in Hfail. rewrite Hfail. reflexivity.
    + rewrite Hfail. destruct (Z.eqb_spec (a + Z.of_nat k) retries); [contradiction|reflexivity].
Qed.

(** Whatever the server does, [fetch_tile] only makes requests for its
    URL and sleeps. *)
Lemma fetch_tile_loop_frame env u retries attempts :
  forall resp st, exists k sl,
    snd (fetch_tile_loop env u retries attempts resp st) = after_attempts st u k sl.
Proof.
  induction attempts as [|a rest IH]; intros resp st.
  - exists 0%nat, 0%nat. rewrite after_attempts_zero. cbn.
    destruct resp as [r|]; [|reflexivity].
    unfold bind, raise_for_status. destruct (PyStr.is_empty (http_error_msg r)); reflexivity.
  - cbn [fetch_tile_loop]. unfold requests_get.
    pose (st1 := after_attempts st u 1 0).
    assert (E1 : forall sl, after_attempts st1 u 0 sl = after_attempts st u 1 sl).
    { intros sl. unfold st1. rewrite after_attempts_more. f_equal; lia. }
    destruct (remote env (length (http_log st)) u) as [r|e].
    + destruct (status_code r =? 200); [exists 1%nat, 0%nat; reflexivity|].
      unfold bind, time_sleep.
      destruct (IH (Some r) (after_attempts st u 1 1)) as (k & sl & E).
      exists (1 + k)%nat, (sl + 1)%nat. rewrite <- after_attempts_more. exact E.
    + destruct (is_RequestException e); [|exists 1%nat, 0%nat; reflexivity].
      destruct (a =? retries); [exists 1%nat, 0%nat; reflexivity|].
      unfold bind, time_sleep.
      destruct (IH resp (after_attempts st u 1 1)) as (k & sl & E).
      exists (1 + k)%nat, (sl + 1)%nat. rewrite <- after_attempts_more. exact E.
Qed.

Lemma is_empty_append a b :
  PyStr.is_empty (a +:+ b) = PyStr.is_empty a && PyStr.is_empty b.
Proof. destruct a; reflexivity. Qed.

(** A 4xx or 5xx status has an error message. *)
Lemma http_error_msg_nonempty r :
  400 <= status_code r < 600 -> PyStr.is_empty (http_error_msg r) = false.
Proof.
  intros H. unfold http_error_msg.
  destruct (Z.leb_spec 400 (status_code r)); [|lia].
  destruct (Z.ltb_spec (status_code r) 500); cbn [andb].
  - rewrite is_empty_append. apply andb_false_intro2. reflexivity.
  - destruct (Z.leb_spec 500 (status_code r)); [|lia].
    destruct (Z.ltb_spec (status_code r) 600); [|lia]. cbn [andb].
    rewrite is_empty_append. apply andb_false_intro2. reflexivity.
Qed.

(** Any other status has none. *)
Lemma http_error_msg_empty r :
  ~ 400 <= status_code r < 600 -> http_error_msg r = "".
Proof.
  intros H. unfold http_error_msg.
  destruct (Z.leb_spec 400 (status_code r)), (Z.ltb_spec (status_code r) 500),
    (Z.leb_spec 500 (status_code r)), (Z.ltb_spec (status_code r) 600);
    cbn [andb]; try reflexivity; lia.
Qed.

(** The attempt numbered [k + 1] succeeds after [k] failures. *)
Lemma fetch_tile_succeeds env u retries st k resp :
  Z.of_nat k < retries ->
  (forall i, (i < k)%nat -> failure (attempt env st u i) = true) ->
  attempt env st u k = Returned resp -> status_code resp = 200 ->
  fetch_tile env u retries st = (Ok (Some resp), after_attempts st u (S k) k).
Proof.
  intros Hk Hfail Hresp H200. unfold fetch_tile.
  rewrite (fetch_tile_loop_skip env u retries k) by (try assumption; intros; lia).
  rewrite fetch_tile_loop_step by lia.
  rewrite attempt_after, Nat.add_0_r, Hresp, H200, after_attempts_more. cbn [Z.eqb Pos.eqb].
  do 2 f_equal; lia.
Qed.

(** All attempts fail and the last one raises. *)
Lemma fetch_tile_last_raises env u retries st n e :
  retries = Z.of_nat (S n) ->
  (forall i, (i < n)%nat -> failure (attempt env st u i) = true) ->
  attempt env st u n = Raised e -> is_RequestException e = true ->
  fetch_tile env u retries st = (Raise e, after_attempts st u (S n) n).
Proof.
  intros Hr Hfail Hlast He. unfold fetch_tile.
  rewrite (fetch_tile_loop_skip env u retries n) by (try assumption; intros; lia).
  rewrite fetch_tile_loop_step by lia.
  rewrite attempt_after, Nat.add_0_r, Hlast, He, after_attempts_more.
  replace (1 + Z.of_nat n =? retries) with true by (symmetry; apply Z.eqb_eq; lia).
  do 2 f_equal; lia.
Qed.

(** All attempts fail and the last one returns a response with a status
    other than 200: what happens next is [raise_for_status] on it. *)
Lemma fetch_tile_last_returns env u retries st n r :
  retries = Z.of_nat (S n) ->
  (forall i, (i < n)%nat -> failure (attempt env st u i) = true) ->
  attempt env st u n = Returned r -> status_code r <> 200 ->
  fetch_tile env u retries st =
  (if PyStr.is_empty (http_error_msg r) then Ok None
   else Raise (mk_exn HTTPError (http_error_msg r)),
   after_attempts st u (S n) (S n)).
Proof.
  intros Hr Hfail Hlast Hs. unfold fetch_tile.
  rewrite (fetch_tile_loop_skip env u retries n) by (try assumption; intros; lia).
  rewrite fetch_tile_loop_step by lia.
  rewrite attempt_after, Nat.add_0_r, Hlast, !after_attempts_more.
  replace (status_code r =? 200) with false by (symmetry; apply Z.eqb_neq; exact Hs).
  rewrite fetch_tile_loop_end by lia.
  replace (n + 1)%nat with (S n) by lia. cbn [Nat.add].
  destruct (PyStr.is_empty (http_error_msg r)); reflexivity.
Qed.

(** X1: when all attempts fail and the last response has a status that
    is neither 200 nor an error status, [raise_for_status] returns and
    the call ends without a response and without an exception. *)
Lemma fetch_tile_unraised_status env u retries st n r :
  retries = Z.of_nat (S n) ->
  (forall i, (i < n)%nat -> failure (attempt env st u i) = true) ->
  attempt env st u n = Returned r ->
  status_code r <> 200 -> ~ 400 <= status_code r < 600 ->
  fetch_tile env u retries st = (Ok None, after_attempts st u (S n) (S n)).
Proof.
  intros Hr Hfail Hlast H200 Herr.
  rewrite (fetch_tile_last_returns env u retries st n r) by assumption.
  rewrite http_error_msg_empty by exact Herr. reflexivity.
Qed.

(** The server that fails twice is asked three times. *)
Example flaky_server_three_attempts :
  attempts_made (new_task ∅)
    (snd (fetch_tile (stub_world flaky_server (decode_as 1 1)) "u" 3 (new_task ∅))) = 3%nat.
Proof. reflexivity. Qed.

(** C4, as amended: a success response ends the call at once, after
    [k + 1] requests when the first [k] attempts failed; when all
    [retries] attempts fail the last attempt decides, after exactly
    [retries] requests: a transport exception raised by it is raised
    again, a 4xx or 5xx status returned by it is raised as an
    [HTTPError]. *)
Theorem fetch_tile_retry_contract env u retries st :
  (forall k resp,
      Z.of_nat k < retries ->
      (forall i, (i < k)%nat -> failure (attempt env st u i) = true) ->
      attempt env st u k = Returned resp -> status_code resp = 200 ->
      fetch_tile env u retries st = (Ok (Some resp), after_attempts st u (S k) k))
  /\ (forall n e,
         retries = Z.of_nat (S n) ->
         (forall i, (i < n)%nat -> failure (attempt env st u i) = true) ->
         attempt env st u n = Raised e -> is_RequestException e = true ->
         fetch_tile env u retries st = (Raise e, after_attempts st u (S n) n))
  /\ (forall n r,
         retries = Z.of_nat (S n) ->
         (forall i, (i < n)%nat -> failure (attempt env st u i) = true) ->
         attempt env st u n = Returned r -> 400 <= status_code r < 600 ->
         fetch_tile env u retries st =
         (Raise (mk_exn HTTPError (http_error_msg r)), after_attempts st u (S n) (S n))).
Proof.
  split; [|split].
  - intros k resp. apply fetch_tile_succeeds.
  - intros n e. apply fetch_tile_last_raises.
  - intros n r Hr Hfail Hlast Hs.
    rewrite (fetch_tile_last_returns env u retries st n r) by (try assumption; lia).
    rewrite http_error_msg_nonempty by exact Hs. reflexivity.
Qed.

(** C9: when earlier attempts failed, one of them with a response, and
    the last attempt raises a transport exception, [fetch_tile] raises
    that exception. *)
Theorem fetch_tile_mixed_failure_raises_last env u st n j r e :
  (forall i, (i < n)%nat -> failure (attempt env st u i) = true) ->
  (j < n)%nat -> attempt env st u j = Returned r ->
  attempt env st u n = Raised e -> is_RequestException e = true ->
  fetch_tile env u (Z.of_nat (S n)) st = (Raise e, after_attempts st u (S n) n).
Proof.
  intros Hfail _ _ Hlast He. apply fetch_tile_last_raises; auto.
Qed.

Lemma fetch_tile_retry_contract_witness :
  fetch_tile (stub_world flaky_server (decode_as 1 1)) "u" 3 (new_task ∅)
  = (Ok (Some (ok_response "u" "tile" None)), after_attempts (new_task ∅) "u" 3 2).
Proof.
  apply (proj1 (fetch_tile_retry_contract (stub_world flaky_server (decode_as 1 1)) "u" 3
                  (new_task ∅)) 2%nat).
  - lia.
  - intros i Hi. destruct i as [|[|i]]; [reflexivity|reflexivity|lia].
  - reflexivity.
  - reflexivity.
Defined.

(** C4 as stated fails: after a 500 response and two refused connections
    the error raised is the last exception, not the status of the last
    response obtained. *)
Lemma fetch_tile_does_not_surface_last_response : ~ surfaces_last_response_status.
Proof.
  intros H.
  specialize (H (stub_world mixed_server (decode_as 1 1)) "u"%string (new_task ∅) 2%nat
                (server_error "u")).
  assert (Hfail : forall i, (i < 3)%nat ->
            failure (attempt (stub_world mixed_server (decode_as 1 1)) (new_task ∅) "u" i) = true).
  { intros i Hi. destruct i as [|[|[|i]]]; [reflexivity..|lia]. }
  specialize (H Hfail eq_refl). vm_compute in H. discriminate H.
Qed.

Lemma fetch_tile_mixed_failure_raises_last_witness :
  fetch_tile (stub_world mixed_server (decode_as 1 1)) "u" 3 (new_task ∅)
  = (Raise connection_refused, after_attempts (new_task ∅) "u" 3 2).
Proof.
  apply (fetch_tile_mixed_failure_raises_last (stub_world mixed_server (decode_as 1 1)) "u"
           (new_task ∅) 2 0 (server_error "u") connection_refused).
  - intros i Hi. destruct i as [|[|i]]; [reflexivity|reflexivity|lia].
  - lia.
  - reflexivity.
  - reflexivity.
  - reflexivity.
Defined.

(** ** Loops *)

Lemma for_each_app {A} (l1 l2 : list A) (body : A -> M unit) st :
  for_each (l1 ++ l2) body st = (for_each l1 body ;;; for_each l2 body) st.
Proof.
  revert st. induction l1 as [|x l1 IH]; intros st.
  - reflexivity.
  - cbn [for_each app]. unfold bind in *. destruct (body x st) as [[[]|e] st1].
    + apply IH.
    + reflexivity.
Qed.

Lemma for_each_map {A B} (f : A -> B) (l : list A) (body : B -> M unit) st :
  for_each (map f l) body st = for_each l (fun x => body (f x)) st.
Proof.
  revert st. induction l as [|x l IH]; intros st; [reflexivity|].
  cbn [for_each map]. unfold bind. destruct (body (f x) st) as [[[]|e] st1]; [apply IH|reflexivity].
Qed.

Lemma for_each_flat_map {A B} (g : A -> list B) (l : list A) (body : B -> M unit) st :
  for_each (flat_map g l) body st = for_each l (fun x => for_each (g x) body) st.
Proof.
  revert st. induction l as [|x l IH]; intros st; [reflexivity|].
  cbn [flat_map for_each]. rewrite for_each_app. unfold bind.
  destruct (for_each (g x) body st) as [[[]|e] st1]; [apply IH|reflexivity].
Qed.

(** A loop invariant [P], indexed by the number of turns completed, and
    what is known when turn [i] raises, [Q i]. *)
Lemma for_each_inv {A} (P : nat -> state -> Prop) (Q : nat -> exn -> state -> Prop)
    (body : A -> M unit) (l : list A) :
  (forall i x st, l !! i = Some x -> P i st ->
     match body x st with
     | (Ok _, st') => P (S i) st'
     | (Raise e, st') => Q i e st'
     end) ->
  forall st, P 0%nat st ->
    match for_each l body st with
    | (Ok _, st') => P (length l) st'
    | (Raise e, st') => exists i, (i < length l)%nat /\ Q i e st'
    end.
Proof.
  intros Hstep.
  assert (G : forall l2 l1 st, l = l1 ++ l2 -> P (length l1) st ->
            match for_each l2 body st with
            | (Ok _, st') => P (length l) st'
            | (Raise e, st') => exists i, (i < length l)%nat /\ Q i e st'
            end).
  { induction l2 as [|x l2 IH]; intros l1 st El HP.
    - cbn. subst l. rewrite app_nil_r. exact HP.
    - cbn [for_each]. unfold bind.
      assert (Hx : l !! length l1 = Some x).
      { subst l. rewrite lookup_app_r by lia. rewrite Nat.sub_diag. reflexivity. }
      specialize (Hstep (length l1) x st Hx HP).
      destruct (body x st) as [[[]|e] st1].
      + apply (IH (l1 ++ [x])).
        * subst l. rewrite <- app_assoc. reflexivity.
        * rewrite length_app. cbn. replace (length l1 + 1)%nat with (S (length l1)) by lia.
          exact Hstep.
      + exists (length l1). split; [|exact Hstep].
        subst l. rewrite length_app. cbn. lia. }
  intros st HP. apply (G l [] st); [reflexivity|exact HP].
Qed.

(** The two nested loops visit the rectangles of the plan in order. *)
Lemma download_tiles_grid env sid base W H tw th cols rows st :
  download_tiles env sid base W H tw th cols rows st =
  for_each (tile_grid W H tw th cols rows)
    (fun t => process_tile env sid base W H tw th (cols * rows) (t_row t) (t_col t)) st.
Proof.
  unfold download_tiles, tile_grid. rewrite for_each_flat_map.
  revert st. induction (seqZ 0 rows) as [|row l IH]; intros st; [reflexivity|].
  cbn [for_each]. unfold bind. rewrite for_each_map. cbn [t_row t_col tile_spec].
  destruct (for_each (seqZ 0 cols) _ st) as [[[]|e] st1]; [apply IH|reflexivity].
Qed.

(** ** What [fetch_tile] leaves behind *)

(** Among the answers to the requests a call makes, a success response
    can only be the last one, and it is the one returned. *)
Lemma fetch_tile_loop_answers env u retries attempts :
  forall resp st, exists k sl,
    snd (fetch_tile_loop env u retries attempts resp st) = after_attempts st u k sl
    /\ forall i r, (i < k)%nat -> attempt env st u i = Returned r -> status_code r = 200 ->
         fst (fetch_tile_loop env u retries attempts resp st) = Ok (Some r).
Proof.
  induction attempts as [|a rest IH]; intros resp st.
  - exists 0%nat, 0%nat. rewrite after_attempts_zero. split; [|intros; lia].
    cbn. destruct resp as [r|]; [|reflexivity].
    unfold bind, raise_for_status. destruct (PyStr.is_empty (http_error_msg r)); reflexivity.
  - cbn [fetch_tile_loop]. unfold requests_get.
    assert (A0 : attempt env st u 0 = remote env (length (http_log st)) u)
      by (unfold attempt; rewrite Nat.add_0_r; reflexivity).
    assert (Hone : forall (res : result (option response)) (ok : forall r, attempt env st u 0 = Returned r -> status_code r = 200 -> res = Ok (Some r)),
              exists k sl, after_attempts st u 1 0 = after_attempts st u k sl
                /\ forall i r, (i < k)%nat -> attempt env st u i = Returned r ->
                     status_code r = 200 -> res = Ok (Some r)).
    { intros res ok. exists 1%nat, 0%nat. split; [reflexivity|].
      intros i r Hi. replace i with 0%nat by lia. apply ok. }
    assert (Hmore : forall resp', 
              (forall r, attempt env st u 0 = Returned r -> status_code r <> 200) ->
              exists k sl,
                snd (fetch_tile_loop env u retries rest resp' (after_attempts st u 1 1))
                = after_attempts st u k sl
                /\ forall i r, (i < k)%nat -> attempt env st u i = Returned r ->
                     status_code r = 200 ->
                     fst (fetch_tile_loop env u retries rest resp' (after_attempts st u 1 1))
                     = Ok (Some r)).
    { intros resp' Hno. destruct (IH resp' (after_attempts st u 1 1)) as (k & sl & E & Hans).
      exists (1 + k)%nat, (sl + 1)%nat. rewrite after_attempts_more in E. split; [exact E|].
      intros i r Hi Hr Hs. destruct i as [|i]; [exfalso; eapply Hno; eauto|].
      apply (Hans i r); [lia| |exact Hs]. rewrite attempt_after. exact Hr. }
    rewrite A0 in Hone, Hmore.
    destruct (remote env (length (http_log st)) u) as [r0|e].
    + destruct (Z.eqb_spec (status_code r0) 200) as [E200|NE].
      * apply Hone. intros r [= <-] _. reflexivity.
      * apply Hmore. intros r [= <-]. exact NE.
    + destruct (is_RequestException e).
      * destruct (a =? retries); [apply Hone; intros r [=]|apply Hmore; intros r [=]].
      * apply Hone. intros r [=].
Qed.

Lemma no_empty_tile_after env st u k sl :
  no_empty_tile env st ->
  (forall i, (i < k)%nat -> empty_success (attempt env st u i) = false) ->
  no_empty_tile env (after_attempts st u k sl).
Proof.
  intros Hst Hnew n u' Hn Hu'. unfold after_attempts in Hu'. cbn in Hu'.
  destruct (Nat.lt_ge_cases n (length (http_log st))) as [Hlt|Hge].
  - rewrite lookup_app_l in Hu' by lia. apply Hst; assumption.
  - rewrite lookup_app_r in Hu' by lia.
    apply lookup_replicate in Hu' as [-> Hk].
    specialize (Hnew (n - length (http_log st))%nat Hk). unfold attempt in Hnew.
    replace (length (http_log st) + (n - length (http_log st)))%nat with n in Hnew by lia.
    exact Hnew.
Qed.

Lemma only_empty_after env st u k sl n u' :
  no_empty_tile env st -> (1 <= n)%nat ->
  http_log (after_attempts st u k sl) !! n = Some u' ->
  empty_success (remote env n u') = true -> u' = u.
Proof.
  intros Hst Hn Hu' He. unfold after_attempts in Hu'. cbn in Hu'.
  destruct (Nat.lt_ge_cases n (length (http_log st))) as [Hlt|Hge].
  - rewrite lookup_app_l in Hu' by lia. rewrite (Hst n u' Hn Hu') in He. discriminate.
  - rewrite lookup_app_r in Hu' by lia. apply lookup_replicate in Hu' as [-> _]. reflexivity.
Qed.

Lemma tile_progress_Ok n N p :
  tile_progress n N = Ok p -> p = tile_progress_value n N.
Proof.
  unfold tile_progress, truediv, tile_progress_value.
  destruct (N =? 0); [discriminate|].
  destruct (PyFloat.is_finite _); [|discriminate].
  intros [= <-]. reflexivity.
Qed.

Lemma tile_records_S env N i :
  tile_records env N (S i) = tile_records env N i ++ [tile_record env N (S i)].
Proof. unfold tile_records. rewrite seq_S, map_app. reflexivity. Qed.

Lemma process_tile_step env sid base W H tw th N row col head i st :
  tiles_done env head N i st ->
  match process_tile env sid base W H tw th N row col st with
  | (Ok _, st') => tiles_done env head N (S i) st'
  | (Raise e, st') => tile_failed env head N i e st'
  end.
Proof.
  intros (Hlog & Hnum & Hclock & (cv & Hcv & Hlen) & Hne).
  unfold process_tile.
  set (t := tile_spec W H tw th row col). set (u := tile_url base t).
  unfold bind at 1. unfold bind at 1.
  destruct (fetch_tile_loop_answers env u 3 (seqZ 1 3) None st) as (k & sl & Est & Hans).
  fold (fetch_tile env u 3) in Est, Hans.
  destruct (fetch_tile env u 3 st) as [res st1]. cbn [fst snd] in Est, Hans. subst st1.
  set (st1 := after_attempts st u k sl).
  assert (Hquiet : (forall i r, (i < k)%nat -> attempt env st u i = Returned r ->
                       status_code r = 200 -> False) -> no_empty_tile env st1).
  { intros Hno. apply no_empty_tile_after; [exact Hne|].
    intros j Hj. unfold empty_success. destruct (attempt env st u j) as [r|] eqn:Ej; [|reflexivity].
    destruct (Z.eqb_spec (status_code r) 200); [|reflexivity].
    exfalso. eapply Hno; eauto. }
  assert (Hfail : forall e, no_empty_tile env st1 -> tile_failed env head N i e st1).
  { intros e Hq. repeat split; [exact Hlog|exact Hclock|left; exact Hq]. }
  destruct res as [[r|]|e].
  - assert (Hfull : PyStr.is_empty (content r) = false -> no_empty_tile env st1).
    { intros Hc. apply no_empty_tile_after; [exact Hne|].
      intros j Hj. unfold empty_success.
      destruct (attempt env st u j) as [r'|] eqn:Ej; [|reflexivity].
      destruct (Z.eqb_spec (status_code r') 200) as [E200|]; [|reflexivity].
      specialize (Hans j r' Hj Ej E200). injection Hans as ->. exact Hc. }
    destruct (PyStr.is_empty (content r)) eqn:Hc.
    + rewrite andb_false_r. cbn.
      repeat split; [exact Hlog|exact Hclock|]. right. exists u. repeat split.
      * intros n u' Hn Hu' He. eapply only_empty_after; eauto.
      * exists cv. split; [exact Hcv|exact Hlen].
    + specialize (Hfull eq_refl). rewrite andb_true_r.
      destruct (response_ok r); [|apply Hfail; exact Hfull].
      unfold bind at 1. unfold Image_open.
      destruct (pil_open env (content r)) as [e|img]; [apply Hfail; exact Hfull|].
      unfold ret, paste. replace (final_img st1) with (Some cv) by (symmetry; exact Hcv).
      unfold bind, next_tile_num, lift. cbn [tile_num clock_reads progress_log final_img http_log].
      change (tile_num st1) with (tile_num st). rewrite Hnum.
      replace (Z.of_nat i + 1) with (Z.of_nat (S i)) by lia.
      destruct (tile_progress (Z.of_nat (S i)) N) as [p|e] eqn:Ep.
      * apply tile_progress_Ok in Ep. subst p.
        unfold update_progress. cbn [tile_num clock_reads progress_log final_img http_log].
        change (clock_reads st1) with (clock_reads st). change (progress_log st1) with (progress_log st).
        rewrite Hclock.
        repeat split; cbn [tile_num clock_reads progress_log final_img http_log].
        -- rewrite map_app, Hlog, tile_records_S, app_assoc. reflexivity.
        -- eexists. split; [reflexivity|]. cbn. rewrite length_app, Hlen. cbn. lia.
        -- exact Hfull.
      * repeat split; [exact Hlog|exact Hclock|left; exact Hfull].
  - cbn. apply Hfail, Hquiet. intros j r Hj Ej E200. specialize (Hans j r Hj Ej E200). discriminate.
  - apply Hfail, Hquiet. intros j r Hj Ej E200. specialize (Hans j r Hj Ej E200). discriminate.
Qed.

(** ** The task as a whole *)

Lemma download_tiles_run env sid base W H tw th cols rows head st :
  tiles_done env head (cols * rows) 0 st ->
  match download_tiles env sid base W H tw th cols rows st with
  | (Ok _, st') =>
      tiles_done env head (cols * rows) (length (tile_grid W H tw th cols rows)) st'
  | (Raise e, st') =>
      exists i, (i < length (tile_grid W H tw th cols rows))%nat
                /\ tile_failed env head (cols * rows) i e st'
  end.
Proof.
  intros H0. rewrite download_tiles_grid.
  apply (for_each_inv (tiles_done env head (cols * rows)) (tile_failed env head (cols * rows)));
    [|exact H0].
  intros i t st1 _ HP. apply process_tile_step. exact HP.
Qed.

(** The metadata request is the first request of the task. *)
Lemma fetch_metadata_run env image_id st :
  http_log st = [] ->
  fetch_metadata env image_id st
  = (metadata_of env image_id, after_attempts st (info_url image_id) 1 0).
Proof.
  intros Hlog. unfold metadata_of, fetch_metadata, bind, requests_get, after_attempts.
  rewrite Hlog. cbn.
  destruct (remote env 0 (info_url image_id)) as [r|e]; [|reflexivity].
  unfold raise_for_status. destruct (PyStr.is_empty (http_error_msg r)); [|reflexivity].
  unfold ret, lift. destruct (response_json r); reflexivity.
Qed.

Lemma no_empty_tile_short env st :
  (length (http_log st) <= 1)%nat -> no_empty_tile env st.
Proof.
  intros Hlen n u Hn Hu. apply lookup_lt_Some in Hu. lia.
Qed.

Lemma handler_record_request env i e :
  is_RequestException e = true ->
  handler_record env i e
  = record_at env i "Network error occurred" None
      (Some ("Failed to download image: " +:+ exn_str e)) false None.
Proof. intros He. unfold handler_record. rewrite He. reflexivity. Qed.

(** What the handlers add to the state the [try] block left. *)
Lemma handlers_run env image_id sid e st :
  try_block env image_id sid (new_task ∅) = (Raise e, st) ->
  let st' := download_and_stitch_image env image_id sid (new_task ∅) in
  map snd (progress_log st') = map snd (progress_log st) ++ [handler_record env (clock_reads st) e]
  /\ http_log st' = http_log st /\ final_img st' = final_img st.
Proof.
  intros Hrun. unfold download_and_stitch_image. rewrite Hrun.
  unfold handler_record.
  destruct (is_RequestException e); cbn; rewrite map_app; repeat split.
Qed.

Lemma no_empty_tile_same env st st' :
  http_log st' = http_log st -> no_empty_tile env st -> no_empty_tile env st'.
Proof. intros E H n u Hn Hu. rewrite E in Hu. apply H; assumption. Qed.

Lemma empty_tile_raised_same env st st' e k :
  http_log st' = http_log st -> final_img st' = final_img st ->
  empty_tile_raised env st e k -> empty_tile_raised env st' e k.
Proof.
  intros E1 E2 (u & He & Honly & cv & Hcv & Hlen).
  exists u. rewrite E1, E2. repeat split; eauto.
Qed.

(** The [try] block: either it ends the session itself, or it raises and
    the record a handler then writes ends it. *)
Lemma try_block_run env image_id sid :
  match try_block env image_id sid (new_task ∅) with
  | (Ok _, st) => session_end env image_id sid st
  | (Raise e, st) =>
      forall st',
        map snd (progress_log st')
        = map snd (progress_log st) ++ [handler_record env (clock_reads st) e] ->
        http_log st' = http_log st -> final_img st' = final_img st ->
        session_end env image_id sid st'
  end.
Proof.
  unfold try_block. unfold bind at 1. unfold update_progress at 1. cbn [new_task].
  cbn [download_progress progress_log http_log slept clock_reads final_img tile_num files].
  destruct (task_rejects image_id) eqn:Hrej.
  { cbn. apply end_invalid; [exact Hrej|reflexivity|reflexivity]. }
  set (st1 := mk_state _ _ _ _ _ _ _ _).
  unfold stitch. unfold bind at 1. unfold makedirs.
  destruct (os_makedirs env _) as [e|].
  { cbn. intros st' Hlog Hhttp _. apply (end_early _ _ _ _ e); [exact Hlog|].
    apply no_empty_tile_short. rewrite Hhttp. cbn. lia. }
  unfold ret. unfold bind at 1.
  rewrite fetch_metadata_run by reflexivity.
  destruct (metadata_of env image_id) as [[[[[[W H] tw] th] cols] rows]|e] eqn:Emeta.
  2:{ intros st' Hlog Hhttp _. apply (end_early _ _ _ _ e); [exact Hlog|].
      apply no_empty_tile_short. rewrite Hhttp. cbn. lia. }
  unfold bind at 1. unfold update_progress at 1.
  cbn [after_attempts download_progress progress_log http_log slept clock_reads final_img
         tile_num files st1 app replicate Nat.add].
  set (st3 := mk_state _ _ _ _ _ _ _ _).
  assert (Hshort3 : (length (http_log st3) <= 1)%nat) by (cbn; lia).
  assert (Hearly : forall e st, progress_log st = progress_log st3 ->
            clock_reads st = clock_reads st3 -> http_log st = http_log st3 ->
            forall st',
              map snd (progress_log st')
              = map snd (progress_log st) ++ [handler_record env (clock_reads st) e] ->
              http_log st' = http_log st -> final_img st' = final_img st ->
              session_end env image_id sid st').
  { intros e st E1 E2 E3 st' Hlog Hhttp _.
    apply (end_tiles _ _ _ _ W H tw th cols rows 0 e); [exact Emeta|lia| |].
    - rewrite Hlog, E1, E2. reflexivity.
    - left. apply no_empty_tile_short. rewrite Hhttp, E3. exact Hshort3. }
  unfold bind at 1. unfold Image_new.
  destruct ((W <? 0) || (H <? 0)); [apply Hearly; reflexivity|].
  destruct (pil_new env W H) as [e|]; [apply Hearly; reflexivity|].
  cbn [st3 download_progress progress_log http_log slept clock_reads final_img tile_num files].
  set (st4 := mk_state _ _ _ _ _ _ _ _).
  unfold bind at 1.
  pose proof (download_tiles_run env sid (base_url_of image_id) W H tw th cols rows
                [start_record env; size_record env W H (cols * rows)] st4) as Hloop.
  assert (H0 : tiles_done env [start_record env; size_record env W H (cols * rows)]
                 (cols * rows) 0 st4).
  { repeat split.
    - eexists. split; reflexivity.
    - apply no_empty_tile_short. cbn. lia. }
  specialize (Hloop H0). clear H0.
  destruct (download_tiles env sid (base_url_of image_id) W H tw th cols rows st4)
    as [[[]|e] st5].
  2:{ destruct Hloop as (i & Hi & Hlog5 & Hclock5 & Hcase).
      intros st' Hlog Hhttp Himg.
      apply (end_tiles _ _ _ _ W H tw th cols rows i e); [exact Emeta|lia| |].
      - rewrite Hlog, Hlog5, Hclock5, <- app_assoc. reflexivity.
      - destruct Hcase as [Hne|Hem].
        + left. eapply no_empty_tile_same; eauto.
        + right. eapply empty_tile_raised_same; eauto. }
  destruct Hloop as (Hlog5 & Hnum5 & Hclock5 & (cv & Hcv & Hlen) & Hne5).
  set (n := length (tile_grid W H tw th cols rows)) in *.
  unfold bind at 1. unfold update_progress at 1.
  set (st6 := mk_state _ _ _ _ _ _ _ _).
  unfold bind at 1. unfold Image_save.
  cbn [st6 download_progress progress_log http_log slept clock_reads final_img tile_num files].
  rewrite Hcv.
  destruct (pil_save env cv (output_file_of env image_id)) as [e|].
  { intros st' Hlog Hhttp _.
    apply (end_save _ _ _ _ W H tw th cols rows e); [exact Emeta| |].
    - rewrite Hlog. cbn [st6 progress_log clock_reads]. rewrite map_app, Hlog5, Hclock5.
      fold n. rewrite <- !app_assoc. reflexivity.
    - eapply no_empty_tile_same; [|exact Hne5]. rewrite Hhttp. reflexivity. }
  unfold update_progress.
  cbn [download_progress progress_log http_log slept clock_reads final_img tile_num files].
  apply (end_ready _ _ _ _ W H tw th cols rows); [exact Emeta| |].
  - cbn [progress_log]. rewrite !map_app, Hlog5, Hclock5. fold n.
    rewrite <- !app_assoc. reflexivity.
  - eapply no_empty_tile_same; [|exact Hne5]. reflexivity.
Qed.

(** Every task ends in one of the five ways of [session_end]. *)
Lemma session_ends env image_id sid :
  session_end env image_id sid (download_and_stitch_image env image_id sid (new_task ∅)).
Proof.
  pose proof (try_block_run env image_id sid) as Hrun.
  pose proof (handlers_run env image_id sid) as Hh.
  unfold download_and_stitch_image in *.
  destruct (try_block env image_id sid (new_task ∅)) as [[[]|e] st]; [exact Hrun|].
  destruct (Hh e st eq_refl) as (H1 & H2 & H3). apply Hrun; assumption.
Qed.

(** ** Progress values *)

Lemma exact_quotient_mono j j' N :
  0 < N -> j <= j' -> (PyFloat.exact_quotient j N <= PyFloat.exact_quotient j' N)%Q.
Proof.
  intros HN Hj. unfold PyFloat.exact_quotient.
  destruct (Z.ltb_spec 0 N); [|lia]. unfold Qle. cbn [Qnum Qden].
  apply Z.mul_le_mono_nonneg_r; lia.
Qed.

Lemma tile_progress_value_mono j j' N :
  0 < N -> j <= j' -> (tile_progress_value j N <= tile_progress_value j' N)%Q.
Proof.
  intros HN Hj. unfold tile_progress_value, PyFloat.float_add, PyFloat.float_mul.
  apply binary64_round_mono, Qplus_le_compat; [apply Qle_refl|].
  apply binary64_round_mono, Qmult_le_compat_r; [|discriminate].
  apply binary64_round_mono, exact_quotient_mono; assumption.
Qed.

Lemma tile_progress_value_ends N : 0 < N ->
  (tile_progress_value 0 N == 5)%Q /\ (tile_progress_value N N == 90)%Q.
Proof.
  intros HN. unfold tile_progress_value, PyFloat.float_add, PyFloat.float_mul.
  assert (E0 : (PyFloat.exact_quotient 0 N == 0)%Q).
  { unfold PyFloat.exact_quotient. destruct (Z.ltb_spec 0 N); [|lia]. reflexivity. }
  assert (E1 : (PyFloat.exact_quotient N N == 1)%Q).
  { unfold PyFloat.exact_quotient. destruct (Z.ltb_spec 0 N); [|lia].
    unfold Qeq. cbn. rewrite Z2Pos.id by lia. lia. }
  split.
  - rewrite (binary64_round_comp _ 5); [apply binary64_round_5|].
    rewrite (binary64_round_comp (_ * 85) 0); [rewrite binary64_round_0; reflexivity|].
    rewrite (binary64_round_comp _ 0) by exact E0. rewrite binary64_round_0. reflexivity.
  - rewrite (binary64_round_comp _ 90); [apply binary64_round_90|].
    rewrite (binary64_round_comp (_ * 85) 85); [rewrite binary64_round_85; reflexivity|].
    rewrite (binary64_round_comp _ 1) by exact E1. rewrite binary64_round_1. reflexivity.
Qed.

(** Between the first and the last tile the value stays between 5 and
    90. *)
Lemma tile_progress_value_range j N :
  0 <= j <= N -> 0 < N -> (5 <= tile_progress_value j N <= 90)%Q.
Proof.
  intros Hj HN. destruct (tile_progress_value_ends N HN) as [E0 E1]. split.
  - rewrite <- E0. apply tile_progress_value_mono; lia.
  - rewrite <- E1. apply tile_progress_value_mono; lia.
Qed.

(** ** Session traces *)

Lemma handler_record_failed env i e : failed_form (handler_record env i e).
Proof. unfold handler_record. destruct (is_RequestException e); repeat split; discriminate. Qed.

Lemma handler_record_not_completed env i e : completed (handler_record env i e) = false.
Proof. unfold handler_record. destruct (is_RequestException e); reflexivity. Qed.

Lemma handler_record_progress env i e : progress (handler_record env i e) = None.
Proof. unfold handler_record. destruct (is_RequestException e); reflexivity. Qed.

Lemma tile_records_not_terminal env N k :
  Forall (fun r => ~ terminal r) (tile_records env N k).
Proof.
  unfold tile_records. apply Forall_map, Forall_forall. intros j _ [H|H]; [discriminate|].
  apply H. reflexivity.
Qed.

Lemma tile_records_not_completed env N k r :
  In r (tile_records env N k) -> completed r = false.
Proof.
  unfold tile_records. rewrite in_map_iff. intros (j & <- & _). reflexivity.
Qed.

Lemma tile_records_values env N k :
  progress_values (tile_records env N k)
  = map (fun j => tile_progress_value (Z.of_nat j) N) (seq 1 k).
Proof.
  unfold progress_values, tile_records. induction (seq 1 k) as [|j l IH]; [reflexivity|].
  cbn. f_equal. exact IH.
Qed.

Lemma tile_grid_total W H tw th cols rows :
  (1 <= length (tile_grid W H tw th cols rows))%nat ->
  cols * rows = Z.of_nat (length (tile_grid W H tw th cols rows)).
Proof.
  rewrite tile_grid_length. intros Hn.
  assert (0 < rows) by (destruct (Z_lt_le_dec 0 rows); [assumption|];
                        replace (Z.to_nat rows) with 0%nat in Hn by lia; lia).
  assert (0 < cols) by (destruct (Z_lt_le_dec 0 cols); [assumption|];
                        replace (Z.to_nat cols) with 0%nat in Hn by lia; lia).
  rewrite Nat2Z.inj_mul, !Z2Nat.id by lia. ring.
Qed.

Lemma map_seq_sorted (f : nat -> Q) (a k : nat) :
  (forall i j, (a <= i)%nat -> (i <= j)%nat -> (j < a + k)%nat -> (f i <= f j)%Q) ->
  StronglySorted Qle (map f (seq a k)).
Proof.
  revert a. induction k as [|k IH]; intros a Hf; [constructor|].
  cbn. constructor.
  - apply IH. intros i j Hi Hij Hj. apply Hf; lia.
  - apply Forall_map, Forall_forall. intros j Hj. apply list_elem_of_In, in_seq in Hj.
    apply Hf; lia.
Qed.

(** The values reported for the first [k] of [n] tiles, framed by the
    checkpoints before and after, are in order. *)
Lemma checkpoints_sorted N n k (tail : list Q) :
  (k <= n)%nat -> ((1 <= n)%nat -> N = Z.of_nat n) ->
  StronglySorted Qle tail -> Forall (Qle 90) tail ->
  StronglySorted Qle
    ([0%Q; 5%Q] ++ map (fun j => tile_progress_value (Z.of_nat j) N) (seq 1 k) ++ tail).
Proof.
  intros Hk HN Htail H90.
  assert (Hrange : forall j, In j (seq 1 k) ->
            (5 <= tile_progress_value (Z.of_nat j) N <= 90)%Q).
  { intros j Hj. apply in_seq in Hj. apply tile_progress_value_range; rewrite HN; lia. }
  assert (Hmid : StronglySorted Qle
            (map (fun j => tile_progress_value (Z.of_nat j) N) (seq 1 k) ++ tail)).
  { apply StronglySorted_app. split; [|split; [|exact Htail]].
    - intros x1 x2 Hx1 Hx2. apply list_elem_of_In, in_map_iff in Hx1 as (j & <- & Hj).
      apply list_elem_of_In in Hx2. rewrite Forall_forall in H90.
      eapply Qle_trans; [apply Hrange, Hj|]. apply H90. apply list_elem_of_In. exact Hx2.
    - apply map_seq_sorted. intros i j Hi Hij Hj.
      apply tile_progress_value_mono; [rewrite HN; lia|lia]. }
  assert (Hall5 : Forall (Qle 5)
            (map (fun j => tile_progress_value (Z.of_nat j) N) (seq 1 k) ++ tail)).
  { apply Forall_app. split.
    - apply Forall_map, Forall_forall. intros j Hj. apply list_elem_of_In in Hj. apply Hrange, Hj.
    - eapply Forall_impl; [exact H90|]. intros q Hq. cbn in Hq.
      eapply Qle_trans; [|exact Hq]. discriminate. }
  cbn [app]. constructor; [constructor; [exact Hmid|exact Hall5]|].
  constructor; [discriminate|].
  eapply Forall_impl; [exact Hall5|]. intros q Hq. cbn in Hq.
  eapply Qle_trans; [|exact Hq]. discriminate.
Qed.

Lemma progress_values_app l1 l2 :
  progress_values (l1 ++ l2) = progress_values l1 ++ progress_values l2.
Proof. unfold progress_values. apply omap_app. Qed.

(** Only the last record of a list can be terminal when the ones before
    it are not. *)
Lemma terminal_only_last (init : list ProgressRecord) (final : ProgressRecord) i r :
  Forall (fun r => ~ terminal r) init ->
  (init ++ [final]) !! i = Some r -> terminal r ->
  S i = length (init ++ [final]) /\ r = final.
Proof.
  intros Hinit Hi Hr. rewrite length_app. cbn [length].
  destruct (Nat.lt_ge_cases i (length init)) as [Hlt|Hge].
  - rewrite lookup_app_l in Hi by lia. rewrite Forall_forall in Hinit.
    exfalso. apply (Hinit r); [|exact Hr]. apply list_elem_of_lookup. eauto.
  - rewrite lookup_app_r in Hi by lia.
    destruct (i - length init)%nat as [|m] eqn:Em; [|destruct m; discriminate].
    injection Hi as <-. split; [lia|reflexivity].
Qed.

Lemma start_not_terminal env : ~ terminal (start_record env).
Proof. intros [H|H]; [discriminate|apply H; reflexivity]. Qed.

Lemma size_not_terminal env W H N : ~ terminal (size_record env W H N).
Proof. intros [H0|H0]; [discriminate|apply H0; reflexivity]. Qed.

Lemma saving_not_terminal env i : ~ terminal (saving_record env i).
Proof. intros [H|H]; [discriminate|apply H; reflexivity]. Qed.

Lemma forms_exclusive r : ~ (completed_form r /\ failed_form r).
Proof. intros [(H1 & _) (_ & H2 & _)]. congruence. Qed.

Lemma tiles_prefix_not_terminal env W H N k :
  Forall (fun r => ~ terminal r)
    ([start_record env; size_record env W H N] ++ tile_records env N k).
Proof.
  apply Forall_app. split; [|apply tile_records_not_terminal].
  constructor; [apply start_not_terminal|].
  constructor; [apply size_not_terminal|constructor].
Qed.

Lemma saving_prefix_not_terminal env W H N k i :
  Forall (fun r => ~ terminal r)
    (([start_record env; size_record env W H N] ++ tile_records env N k)
     ++ [saving_record env i]).
Proof.
  apply Forall_app. split; [apply tiles_prefix_not_terminal|].
  constructor; [apply saving_not_terminal|constructor].
Qed.

(** C7: a terminal record is the last record its session writes, and it
    has exactly one of the two terminal forms: completed with the file
    path and no error, or an error with neither completion nor file
    path. *)
Theorem terminal_record_is_final env image_id sid i r :
  session_writes env image_id sid !! i = Some r -> terminal r ->
  S i = length (session_writes env image_id sid)
  /\ (completed_form r \/ failed_form r)
  /\ ~ (completed_form r /\ failed_form r).
Proof.
  unfold session_writes. intros Hi Hr.
  assert (G : S i = length (map snd (progress_log
                 (download_and_stitch_image env image_id sid (new_task ∅))))
              /\ (completed_form r \/ failed_form r));
    [|destruct G; repeat split; [assumption..|apply forms_exclusive]].
  assert (Hstart : Forall (fun r => ~ terminal r) [start_record env])
    by (constructor; [apply start_not_terminal|constructor]).
  destruct (session_ends env image_id sid) as
    [st Hrej Hlog _|st e Hlog _|st W H tw th cols rows k e _ _ Hlog _
    |st W H tw th cols rows e _ Hlog _|st W H tw th cols rows _ Hlog _];
    rewrite Hlog in Hi |- *.
  - destruct (terminal_only_last [start_record env] (invalid_record env) i r Hstart Hi Hr)
      as [E ->].
    split; [exact E|]. right. repeat split; discriminate.
  - destruct (terminal_only_last [start_record env] (handler_record env 1 e) i r Hstart Hi Hr)
      as [E ->].
    split; [exact E|]. right. apply handler_record_failed.
  - rewrite app_assoc in Hi |- *.
    destruct (terminal_only_last _ _ i r (tiles_prefix_not_terminal env W H _ k) Hi Hr)
      as [E ->].
    split; [exact E|]. right. apply handler_record_failed.
  - change [saving_record env ?a; handler_record env ?b e]
      with ([saving_record env a] ++ [handler_record env b e]) in Hi |- *.
    rewrite !app_assoc in Hi |- *.
    destruct (terminal_only_last _ _ i r (saving_prefix_not_terminal env W H _ _ _) Hi Hr)
      as [E ->].
    split; [exact E|]. right. apply handler_record_failed.
  - change [saving_record env ?a; ready_record env ?b ?c]
      with ([saving_record env a] ++ [ready_record env b c]) in Hi |- *.
    rewrite !app_assoc in Hi |- *.
    destruct (terminal_only_last _ _ i r (saving_prefix_not_terminal env W H _ _ _) Hi Hr)
      as [E ->].
    split; [exact E|]. left. repeat split; discriminate.
Qed.

Lemma handler_record_values env i e : progress_values [handler_record env i e] = [].
Proof. unfold progress_values. cbn. rewrite handler_record_progress. reflexivity. Qed.

Lemma tile_records_total_values env W H tw th cols rows k :
  (k <= length (tile_grid W H tw th cols rows))%nat ->
  progress_values (tile_records env (cols * rows) k)
  = map (fun j => tile_progress_value (Z.of_nat j)
                    (Z.of_nat (length (tile_grid W H tw th cols rows)))) (seq 1 k).
Proof.
  intros Hk. rewrite tile_records_values.
  destruct k as [|k]; [reflexivity|].
  rewrite (tile_grid_total W H tw th cols rows) by lia. reflexivity.
Qed.

(** The records of a session that completes. *)
Lemma completed_session_writes env image_id sid :
  session_completes env image_id sid ->
  exists W H tw th cols rows,
    metadata_of env image_id = Ok (W, H, tw, th, cols, rows)
    /\ session_writes env image_id sid
       = [start_record env; size_record env W H (cols * rows)]
         ++ tile_records env (cols * rows) (length (tile_grid W H tw th cols rows))
         ++ [saving_record env (S (S (length (tile_grid W H tw th cols rows))));
             ready_record env (S (S (S (length (tile_grid W H tw th cols rows)))))
               (output_file_of env image_id)].
Proof.
  unfold session_completes, session_writes. intros (r & Hin & Hdone).
  destruct (session_ends env image_id sid) as
    [st Hrej Hlog _|st e Hlog _|st W H tw th cols rows k e _ _ Hlog _
    |st W H tw th cols rows e _ Hlog _|st W H tw th cols rows Hmeta Hlog _];
    rewrite Hlog in Hin |- *.
  - exfalso. destruct Hin as [<-|[<-|[]]]; discriminate.
  - exfalso. destruct Hin as [<-|[<-|[]]]; [discriminate|].
    rewrite handler_record_not_completed in Hdone. discriminate.
  - exfalso. cbn [app] in Hin. destruct Hin as [<-|[<-|Hin]]; [discriminate..|].
    apply in_app_iff in Hin as [Hin|[<-|[]]].
    + apply tile_records_not_completed in Hin. congruence.
    + rewrite handler_record_not_completed in Hdone. discriminate.
  - exfalso. cbn [app] in Hin. destruct Hin as [<-|[<-|Hin]]; [discriminate..|].
    apply in_app_iff in Hin as [Hin|[<-|[<-|[]]]].
    + apply tile_records_not_completed in Hin. congruence.
    + discriminate.
    + rewrite handler_record_not_completed in Hdone. discriminate.
  - exists W, H, tw, th, cols, rows. split; [exact Hmeta|reflexivity].
Qed.

(** The progress values of such a list of records. *)
Lemma completed_values env W H tw th cols rows path :
  progress_values
    ([start_record env; size_record env W H (cols * rows)]
     ++ tile_records env (cols * rows) (length (tile_grid W H tw th cols rows))
     ++ [saving_record env (S (S (length (tile_grid W H tw th cols rows))));
         ready_record env (S (S (S (length (tile_grid W H tw th cols rows))))) path])
  = [0%Q; 5%Q]
    ++ map (fun j => tile_progress_value (Z.of_nat j)
                       (Z.of_nat (length (tile_grid W H tw th cols rows))))
         (seq 1 (length (tile_grid W H tw th cols rows)))
    ++ [95%Q; 100%Q].
Proof.
  rewrite !progress_values_app, (tile_records_total_values env W H tw th) by lia.
  reflexivity.
Qed.

(** C5: a session that completes has written, in this order, the record
    of the metadata request with progress 0, the record with the image
    size and the tile count with progress 5, one record per tile with
    progress [5 + (tile_num / total_tiles) * 85], the saving record with
    progress 95, and the record with progress 100, [completed] set and
    the path of the output file. *)
Theorem completed_session_checkpoints env image_id sid :
  session_completes env image_id sid ->
  exists W H tw th cols rows,
    metadata_of env image_id = Ok (W, H, tw, th, cols, rows)
    /\ session_writes env image_id sid
       = [start_record env; size_record env W H (cols * rows)]
         ++ tile_records env (cols * rows) (length (tile_grid W H tw th cols rows))
         ++ [saving_record env (S (S (length (tile_grid W H tw th cols rows))));
             ready_record env (S (S (S (length (tile_grid W H tw th cols rows)))))
               (output_file_of env image_id)]
    /\ progress_values (session_writes env image_id sid)
       = [0%Q; 5%Q]
         ++ map (fun j => tile_progress_value (Z.of_nat j)
                            (Z.of_nat (length (tile_grid W H tw th cols rows))))
              (seq 1 (length (tile_grid W H tw th cols rows)))
         ++ [95%Q; 100%Q].
Proof.
  intros Hdone.
  destruct (completed_session_writes env image_id sid Hdone)
    as (W & H & tw & th & cols & rows & Hmeta & Hws).
  exists W, H, tw, th, cols, rows. split; [exact Hmeta|]. split; [exact Hws|].
  rewrite Hws. apply completed_values.
Qed.

(** C6: the progress values a session writes never decrease, and the
    last one is 100 when the session completes. *)
Theorem progress_values_monotone env image_id sid :
  StronglySorted Qle (progress_values (session_writes env image_id sid))
  /\ (session_completes env image_id sid ->
      last (progress_values (session_writes env image_id sid)) = Some 100%Q).
Proof.
  split.
  - unfold session_writes.
    destruct (session_ends env image_id sid) as
      [st Hrej Hlog _|st e Hlog _|st W H tw th cols rows k e _ Hk Hlog _
      |st W H tw th cols rows e _ Hlog _|st W H tw th cols rows Hmeta Hlog _];
      rewrite Hlog.
    + cbn. repeat constructor.
    + change [start_record env; handler_record env 1 e]
        with ([start_record env] ++ [handler_record env 1 e]).
      rewrite progress_values_app, handler_record_values. cbn. repeat constructor.
    + rewrite !progress_values_app, handler_record_values,
        (tile_records_total_values env W H tw th) by exact Hk.
      apply (checkpoints_sorted _ (length (tile_grid W H tw th cols rows)));
        [exact Hk|auto|constructor|constructor].
    + change [saving_record env ?a; handler_record env ?b e]
        with ([saving_record env a] ++ [handler_record env b e]).
      rewrite !progress_values_app, handler_record_values,
        (tile_records_total_values env W H tw th) by lia.
      apply (checkpoints_sorted _ (length (tile_grid W H tw th cols rows)));
        [lia|auto|repeat constructor|repeat constructor; discriminate].
    + rewrite !progress_values_app, (tile_records_total_values env W H tw th) by lia.
      apply (checkpoints_sorted _ (length (tile_grid W H tw th cols rows)));
        [lia|auto| |repeat constructor; discriminate].
      constructor; [repeat constructor|]. constructor; [discriminate|constructor].
  - intros Hdone.
    destruct (completed_session_writes env image_id sid Hdone)
      as (W & H & tw & th & cols & rows & _ & ->).
    rewrite completed_values.
    change [95%Q; 100%Q] with ([95%Q] ++ [100%Q]). rewrite !app_assoc.
    apply last_snoc.
Qed.

(** C10: when a tile request of a session is answered by a success
    response with an empty body, the session ends with the network-error
    record for that tile's URL, without completion or file path, and
    the canvas holds only the tiles reported before: nothing was pasted
    for the tile with the empty body. *)
Theorem empty_tile_body_ends_session env image_id sid n u r :
  (1 <= n)%nat ->
  http_log (download_and_stitch_image env image_id sid (new_task ∅)) !! n = Some u ->
  remote env n u = Returned r -> status_code r = 200 -> content r = ""%string ->
  exists W H total_tiles k cv,
    session_writes env image_id sid
    = [start_record env; size_record env W H total_tiles]
      ++ tile_records env total_tiles k
      ++ [record_at env (S (S k)) "Network error occurred" None
            (Some ("Failed to download image: Failed to download tile: " +:+ u)) false None]
    /\ final_img (download_and_stitch_image env image_id sid (new_task ∅)) = Some cv
    /\ length (cv_pastes cv) = k.
Proof.
  intros Hn Hu Hr H200 Hbody. unfold session_writes.
  assert (Hempty : empty_success (remote env n u) = true).
  { rewrite Hr. cbn. rewrite H200, Hbody. reflexivity. }
  assert (Hcontra : no_empty_tile env
            (download_and_stitch_image env image_id sid (new_task ∅)) -> False).
  { intros Hno. rewrite (Hno n u Hn Hu) in Hempty. discriminate. }
  destruct (session_ends env image_id sid) as
    [st Hrej Hlog Hhttp|st e Hlog Hno|st W H tw th cols rows k e _ _ Hlog Hcase
    |st W H tw th cols rows e _ Hlog Hno|st W H tw th cols rows _ Hlog Hno];
    try (exfalso; apply Hcontra; exact Hno).
  - rewrite Hhttp in Hu. discriminate.
  - destruct Hcase as [Hno|(u0 & -> & Honly & cv & Hcv & Hlen)]; [exfalso; auto|].
    rewrite (Honly n u Hn Hu Hempty) in *.
    exists W, H, (cols * rows), k, cv. split; [|split; assumption].
    rewrite Hlog, handler_record_request by reflexivity. reflexivity.
Qed.

(** ** The stitcher *)

(** C2, as amended: a tile whose body decodes to an image is pasted at
    the planned origin and reported, whatever the width and the height
    of the decoded image; the stitching step compares no dimensions. *)
Theorem stitcher_pastes_any_size env sid base W H tw th N row col st r st1 img cv p :
  fetch_tile env (tile_url base (tile_spec W H tw th row col)) 3 st = (Ok (Some r), st1) ->
  response_ok r = true -> PyStr.is_empty (content r) = false ->
  pil_open env (content r) = inr img ->
  final_img st1 = Some cv ->
  tile_progress (tile_num st1 + 1) N = Ok p ->
  exists st2,
    process_tile env sid base W H tw th N row col st = (Ok tt, st2)
    /\ final_img st2
       = Some (mk_canvas (cv_width cv) (cv_height cv)
                 (cv_pastes cv
                  ++ [(img, (origin_x (tile_spec W H tw th row col),
                             origin_y (tile_spec W H tw th row col)))]))
    /\ map snd (progress_log st2)
       = map snd (progress_log st1)
         ++ [record_at env (clock_reads st1)
               ("Downloaded tile " +:+ pretty (tile_num st1 + 1) +:+ "/" +:+ pretty N)
               (Some p) None false None].
Proof.
  intros Hfetch Hok Hbody Hopen Hcv Hp.
  unfold process_tile, bind. rewrite Hfetch, Hok, Hbody. cbn [andb negb].
  unfold Image_open. rewrite Hopen. unfold ret, paste. rewrite Hcv.
  unfold next_tile_num, lift. cbn [tile_num]. rewrite Hp.
  unfold update_progress. eexists. split; [reflexivity|].
  cbn [final_img progress_log clock_reads]. split; [reflexivity|].
  rewrite map_app. reflexivity.
Qed.

Lemma stitcher_pastes_any_size_witness :
  exists st2,
    process_tile (stub_world (image_server 2 2 2 2 "jpeg") (decode_as 5 7)) "sid" "b"
      2 2 2 2 1 0 0
      (mk_state ∅ [] ["i"%string] 0 2 (Some (mk_canvas 2 2 [])) 0 ∅) = (Ok tt, st2)
    /\ final_img st2 = Some (mk_canvas 2 2 [(mk_image 5 7 "jpeg", (0, 0))])
    /\ map snd (progress_log st2)
       = [record_at (stub_world (image_server 2 2 2 2 "jpeg") (decode_as 5 7)) 2
            "Downloaded tile 1/1" (Some (tile_progress_value 1 1)) None false None].
Proof.
  destruct (stitcher_pastes_any_size
              (stub_world (image_server 2 2 2 2 "jpeg") (decode_as 5 7)) "sid" "b"
              2 2 2 2 1 0 0
              (mk_state ∅ [] ["i"%string] 0 2 (Some (mk_canvas 2 2 [])) 0 ∅)
              (ok_response (tile_url "b" (tile_spec 2 2 2 2 0 0)) "jpeg" None)
              (mk_state ∅ [] ["i"%string; tile_url "b" (tile_spec 2 2 2 2 0 0)] 0 2
                 (Some (mk_canvas 2 2 [])) 0 ∅)
              (mk_image 5 7 "jpeg") (mk_canvas 2 2 []) (tile_progress_value 1 1))
    as (st2 & H1 & H2 & H3);
    [reflexivity..|].
  exists st2. split; [exact H1|]. split; [exact H2|].
  rewrite H3. reflexivity.
Defined.

(** C2 as stated fails: the server describes an image of one 2 by 2
    tile and answers the tile request with an image 5 by 7; that image
    is pasted at the origin of the tile and the session completes. *)
Lemma mismatched_tile_is_pasted : ~ mismatch_is_fatal.
Proof.
  intros Hfatal.
  specialize (Hfatal (stub_world (image_server 2 2 2 2 "jpeg") (decode_as 5 7))
                "abc"%string "sid"%string 2 2 2 2 1 1
                (mk_canvas 2 2 [(mk_image 5 7 "jpeg", (0, 0))])
                (mk_image 5 7 "jpeg") (tile_spec 2 2 2 2 0 0)).
  destruct Hfatal as [Hw _].
  - vm_compute. reflexivity.
  - left. reflexivity.
  - vm_compute. reflexivity.
  - left. reflexivity.
  - discriminate Hw.
Qed.

Example mismatched_session_completes :
  map (fun r => (progress r, completed r))
    (session_writes (stub_world (image_server 2 2 2 2 "jpeg") (decode_as 5 7)) "abc" "sid")
  = [(Some 0%Q, false); (Some 5%Q, false); (Some (tile_progress_value 1 1), false);
     (Some 95%Q, false); (Some 100%Q, true)].
Proof. vm_compute. reflexivity. Qed.

(** ** Identifier validation *)

Lemma remove_not_alnum c s :
  PyStr.char_isalnum c = false -> PyStr.all_chars PyStr.char_isalnum s = true ->
  PyStr.remove c s = s.
Proof.
  intros Hc. induction s as [|d s IH]; [reflexivity|].
  cbn [PyStr.all_chars PyStr.remove]. intros Hs. apply andb_true_iff in Hs as [Hd Hs].
  destruct (Ascii.eqb_spec c d) as [->|_]; [congruence|].
  rewrite IH by exact Hs. reflexivity.
Qed.

Lemma isalnum_all_chars s :
  PyStr.isalnum s = true -> PyStr.all_chars PyStr.char_isalnum s = true.
Proof. destruct s; [discriminate|]. intros H. exact H. Qed.

(** An identifier the task accepts is accepted at intake. *)
Lemma task_accepts_intake_accepts image_id :
  task_rejects image_id = false -> intake_rejects image_id = false.
Proof.
  unfold task_rejects, intake_rejects. intros H.
  apply orb_false_iff in H as [H Halnum]. rewrite H. cbn [orb].
  apply negb_false_iff in Halnum. apply negb_false_iff.
  pose proof (isalnum_all_chars _ Halnum) as Hall.
  rewrite (remove_not_alnum "_" image_id), (remove_not_alnum "-" image_id); auto.
Qed.

(** C3 fails on the code: the identifier [a_b] passes the test of
    [start_download], which starts a thread for it, and is refused by
    the test at the head of the task, which ends the session with the
    "Invalid image ID" record. *)
Theorem validation_differs_on_underscore :
  intake_rejects "a_b" = false
  /\ task_rejects "a_b" = true
  /\ start_download "a_b" "sid" = (Json 200 (SessionBody "sid"), Some ("a_b"%string, "sid"%string))
  /\ (forall env, session_writes env "a_b" "sid" = [start_record env; invalid_record env])
  /\ ~ validation_agrees.
Proof.
  repeat split; try reflexivity.
  intros H. specialize (H "a_b"%string). vm_compute in H. discriminate H.
Qed.

(** An identifier made of underscores and hyphens only is refused at
    intake as well. *)
Example intake_rejects_underscores : intake_rejects "_-_" = true.
Proof. reflexivity. Qed.

(** ** The request handlers and the server *)

Lemma keeps_key_bind sid {A B} (m : M A) (k : A -> M B) :
  keeps_key sid m -> (forall a, keeps_key sid (k a)) -> keeps_key sid (bind m k).
Proof.
  intros Hm Hk st Hst. unfold bind. specialize (Hm st Hst).
  destruct (m st) as [[a|e] st1]; cbn [snd] in *; [apply Hk; exact Hm|exact Hm].
Qed.

Lemma keeps_key_same sid {A} (m : M A) :
  (forall st, progress_log (snd (m st)) = progress_log st) -> keeps_key sid m.
Proof. intros H st Hst. rewrite H. exact Hst. Qed.

Lemma keeps_key_update env sid msg prog err done_flag path :
  keeps_key sid (update_progress env sid msg prog err done_flag path).
Proof.
  intros st Hst. unfold update_progress. cbn [snd progress_log].
  apply Forall_app. split; [exact Hst|]. constructor; [reflexivity|constructor].
Qed.

Lemma keeps_key_for_each sid {A} (l : list A) (body : A -> M unit) :
  (forall x, keeps_key sid (body x)) -> keeps_key sid (for_each l body).
Proof.
  intros Hb. induction l as [|x l IH]; [intros st Hst; exact Hst|].
  cbn [for_each]. apply keeps_key_bind; [apply Hb|intros _; exact IH].
Qed.

Lemma keeps_key_fetch_tile env sid u retries : keeps_key sid (fetch_tile env u retries).
Proof.
  apply keeps_key_same. intros st. unfold fetch_tile.
  destruct (fetch_tile_loop_frame env u retries (seqZ 1 retries) None st) as (k & sl & ->).
  reflexivity.
Qed.

Lemma keeps_key_process_tile env sid base W H tw th N row col :
  keeps_key sid (process_tile env sid base W H tw th N row col).
Proof.
  unfold process_tile.
  apply keeps_key_bind; [apply keeps_key_fetch_tile|intros resp].
  apply keeps_key_bind.
  - destruct resp as [r|]; [|apply keeps_key_same; reflexivity].
    destruct (response_ok r && negb (PyStr.is_empty (content r)));
      [|apply keeps_key_same; reflexivity].
    apply keeps_key_bind.
    + apply keeps_key_same. intros st. unfold Image_open.
      destruct (pil_open env (content r)); reflexivity.
    + intros img. apply keeps_key_same. intros st. unfold paste.
      destruct (final_img st); reflexivity.
  - intros _. apply keeps_key_bind; [apply keeps_key_same; reflexivity|intros n].
    apply keeps_key_bind; [apply keeps_key_same; reflexivity|intros p].
    apply keeps_key_update.
Qed.

Lemma keeps_key_fetch_metadata env sid image_id : keeps_key sid (fetch_metadata env image_id).
Proof.
  unfold fetch_metadata.
  apply keeps_key_bind.
  { apply keeps_key_same. intros st. unfold requests_get.
    destruct (remote env _ _); reflexivity. }
  intros r. apply keeps_key_bind.
  { apply keeps_key_same. intros st. unfold raise_for_status.
    destruct (PyStr.is_empty _); reflexivity. }
  intros _. apply keeps_key_bind; [apply keeps_key_same; reflexivity|intros info].
  apply keeps_key_same. reflexivity.
Qed.

Lemma keeps_key_try_block env image_id sid : keeps_key sid (try_block env image_id sid).
Proof.
  unfold try_block.
  apply keeps_key_bind; [apply keeps_key_update|intros _].
  destruct (task_rejects image_id); [apply keeps_key_update|].
  unfold stitch.
  apply keeps_key_bind.
  { apply keeps_key_same. intros st. unfold makedirs. destruct (os_makedirs env _); reflexivity. }
  intros _. apply keeps_key_bind; [apply keeps_key_fetch_metadata|].
  intros [[[[[W H] tw] th] cols] rows].
  apply keeps_key_bind; [apply keeps_key_update|intros _].
  apply keeps_key_bind.
  { apply keeps_key_same. intros st. unfold Image_new.
    destruct ((W <? 0) || (H <? 0)); [reflexivity|]. destruct (pil_new env W H); reflexivity. }
  intros _. apply keeps_key_bind.
  { unfold download_tiles. apply keeps_key_for_each. intros row.
    apply keeps_key_for_each. intros col. apply keeps_key_process_tile. }
  intros _. apply keeps_key_bind; [apply keeps_key_update|intros _].
  apply keeps_key_bind.
  { apply keeps_key_same. intros st. unfold Image_save.
    destruct (final_img st) as [cv|]; [|reflexivity].
    destruct (pil_save env cv _); reflexivity. }
  intros _. apply keeps_key_update.
Qed.

(** A task writes under its own session identifier only. *)
Lemma task_writes_key env image_id sid :
  Forall (fun kr => fst kr = sid) (task_writes env image_id sid).
Proof.
  unfold task_writes, download_and_stitch_image.
  pose proof (keeps_key_try_block env image_id sid (new_task ∅) ltac:(constructor)) as Htry.
  destruct (try_block env image_id sid (new_task ∅)) as [[[]|e] st]; cbn [snd] in Htry;
    [exact Htry|].
  destruct (is_RequestException e); apply keeps_key_update; exact Htry.
Qed.

Lemma reachable_inv s : reachable s -> server_inv s.
Proof.
  induction 1 as [|s s' _ [Hdom Hthreads] Hstep].
  - split; [|constructor]. intros k [r Hr]. cbn in Hr. rewrite lookup_empty in Hr. discriminate.
  - destruct Hstep as [s env field fresh image_id r Hstart|s field fresh r _
                      |s before after sid r rest Hth].
    + split; cbn [srv_progress srv_sessions srv_threads].
      * intros k Hk. right. apply Hdom. exact Hk.
      * constructor.
        -- eapply Forall_impl; [apply task_writes_key|]. intros kr Hkr. cbn in Hkr. left.
           symmetry. exact Hkr.
        -- eapply Forall_impl; [exact Hthreads|]. intros th Hth. cbn in Hth.
           eapply Forall_impl; [exact Hth|]. intros kr Hkr. right. exact Hkr.
    + split; assumption.
    + rewrite Hth in Hthreads.
      apply Forall_app in Hthreads as [Hbefore Hmid].
      apply Forall_cons in Hmid as [Hcur Hafter].
      apply Forall_cons in Hcur as [Hkey Hrest].
      split; cbn [srv_progress srv_sessions srv_threads].
      * intros k Hk. destruct (decide (sid = k)) as [<-|Hne]; [exact Hkey|].
        apply Hdom. rewrite lookup_insert_ne in Hk by exact Hne. exact Hk.
      * apply Forall_app. split; [exact Hbefore|]. constructor; assumption.
Qed.

(** C8: on a server reached from the start, a session identifier that
    [start_download] never handed out gets "Session not found" with
    status 404 from both [get_progress] and [download_file]; and for a
    session whose record is not completed [download_file] answers
    "Download not completed yet" with status 400, never a file. *)
Theorem unknown_or_unfinished_session s sid path_exists :
  reachable s ->
  (~ In sid (srv_sessions s) ->
   get_progress (srv_progress s) sid = Json 404 (ErrorBody "Session not found")
   /\ download_file (srv_progress s) path_exists sid
      = Json 404 (ErrorBody "Session not found"))
  /\ (forall r, srv_progress s !! sid = Some r -> completed r = false ->
        download_file (srv_progress s) path_exists sid
        = Json 400 (ErrorBody "Download not completed yet")).
Proof.
  intros Hs. destruct (reachable_inv s Hs) as [Hdom _]. split.
  - intros Hnew. unfold get_progress, download_file.
    destruct (srv_progress s !! sid) as [r|] eqn:Hr; [|split; reflexivity].
    exfalso. apply Hnew, Hdom. rewrite Hr. eauto.
  - intros r Hr Hc. unfold download_file. rewrite Hr, Hc. reflexivity.
Qed.

(** ** Tasks and the shared dictionary *)

Lemma replay_app ws1 ws2 dp : replay (ws1 ++ ws2) dp = replay ws2 (replay ws1 dp).
Proof. unfold replay. apply fold_left_app. Qed.

Lemma quiet_ret {A} (a : A) : quiet (ret a).
Proof. intros st. split; reflexivity. Qed.

Lemma quiet_raise {A} (e : exn) : quiet (@raise A e).
Proof. intros st. split; reflexivity. Qed.

Lemma quiet_lift {A} (r : result A) : quiet (lift r).
Proof. intros st. split; reflexivity. Qed.

Lemma quiet_bind {A B} (m : M A) (k : A -> M B) :
  quiet m -> (forall a, quiet (k a)) -> quiet (bind m k).
Proof.
  intros Hm Hk st. destruct (Hm st) as [Hlog Hrun]. unfold bind. split.
  - destruct (m st) as [[a|e] st1]; cbn [fst snd] in *; [|exact Hlog].
    destruct (Hk a st1) as [Hlog2 _]. congruence.
  - intros dp. rewrite Hrun.
    destruct (m st) as [[a|e] st1]; cbn [fst snd]; [|reflexivity].
    destruct (Hk a st1) as [_ Hrun2]. rewrite Hrun2.
    destruct (k a st1); reflexivity.
Qed.

Lemma quiet_requests_get env u : quiet (requests_get env u).
Proof.
  intros st. unfold requests_get. split.
  - destruct (remote env _ u); reflexivity.
  - intros dp. cbn [with_dictionary http_log]. destruct (remote env _ u); reflexivity.
Qed.

Lemma quiet_time_sleep : quiet time_sleep.
Proof. intros st. split; reflexivity. Qed.

Lemma quiet_raise_for_status r : quiet (raise_for_status r).
Proof.
  unfold raise_for_status. destruct (PyStr.is_empty _); [apply quiet_ret|apply quiet_raise].
Qed.

Lemma quiet_fetch_tile_loop env u retries attempts :
  forall resp, quiet (fetch_tile_loop env u retries attempts resp).
Proof.
  induction attempts as [|a rest IH]; intros resp.
  - cbn [fetch_tile_loop]. destruct resp as [r|]; [|apply quiet_raise].
    apply quiet_bind; [apply quiet_raise_for_status|intros _; apply quiet_ret].
  - assert (Hcont : forall resp', quiet (time_sleep ;;; fetch_tile_loop env u retries rest resp'))
      by (intros resp'; apply quiet_bind; [apply quiet_time_sleep|intros _; apply IH]).
    intros st. cbn [fetch_tile_loop].
    destruct (quiet_requests_get env u st) as [Hlog Hrun].
    split.
    + destruct (requests_get env u st) as [[r|e] st1]; cbn [snd] in Hlog.
      * destruct (status_code r =? 200); [exact Hlog|].
        destruct (Hcont (Some r) st1) as [H1 _]. congruence.
      * destruct (is_RequestException e); [|exact Hlog].
        destruct (a =? retries); [exact Hlog|].
        destruct (Hcont resp st1) as [H1 _]. congruence.
    + intros dp. rewrite Hrun.
      destruct (requests_get env u st) as [[r|e] st1]; cbn [fst snd].
      * destruct (status_code r =? 200); [reflexivity|].
        destruct (Hcont (Some r) st1) as [_ H2]. rewrite H2. reflexivity.
      * destruct (is_RequestException e); [|reflexivity].
        destruct (a =? retries); [reflexivity|].
        destruct (Hcont resp st1) as [_ H2]. rewrite H2. reflexivity.
Qed.

Lemma quiet_oblivious {A} (m : M A) : quiet m -> oblivious m.
Proof.
  intros Hm st. destruct (Hm st) as [Hlog Hrun]. exists [].
  rewrite app_nil_r. split; [exact Hlog|exact Hrun].
Qed.

Lemma oblivious_bind {A B} (m : M A) (k : A -> M B) :
  oblivious m -> (forall a, oblivious (k a)) -> oblivious (bind m k).
Proof.
  intros Hm Hk st. destruct (Hm st) as (ws1 & Hlog1 & Hrun1). unfold bind.
  destruct (m st) as [[a|e] st1] eqn:Em; cbn [fst snd] in *.
  - destruct (Hk a st1) as (ws2 & Hlog2 & Hrun2).
    exists (ws1 ++ ws2). split.
    + rewrite Hlog2, Hlog1, app_assoc. reflexivity.
    + intros dp. rewrite Hrun1, Hrun2, replay_app. destruct (k a st1); reflexivity.
  - exists ws1. split; [exact Hlog1|]. intros dp. rewrite Hrun1. reflexivity.
Qed.

Lemma oblivious_update env sid msg prog err done_flag path :
  oblivious (update_progress env sid msg prog err done_flag path).
Proof.
  intros st. eexists. split; [reflexivity|]. intros dp. reflexivity.
Qed.

Lemma oblivious_for_each {A} (l : list A) (body : A -> M unit) :
  (forall x, oblivious (body x)) -> oblivious (for_each l body).
Proof.
  intros Hb. induction l as [|x l IH]; [apply quiet_oblivious, quiet_ret|].
  cbn [for_each]. apply oblivious_bind; [apply Hb|intros _; exact IH].
Qed.

Lemma quiet_Image_open env body : quiet (Image_open env body).
Proof. unfold Image_open. destruct (pil_open env body); [apply quiet_raise|apply quiet_ret]. Qed.

Lemma quiet_paste img x y : quiet (paste img x y).
Proof.
  intros st. unfold paste. split.
  - destruct (final_img st); reflexivity.
  - intros dp. cbn [with_dictionary final_img]. destruct (final_img st); reflexivity.
Qed.

Lemma oblivious_process_tile env sid base W H tw th N row col :
  oblivious (process_tile env sid base W H tw th N row col).
Proof.
  unfold process_tile.
  apply oblivious_bind; [apply quiet_oblivious, quiet_fetch_tile_loop|intros resp].
  apply oblivious_bind.
  - apply quiet_oblivious. destruct resp as [r|]; [|apply quiet_raise].
    destruct (response_ok r && negb (PyStr.is_empty (content r))); [|apply quiet_raise].
    apply quiet_bind; [apply quiet_Image_open|intros img; apply quiet_paste].
  - intros _. apply oblivious_bind.
    { apply quiet_oblivious. intros st. split; reflexivity. }
    intros n. apply oblivious_bind; [apply quiet_oblivious, quiet_lift|intros p].
    apply oblivious_update.
Qed.

Lemma oblivious_try_block env image_id sid : oblivious (try_block env image_id sid).
Proof.
  unfold try_block.
  apply oblivious_bind; [apply oblivious_update|intros _].
  destruct (task_rejects image_id); [apply oblivious_update|].
  unfold stitch.
  apply oblivious_bind.
  { apply quiet_oblivious. unfold makedirs.
    destruct (os_makedirs env _); [apply quiet_raise|apply quiet_ret]. }
  intros _. apply oblivious_bind.
  { apply quiet_oblivious. unfold fetch_metadata.
    apply quiet_bind; [apply quiet_requests_get|intros r].
    apply quiet_bind; [apply quiet_raise_for_status|intros _].
    apply quiet_bind; [apply quiet_lift|intros info; apply quiet_lift]. }
  intros [[[[[W H] tw] th] cols] rows].
  apply oblivious_bind; [apply oblivious_update|intros _].
  apply oblivious_bind.
  { apply quiet_oblivious. intros st. unfold Image_new. split.
    - destruct ((W <? 0) || (H <? 0)); [reflexivity|]. destruct (pil_new env W H); reflexivity.
    - intros dp. destruct ((W <? 0) || (H <? 0)); [reflexivity|].
      destruct (pil_new env W H); reflexivity. }
  intros _. apply oblivious_bind.
  { unfold download_tiles. apply oblivious_for_each. intros row.
    apply oblivious_for_each. intros col. apply oblivious_process_tile. }
  intros _. apply oblivious_bind; [apply oblivious_update|intros _].
  apply oblivious_bind; [|intros _; apply oblivious_update].
  apply quiet_oblivious. intros st. unfold Image_save. split.
  - destruct (final_img st) as [cv|]; [|reflexivity]. destruct (pil_save env cv _); reflexivity.
  - intros dp. cbn [with_dictionary final_img].
    destruct (final_img st) as [cv|]; [|reflexivity]. destruct (pil_save env cv _); reflexivity.
Qed.

(** A task started on the dictionary [dp] does what it does on the
    empty dictionary, and leaves [dp] with its writes made in order:
    this is what a thread of the server model stands for. *)
Lemma task_replays_writes env image_id sid dp :
  download_and_stitch_image env image_id sid (new_task dp)
  = with_dictionary (replay (task_writes env image_id sid) dp)
      (download_and_stitch_image env image_id sid (new_task ∅)).
Proof.
  unfold task_writes, download_and_stitch_image.
  destruct (oblivious_try_block env image_id sid (new_task ∅)) as (ws & Hlog & Hrun).
  change (new_task dp) with (with_dictionary dp (new_task ∅)). rewrite Hrun.
  destruct (try_block env image_id sid (new_task ∅)) as [[[]|e] st]; cbn [fst snd] in *.
  - rewrite Hlog. reflexivity.
  - destruct (is_RequestException e); cbn; rewrite Hlog; cbn; rewrite replay_app; reflexivity.
Qed.

(** ** The statements on the scenarios *)

Lemma completed_session_checkpoints_witness :
  exists W H tw th cols rows,
    metadata_of (stub_world (image_server 2 2 2 2 "jpeg") (decode_as 2 2)) "abc"
    = Ok (W, H, tw, th, cols, rows)
    /\ session_writes (stub_world (image_server 2 2 2 2 "jpeg") (decode_as 2 2)) "abc" "sid"
       = [start_record (stub_world (image_server 2 2 2 2 "jpeg") (decode_as 2 2));
          size_record (stub_world (image_server 2 2 2 2 "jpeg") (decode_as 2 2)) W H
            (cols * rows)]
         ++ tile_records (stub_world (image_server 2 2 2 2 "jpeg") (decode_as 2 2))
              (cols * rows) (length (tile_grid W H tw th cols rows))
         ++ [saving_record (stub_world (image_server 2 2 2 2 "jpeg") (decode_as 2 2))
               (S (S (length (tile_grid W H tw th cols rows))));
             ready_record (stub_world (image_server 2 2 2 2 "jpeg") (decode_as 2 2))
               (S (S (S (length (tile_grid W H tw th cols rows)))))
               (output_file_of (stub_world (image_server 2 2 2 2 "jpeg") (decode_as 2 2))
                  "abc")]
    /\ progress_values
         (session_writes (stub_world (image_server 2 2 2 2 "jpeg") (decode_as 2 2)) "abc" "sid")
       = [0%Q; 5%Q]
         ++ map (fun j => tile_progress_value (Z.of_nat j)
                            (Z.of_nat (length (tile_grid W H tw th cols rows))))
              (seq 1 (length (tile_grid W H tw th cols rows)))
         ++ [95%Q; 100%Q].
Proof.
  apply completed_session_checkpoints.
  exists (ready_record (stub_world (image_server 2 2 2 2 "jpeg") (decode_as 2 2)) 4
            "/srv/downloads/abc_stitched.jpg").
  split; [|reflexivity].
  vm_compute. do 4 right. left. reflexivity.
Defined.

Lemma terminal_record_is_final_witness :
  5%nat = length (session_writes (stub_world (image_server 2 2 2 2 "jpeg") (decode_as 2 2))
                    "abc" "sid")
  /\ (completed_form
        (ready_record (stub_world (image_server 2 2 2 2 "jpeg") (decode_as 2 2)) 4
           "/srv/downloads/abc_stitched.jpg")
      \/ failed_form
           (ready_record (stub_world (image_server 2 2 2 2 "jpeg") (decode_as 2 2)) 4
              "/srv/downloads/abc_stitched.jpg"))
  /\ ~ (completed_form
          (ready_record (stub_world (image_server 2 2 2 2 "jpeg") (decode_as 2 2)) 4
             "/srv/downloads/abc_stitched.jpg")
        /\ failed_form
             (ready_record (stub_world (image_server 2 2 2 2 "jpeg") (decode_as 2 2)) 4
                "/srv/downloads/abc_stitched.jpg")).
Proof.
  apply (terminal_record_is_final
           (stub_world (image_server 2 2 2 2 "jpeg") (decode_as 2 2)) "abc" "sid" 4).
  - reflexivity.
  - left. reflexivity.
Defined.

Lemma empty_tile_body_ends_session_witness :
  exists W H total_tiles k cv,
    session_writes (stub_world (image_server 2 2 2 2 "") (decode_as 2 2)) "abc" "sid"
    = [start_record (stub_world (image_server 2 2 2 2 "") (decode_as 2 2));
       size_record (stub_world (image_server 2 2 2 2 "") (decode_as 2 2)) W H total_tiles]
      ++ tile_records (stub_world (image_server 2 2 2 2 "") (decode_as 2 2)) total_tiles k
      ++ [record_at (stub_world (image_server 2 2 2 2 "") (decode_as 2 2)) (S (S k))
            "Network error occurred" None
            (Some ("Failed to download image: Failed to download tile: "
                   +:+ tile_url (base_url_of "abc") (tile_spec 2 2 2 2 0 0))) false None]
    /\ final_img (download_and_stitch_image
                    (stub_world (image_server 2 2 2 2 "") (decode_as 2 2)) "abc" "sid"
                    (new_task ∅)) = Some cv
    /\ length (cv_pastes cv) = k.
Proof.
  apply (empty_tile_body_ends_session
           (stub_world (image_server 2 2 2 2 "") (decode_as 2 2)) "abc" "sid" 1
           (tile_url (base_url_of "abc") (tile_spec 2 2 2 2 0 0))
           (ok_response (tile_url (base_url_of "abc") (tile_spec 2 2 2 2 0 0)) "" None)).
  - lia.
  - reflexivity.
  - reflexivity.
  - reflexivity.
  - reflexivity.
Defined.

Lemma busy_server_reachable : reachable busy_server.
Proof.
  apply (reach_step started_server).
  - apply (reach_step server_start); [apply reach_start|].
    apply (step_start server_start scenario_world "abc" "sid1" "abc"
             (Json 200 (SessionBody "sid1"))).
    reflexivity.
  - apply (step_write started_server [] [] "sid1" (start_record scenario_world)
             (tl (task_writes scenario_world "abc" "sid1"))).
    vm_compute. reflexivity.
Qed.

Lemma unknown_or_unfinished_session_witness :
  (get_progress (srv_progress busy_server) "nobody" = Json 404 (ErrorBody "Session not found")
   /\ download_file (srv_progress busy_server) (fun _ => true) "nobody"
      = Json 404 (ErrorBody "Session not found"))
  /\ download_file (srv_progress busy_server) (fun _ => true) "sid1"
     = Json 400 (ErrorBody "Download not completed yet").
Proof.
  split.
  - apply (proj1 (unknown_or_unfinished_session busy_server "nobody" (fun _ => true)
                    busy_server_reachable)).
    intros [H|[]]. discriminate H.
  - apply (proj2 (unknown_or_unfinished_session busy_server "sid1" (fun _ => true)
                    busy_server_reachable) (start_record scenario_world)).
    + vm_compute. reflexivity.
    + reflexivity.
Defined.

(** ** The rounding function against the binary64 division of the Standard Library *)

Example truediv_agrees_with_SFdiv :
  Forall (fun ab : Z * Z =>
            Qeq_bool (PyFloat.binary64_round (PyFloat.exact_quotient (fst ab) (snd ab)))
              (spec_float_value (SFdiv 53 1024 (spec_int (fst ab)) (spec_int (snd ab))))
            = true)
    [(1, 3); (2, 3); (1, 10); (1, 7); (5, 7); (1000, 384); (600, 400);
     (2 ^ 53 + 1, 1); (2 ^ 53 + 3, 2); (1, 2 ^ 80); (-7, 3); (1, 2 ^ 1023);
     (2 ^ 53 - 1, 2 ^ 1023)].
Proof. repeat (constructor; [vm_compute; reflexivity|]). constructor. Qed.

(** * Further properties *)

(** ** More on the tile fetcher *)

(** What a run of the retry loop costs and what a response it returns
    is: at most one request per attempt left, no more sleeps than
    requests, and a response is returned only as the answer with status
    200 to the last request made, every earlier request having failed. *)
Lemma fetch_tile_loop_effect env u retries attempts :
  forall resp st, exists k sl,
    snd (fetch_tile_loop env u retries attempts resp st) = after_attempts st u k sl
    /\ (k <= length attempts)%nat /\ (sl <= k)%nat
    /\ forall r, fst (fetch_tile_loop env u retries attempts resp st) = Ok (Some r) ->
         status_code r = 200
         /\ exists j, k = S j /\ sl = j /\ attempt env st u j = Returned r
              /\ forall i, (i < j)%nat -> failure (attempt env st u i) = true.
Proof.
  induction attempts as [|a rest IH]; intros resp st.
  - exists 0%nat, 0%nat. rewrite after_attempts_zero. cbn [length].
    cbn [fetch_tile_loop]. destruct resp as [r0|].
    + unfold bind, raise_for_status.
      destruct (PyStr.is_empty (http_error_msg r0)); cbn;
        (split; [reflexivity|split; [lia|split; [lia|intros r [=]]]]).
    + cbn. split; [reflexivity|split; [lia|split; [lia|intros r [=]]]].
  - cbn [fetch_tile_loop length]. unfold requests_get.
    assert (A0 : attempt env st u 0 = remote env (length (http_log st)) u)
      by (unfold attempt; rewrite Nat.add_0_r; reflexivity).
    assert (Hstop : forall (res : result (option response)),
              (forall r, res = Ok (Some r) ->
                 status_code r = 200 /\ attempt env st u 0 = Returned r) ->
              exists k sl, after_attempts st u 1 0 = after_attempts st u k sl
                /\ (k <= S (length rest))%nat /\ (sl <= k)%nat
                /\ forall r, res = Ok (Some r) ->
                     status_code r = 200
                     /\ exists j, k = S j /\ sl = j /\ attempt env st u j = Returned r
                          /\ forall i, (i < j)%nat -> failure (attempt env st u i) = true).
    { intros res Hres. exists 1%nat, 0%nat. split; [reflexivity|split; [lia|split; [lia|]]].
      intros r Hr. destruct (Hres r Hr) as [H200 Hat]. split; [exact H200|].
      exists 0%nat. repeat split; [exact Hat|intros i Hi; lia]. }
    assert (Hmore : forall resp',
              failure (attempt env st u 0) = true ->
              exists k sl,
                snd (fetch_tile_loop env u retries rest resp' (after_attempts st u 1 1))
                = after_attempts st u k sl
                /\ (k <= S (length rest))%nat /\ (sl <= k)%nat
                /\ forall r,
                     fst (fetch_tile_loop env u retries rest resp' (after_attempts st u 1 1))
                     = Ok (Some r) ->
                     status_code r = 200
                     /\ exists j, k = S j /\ sl = j /\ attempt env st u j = Returned r
                          /\ forall i, (i < j)%nat -> failure (attempt env st u i) = true).
    { intros resp' Hf0.
      destruct (IH resp' (after_attempts st u 1 1)) as (k & sl & E & Hk & Hsl & Hret).
      exists (1 + k)%nat, (sl + 1)%nat. rewrite after_attempts_more in E.
      split; [exact E|split; [lia|split; [lia|]]].
      intros r Hr. destruct (Hret r Hr) as (H200 & j & -> & -> & Hat & Hfail).
      split; [exact H200|]. exists (S j). rewrite attempt_after in Hat.
      repeat split; [lia|exact Hat|].
      intros i Hi. destruct i as [|i]; [exact Hf0|].
      specialize (Hfail i ltac:(lia)). rewrite attempt_after in Hfail. exact Hfail. }
    rewrite A0 in Hstop, Hmore.
    destruct (remote env (length (http_log st)) u) as [r0|e].
    + destruct (Z.eqb_spec (status_code r0) 200) as [E200|NE].
      * apply Hstop. intros r [= <-]. split; [exact E200|reflexivity].
      * apply Hmore. cbn. apply negb_true_iff, Z.eqb_neq. exact NE.
    + destruct (is_RequestException e) eqn:He.
      * destruct (a =? retries); [apply Hstop; intros r [=]|apply Hmore; exact He].
      * apply Hstop. intros r [=].
Qed.

(** X2: with no retry budget ([retries <= 0]) the loop body never runs:
    [fetch_tile] makes no request, does not sleep and raises the
    [RequestException] of its last line. *)
Theorem fetch_tile_without_budget env u retries st :
  retries <= 0 ->
  fetch_tile env u retries st
  = (Raise (mk_exn RequestException "Failed to fetch tile after all retries"), st).
Proof.
  intros Hr. unfold fetch_tile. rewrite fetch_tile_loop_end by exact Hr. reflexivity.
Qed.

Lemma fetch_tile_without_budget_witness :
  fetch_tile (stub_world flaky_server (decode_as 1 1)) "u" 0 (new_task ∅)
  = (Raise (mk_exn RequestException "Failed to fetch tile after all retries"), new_task ∅).
Proof.
  apply (fetch_tile_without_budget (stub_world flaky_server (decode_as 1 1)) "u" 0 (new_task ∅)).
  lia.
Defined.

(** X3: an exception of [requests.get] that is not a [RequestException]
    is not caught: it leaves [fetch_tile] at once, whatever budget is
    left, without the sleep of a retry. *)
Theorem fetch_tile_other_exception_escapes env u retries st k e :
  Z.of_nat k < retries ->
  (forall i, (i < k)%nat -> failure (attempt env st u i) = true) ->
  attempt env st u k = Raised e -> is_RequestException e = false ->
  fetch_tile env u retries st = (Raise e, after_attempts st u (S k) k).
Proof.
  intros Hk Hfail Hlast He. unfold fetch_tile.
  rewrite (fetch_tile_loop_skip env u retries k) by (try assumption; intros; lia).
  rewrite fetch_tile_loop_step by lia.
  rewrite attempt_after, Nat.add_0_r, Hlast, He, after_attempts_more.
  do 2 f_equal; lia.
Qed.

(** X4: whatever the server does, [fetch_tile] makes at most [retries]
    requests, all of them for its URL, sleeps at most once per request
    and changes nothing else of the state. *)
Theorem fetch_tile_request_budget env u retries st :
  exists k sl,
    snd (fetch_tile env u retries st) = after_attempts st u k sl
    /\ Z.of_nat k <= Z.max 0 retries /\ (sl <= k)%nat.
Proof.
  unfold fetch_tile.
  destruct (fetch_tile_loop_effect env u retries (seqZ 1 retries) None st)
    as (k & sl & E & Hk & Hsl & _).
  exists k, sl. rewrite length_seqZ in Hk. split; [exact E|split; [lia|exact Hsl]].
Qed.

(** X5: a response that [fetch_tile] returns has status 200; it is the
    answer to the last request of the call, and every request before it
    failed. *)
Theorem fetch_tile_returns_only_success env u retries st r st' :
  fetch_tile env u retries st = (Ok (Some r), st') ->
  status_code r = 200
  /\ exists j, Z.of_nat j < retries
       /\ st' = after_attempts st u (S j) j
       /\ attempt env st u j = Returned r
       /\ forall i, (i < j)%nat -> failure (attempt env st u i) = true.
Proof.
  intros Hrun. unfold fetch_tile in Hrun.
  destruct (fetch_tile_loop_effect env u retries (seqZ 1 retries) None st)
    as (k & sl & E & Hk & Hsl & Hret).
  rewrite Hrun in E, Hret. cbn [fst snd] in E, Hret.
  destruct (Hret r eq_refl) as (H200 & j & -> & -> & Hat & Hfail).
  split; [exact H200|]. exists j. rewrite length_seqZ in Hk.
  repeat split; [lia|exact E|exact Hat|exact Hfail].
Qed.

(** ** More on identifiers and paths *)

Lemma contains_app c a b :
  PyStr.contains c (a +:+ b) = PyStr.contains c a || PyStr.contains c b.
Proof.
  induction a as [|d a IH]; [reflexivity|].
  change (String d a +:+ b) with (String d (a +:+ b)).
  cbn [PyStr.contains]. rewrite IH, orb_assoc. reflexivity.
Qed.

Lemma all_chars_contains p c s :
  PyStr.all_chars p s = true -> PyStr.contains c s = true -> p c = true.
Proof.
  induction s as [|d s IH]; cbn [PyStr.all_chars PyStr.contains]; [discriminate|].
  intros Hall Hc. apply andb_true_iff in Hall as [Hd Hs].
  apply orb_true_iff in Hc as [Hc|Hc]; [|apply IH; assumption].
  apply Ascii.eqb_eq in Hc. subst d. exact Hd.
Qed.

Lemma remove_absent c s : PyStr.contains c s = false -> PyStr.remove c s = s.
Proof.
  induction s as [|d s IH]; cbn [PyStr.contains PyStr.remove]; [reflexivity|].
  intros H. apply orb_false_iff in H as [Hd Hs]. rewrite Hd, IH by exact Hs. reflexivity.
Qed.

(** The characters [start_download] lets through. *)
Lemma intake_all_chars s :
  PyStr.all_chars PyStr.char_isalnum (PyStr.remove "-" (PyStr.remove "_" s))
  = PyStr.all_chars (fun c => PyStr.char_isalnum c || Ascii.eqb c "_" || Ascii.eqb c "-") s.
Proof.
  induction s as [|c s IH]; [reflexivity|].
  cbn [PyStr.remove PyStr.all_chars].
  rewrite (Ascii.eqb_sym c "_"), (Ascii.eqb_sym c "-").
  destruct (Ascii.eqb_spec "_" c) as [<-|N1].
  - rewrite IH. reflexivity.
  - cbn [PyStr.remove]. destruct (Ascii.eqb_spec "-" c) as [<-|N2].
    + rewrite IH. reflexivity.
    + cbn [PyStr.all_chars]. rewrite IH, !orb_false_r. reflexivity.
Qed.

Lemma intake_is_empty s :
  PyStr.is_empty (PyStr.remove "-" (PyStr.remove "_" s))
  = PyStr.all_chars (fun c => Ascii.eqb c "_" || Ascii.eqb c "-") s.
Proof.
  induction s as [|c s IH]; [reflexivity|].
  cbn [PyStr.remove PyStr.all_chars].
  rewrite (Ascii.eqb_sym c "_"), (Ascii.eqb_sym c "-").
  destruct (Ascii.eqb_spec "_" c) as [<-|N1].
  - exact IH.
  - cbn [PyStr.remove]. destruct (Ascii.eqb_spec "-" c) as [<-|N2]; [exact IH|reflexivity].
Qed.

Lemma isalnum_split s :
  PyStr.isalnum s = negb (PyStr.is_empty s) && PyStr.all_chars PyStr.char_isalnum s.
Proof. destruct s; reflexivity. Qed.

Lemma all_chars_false p s :
  PyStr.all_chars p s = false <-> exists c, PyStr.contains c s = true /\ p c = false.
Proof.
  induction s as [|d s IH]; cbn [PyStr.all_chars PyStr.contains].
  - split; [discriminate|intros (c & H & _); discriminate].
  - rewrite andb_false_iff, IH. split.
    + intros [Hd|(c & Hc & Hp)].
      * exists d. rewrite Ascii.eqb_refl. split; [reflexivity|exact Hd].
      * exists c. rewrite Hc, orb_true_r. split; [reflexivity|exact Hp].
    + intros (c & Hc & Hp). apply orb_true_iff in Hc as [Hc|Hc].
      * apply Ascii.eqb_eq in Hc. subst d. left. exact Hp.
      * right. exists c. split; assumption.
Qed.

(** X6: [start_download] lets an identifier through exactly when each of
    its characters is alphanumeric, an underscore or a hyphen, and at
    least one of them is alphanumeric.  The two tests for path
    separators add nothing to the third test. *)
Theorem intake_accepts_iff image_id :
  intake_rejects image_id = false <->
  PyStr.all_chars (fun c => PyStr.char_isalnum c || Ascii.eqb c "_" || Ascii.eqb c "-") image_id
  = true
  /\ exists c, PyStr.contains c image_id = true /\ PyStr.char_isalnum c = true.
Proof.
  unfold intake_rejects. rewrite isalnum_split, intake_all_chars, intake_is_empty.
  set (allowed := fun c => PyStr.char_isalnum c || Ascii.eqb c "_" || Ascii.eqb c "-").
  set (filler := fun c => Ascii.eqb c "_" || Ascii.eqb c "-").
  split.
  - intros H. apply orb_false_iff in H as [H Hal]. apply negb_false_iff in Hal.
    apply andb_true_iff in Hal as [Hne Hall]. split; [exact Hall|].
    apply negb_true_iff, all_chars_false in Hne as (c & Hc & Hf).
    exists c. split; [exact Hc|].
    pose proof (all_chars_contains allowed c image_id Hall Hc) as Ha.
    unfold allowed in Ha. unfold filler in Hf. cbv beta in Ha, Hf.
    apply orb_false_iff in Hf as [H1 H2].
    rewrite H1, H2, !orb_false_r in Ha. exact Ha.
  - intros [Hall (c & Hc & Ha)].
    assert (Hsep : forall d, allowed d = false -> PyStr.contains d image_id = false).
    { intros d Hd. destruct (PyStr.contains d image_id) eqn:E; [|reflexivity].
      rewrite (all_chars_contains allowed d image_id Hall E) in Hd. discriminate. }
    rewrite (Hsep "/"%char eq_refl), (Hsep "\"%char eq_refl), Hall. cbn [orb].
    rewrite andb_true_r, negb_involutive.
    apply all_chars_false. exists c. split; [exact Hc|].
    unfold filler. destruct (Ascii.eqb_spec c "_") as [->|_]; [discriminate Ha|].
    destruct (Ascii.eqb_spec c "-") as [->|_]; [discriminate Ha|reflexivity].
Qed.

(** X7: among the identifiers [start_download] lets through, the task
    refuses exactly those with an underscore or a hyphen. *)
Theorem task_refuses_marked_identifiers image_id :
  intake_rejects image_id = false ->
  (task_rejects image_id = true
   <-> PyStr.contains "_" image_id = true \/ PyStr.contains "-" image_id = true).
Proof.
  unfold intake_rejects, task_rejects. intros H.
  apply orb_false_iff in H as [H Hal]. rewrite H. cbn [orb].
  apply negb_false_iff in Hal. split.
  - intros Hrej. apply negb_true_iff in Hrej.
    destruct (PyStr.contains "_" image_id) eqn:E1; [left; reflexivity|].
    destruct (PyStr.contains "-" image_id) eqn:E2; [right; reflexivity|].
    rewrite (remove_absent "_" image_id E1), (remove_absent "-" image_id E2) in Hal.
    rewrite Hal in Hrej. discriminate.
  - intros Hmark. apply negb_true_iff.
    destruct (PyStr.isalnum image_id) eqn:E; [|reflexivity].
    apply isalnum_all_chars in E.
    destruct Hmark as [Hc|Hc];
      pose proof (all_chars_contains _ _ _ E Hc) as Hbad; discriminate Hbad.
Qed.

Lemma task_refuses_marked_identifiers_witness :
  task_rejects "img-01" = true
  <-> PyStr.contains "_" "img-01" = true \/ PyStr.contains "-" "img-01" = true.
Proof. apply (task_refuses_marked_identifiers "img-01"). reflexivity. Defined.

Lemma lstrip_blank s : PyStr.all_chars PyStr.char_isspace s = true -> PyStr.lstrip s = ""%string.
Proof.
  induction s as [|c s IH]; cbn [PyStr.all_chars PyStr.lstrip]; [reflexivity|].
  intros H. apply andb_true_iff in H as [-> Hs]. apply IH, Hs.
Qed.

(** X8: a field made of white space only is answered like an empty one:
    status 400 with the request to enter an identifier, and no thread. *)
Theorem start_download_blank_field field fresh :
  PyStr.all_chars PyStr.char_isspace field = true ->
  start_download field fresh = (Json 400 (ErrorBody "Please enter an IIIF image ID"), None).
Proof.
  intros H. unfold start_download, PyStr.strip. rewrite lstrip_blank by exact H. reflexivity.
Qed.

Lemma start_download_blank_field_witness :
  start_download "  " "sid" = (Json 400 (ErrorBody "Please enter an IIIF image ID"), None).
Proof. apply (start_download_blank_field "  " "sid"). reflexivity. Defined.

Lemma basename_no_slash p : PyStr.contains "/" p = false -> PyStr.basename p = p.
Proof. destruct p as [|c p]; [reflexivity|]. intros H. cbn [PyStr.basename]. rewrite H. reflexivity. Qed.

Lemma basename_after_slash a b :
  PyStr.contains "/" b = false -> PyStr.basename (a +:+ String "/" b) = b.
Proof.
  intros Hb. induction a as [|c a IH].
  - change (PyStr.basename (String "/" b) = b). cbn [PyStr.basename PyStr.contains].
    rewrite Ascii.eqb_refl. cbn [orb]. apply basename_no_slash, Hb.
  - change (String c a +:+ String "/" b) with (String c (a +:+ String "/" b)).
    cbn [PyStr.basename].
    replace (PyStr.contains "/" (String c (a +:+ String "/" b))) with true; [exact IH|].
    symmetry. cbn [PyStr.contains]. rewrite contains_app. cbn [PyStr.contains].
    rewrite Ascii.eqb_refl. cbn [orb]. rewrite !orb_true_r. reflexivity.
Qed.

Lemma ends_with_slash_split a :
  PyStr.ends_with_slash a = true -> exists a', a = a' +:+ "/".
Proof.
  induction a as [|c a IH]; [discriminate|].
  destruct a as [|d a].
  - cbn. intros H. apply Ascii.eqb_eq in H. subst c. exists ""%string. reflexivity.
  - intros H. change (PyStr.ends_with_slash (String d a) = true) in H.
    destruct (IH H) as (a' & E). exists (String c a').
    change (String c a' +:+ "/") with (String c (a' +:+ "/")). rewrite <- E. reflexivity.
Qed.

Lemma app_assoc_string (a b c : string) : (a +:+ b) +:+ c = a +:+ (b +:+ c).
Proof.
  induction a as [|d a IH]; [reflexivity|].
  change (String d ((a +:+ b) +:+ c) = String d (a +:+ (b +:+ c))). f_equal. exact IH.
Qed.

Lemma path_join_relative a b :
  PyStr.contains "/" b = false ->
  PyStr.path_join a b
  = if PyStr.is_empty a || PyStr.ends_with_slash a then a +:+ b else a +:+ "/" +:+ b.
Proof.
  intros Hb. unfold PyStr.path_join. destruct b as [|c b]; [reflexivity|].
  destruct (Ascii.eqb_spec c "/") as [->|N].
  - cbn in Hb. discriminate Hb.
  - destruct c as [[] [] [] [] [] [] [] []]; try reflexivity. contradiction N. reflexivity.
Qed.

Lemma basename_path_join a b :
  PyStr.contains "/" b = false -> PyStr.basename (PyStr.path_join a b) = b.
Proof.
  intros Hb. rewrite path_join_relative by exact Hb.
  destruct a as [|c a].
  - change (PyStr.basename b = b). apply basename_no_slash, Hb.
  - cbn [PyStr.is_empty orb].
    destruct (PyStr.ends_with_slash (String c a)) eqn:E.
    + apply ends_with_slash_split in E as (a' & ->).
      rewrite app_assoc_string. apply basename_after_slash, Hb.
    + apply basename_after_slash, Hb.
Qed.

(** X9: for an identifier without a slash, which is every identifier
    either validation lets through, the output file is an entry of the
    downloads directory: its base name is the identifier followed by
    [_stitched.jpg], wherever the working directory is. *)
Theorem output_file_basename env image_id :
  PyStr.contains "/" image_id = false ->
  PyStr.basename (output_file_of env image_id) = image_id +:+ "_stitched.jpg".
Proof.
  intros H. unfold output_file_of. apply basename_path_join.
  rewrite contains_app, H. reflexivity.
Qed.

Lemma output_file_basename_witness :
  PyStr.basename (output_file_of (stub_world flaky_server (decode_as 1 1)) "abc")
  = "abc_stitched.jpg"%string.
Proof.
  apply (output_file_basename (stub_world flaky_server (decode_as 1 1)) "abc"). reflexivity.
Defined.

(** ** More on the descriptor, the plan and the progress values *)

Lemma unit_interval_finite (x : Q) : (0 <= x)%Q -> (x <= 1)%Q -> PyFloat.is_finite x = true.
Proof.
  intros H0 H1. unfold PyFloat.is_finite.
  assert (Hhuge : (1 < PyFloat.binary64_huge)%Q) by reflexivity.
  apply andb_true_iff. split; apply negb_true_iff.
  - destruct (Qle_bool PyFloat.binary64_huge x) eqn:E; [|reflexivity].
    apply Qle_bool_iff in E. exfalso.
    apply (Qlt_irrefl 1). eapply Qlt_le_trans; [exact Hhuge|]. eapply Qle_trans; eassumption.
  - destruct (Qle_bool x (- PyFloat.binary64_huge)) eqn:E; [|reflexivity].
    apply Qle_bool_iff in E. exfalso.
    assert (Hneg : (- PyFloat.binary64_huge < 0)%Q) by reflexivity.
    apply (Qlt_irrefl 0). eapply Qle_lt_trans; [exact H0|]. eapply Qle_lt_trans; eassumption.
Qed.

Lemma exact_quotient_unit j N :
  0 < N -> 0 <= j <= N ->
  (0 <= PyFloat.exact_quotient j N)%Q /\ (PyFloat.exact_quotient j N <= 1)%Q.
Proof.
  intros HN Hj. unfold PyFloat.exact_quotient. destruct (Z.ltb_spec 0 N); [|lia].
  unfold Qle. cbn [Qnum Qden]. rewrite Z2Pos.id by lia. lia.
Qed.

(** X10: for a tile number between 0 and the number of tiles the progress
    computation [5 + (tile_num / total_tiles) * 85] raises nothing and
    yields a value between 5 and 90, and 90 for the last tile, the
    rounding of the three floating-point operations included. *)
Theorem tile_progress_in_range j N :
  0 < N -> 0 <= j <= N ->
  exists p, tile_progress j N = Ok p /\ (5 <= p <= 90)%Q /\ (j = N -> (p == 90)%Q).
Proof.
  intros HN Hj. exists (tile_progress_value j N).
  destruct (exact_quotient_unit j N HN Hj) as [Hlo Hhi].
  split; [|split].
  - unfold tile_progress, truediv. destruct (Z.eqb_spec N 0); [lia|].
    rewrite unit_interval_finite; [reflexivity| |].
    + rewrite <- binary64_round_0. apply binary64_round_mono, Hlo.
    + rewrite <- binary64_round_1. apply binary64_round_mono, Hhi.
  - apply tile_progress_value_range; assumption.
  - intros ->. apply (tile_progress_value_ends N HN).
Qed.

Lemma tile_progress_in_range_witness :
  exists p, tile_progress 2 3 = Ok p /\ (5 <= p <= 90)%Q /\ (2 = 3 -> (p == 90)%Q).
Proof. apply (tile_progress_in_range 2 3); lia. Defined.

(** X11: within the sizes for which the quotients are exact, no rectangle
    of the plan is empty, none is larger than the nominal tile, each
    lies inside the image, and a rectangle narrower (lower) than the
    nominal tile ends at the right (bottom) edge of the image. *)
Theorem planned_tiles_inside_image W H tw th tiles t :
  0 < W < 2 ^ 53 -> 0 < H < 2 ^ 53 -> 0 < tw <= 2 ^ 1074 -> 0 < th <= 2 ^ 1074 ->
  plan W H tw th = Ok tiles -> In t tiles ->
  origin_x t = t_col t * tw /\ origin_y t = t_row t * th
  /\ 0 <= origin_x t /\ 0 <= origin_y t
  /\ 0 < t_width t <= tw /\ 0 < t_height t <= th
  /\ origin_x t + t_width t <= W /\ origin_y t + t_height t <= H
  /\ (t_width t < tw -> origin_x t + t_width t = W)
  /\ (t_height t < th -> origin_y t + t_height t = H).
Proof.
  intros HW HH Htw Hth Hplan Ht. unfold plan in Hplan.
  rewrite (ceil_truediv_is_ceil_div W tw), (ceil_truediv_is_ceil_div H th) in Hplan
    by assumption.
  apply Ok_inj in Hplan. subst tiles.
  apply tile_grid_In in Ht as (row & col & Hrow & Hcol & ->).
  pose proof (ceil_div_spec W tw ltac:(lia)) as Hc.
  pose proof (ceil_div_spec H th ltac:(lia)) as Hr.
  cbn [tile_spec origin_x origin_y t_width t_height t_row t_col].
  assert (Hx : col * tw <= (ceil_div W tw - 1) * tw) by nia.
  assert (Hy : row * th <= (ceil_div H th - 1) * th) by nia.
  assert (Hx0 : 0 <= col * tw) by nia.
  assert (Hy0 : 0 <= row * th) by nia.
  repeat split; lia.
Qed.

Lemma planned_tiles_inside_image_witness :
  origin_x (tile_spec 1000 600 384 400 1 2) = t_col (tile_spec 1000 600 384 400 1 2) * 384
  /\ origin_y (tile_spec 1000 600 384 400 1 2) = t_row (tile_spec 1000 600 384 400 1 2) * 400
  /\ 0 <= origin_x (tile_spec 1000 600 384 400 1 2)
  /\ 0 <= origin_y (tile_spec 1000 600 384 400 1 2)
  /\ 0 < t_width (tile_spec 1000 600 384 400 1 2) <= 384
  /\ 0 < t_height (tile_spec 1000 600 384 400 1 2) <= 400
  /\ origin_x (tile_spec 1000 600 384 400 1 2) + t_width (tile_spec 1000 600 384 400 1 2) <= 1000
  /\ origin_y (tile_spec 1000 600 384 400 1 2) + t_height (tile_spec 1000 600 384 400 1 2) <= 600
  /\ (t_width (tile_spec 1000 600 384 400 1 2) < 384 ->
      origin_x (tile_spec 1000 600 384 400 1 2) + t_width (tile_spec 1000 600 384 400 1 2) = 1000)
  /\ (t_height (tile_spec 1000 600 384 400 1 2) < 400 ->
      origin_y (tile_spec 1000 600 384 400 1 2) + t_height (tile_spec 1000 600 384 400 1 2) = 600).
Proof.
  apply (planned_tiles_inside_image 1000 600 384 400 (tile_grid 1000 600 384 400 3 2));
    try lia.
  - vm_compute. reflexivity.
  - vm_compute. do 5 right. left. reflexivity.
Defined.



(** X13: when the first entry of [tiles] has no [height], the tile height
    is the tile width. *)
Theorem tile_height_defaults_to_width info tiles d W H tw th cols rows :
  getitem info "tiles" = Ok tiles -> getitem0 tiles = Ok (JDict d) ->
  assoc "height" d = None ->
  read_descriptor info = Ok (W, H, tw, th, cols, rows) -> th = tw.
Proof.
  intros Htiles Htile0 Hno. unfold read_descriptor, rbind.
  destruct (getitem info "width") as [jw|]; [|discriminate].
  destruct (getitem info "height") as [jh|]; [|discriminate].
  rewrite Htiles, Htile0.
  destruct (getitem (JDict d) "width") as [jtw|]; [|discriminate].
  cbn [dict_get]. rewrite Hno.
  destruct jw as [|w| | |], jtw as [|tw0| | |]; try discriminate.
  cbn [int_operands fst snd].
  destruct (ceil_truediv w tw0) as [c|]; [|discriminate].
  destruct jh as [|h| | |]; try discriminate.
  cbn [int_operands fst snd].
  destruct (ceil_truediv h tw0) as [r|]; [|discriminate].
  intros [= <- <- <- <- <- <-]. reflexivity.
Qed.

(** X14: whatever is wrong with a descriptor, the exception raised while
    reading it is not a [RequestException]: the session reports an
    unexpected error, not a network error. *)
Theorem descriptor_errors_are_unexpected info e :
  read_descriptor info = Raise e -> is_RequestException e = false.
Proof.
  assert (Hget : forall j k e', getitem j k = Raise e' -> is_RequestException e' = false).
  { intros j k e'. unfold getitem. destruct j as [| | | |d]; try (intros [= <-]; reflexivity).
    destruct (assoc k d); [discriminate|intros [= <-]; reflexivity]. }
  assert (Hget0 : forall j e', getitem0 j = Raise e' -> is_RequestException e' = false).
  { intros j e'. unfold getitem0.
    destruct j as [| |[|c s]|[|x l]|d]; try discriminate; intros [= <-]; reflexivity. }
  assert (Hdget : forall j k dflt e', dict_get j k dflt = Raise e' ->
            is_RequestException e' = false).
  { intros j k dflt e'. unfold dict_get.
    destruct j; try discriminate; intros [= <-]; reflexivity. }
  assert (Hops : forall a b e', int_operands a b = Raise e' -> is_RequestException e' = false).
  { intros a b e'. unfold int_operands.
    destruct a, b; try discriminate; intros [= <-]; reflexivity. }
  assert (Hceil : forall a b e', ceil_truediv a b = Raise e' -> is_RequestException e' = false).
  { intros a b e'. unfold ceil_truediv, truediv. destruct (b =? 0); [intros [= <-]; reflexivity|].
    destruct (PyFloat.is_finite _); [discriminate|intros [= <-]; reflexivity]. }
  unfold read_descriptor, rbind.
  destruct (getitem info "width") as [jw|e1] eqn:E1; [|intros [= <-]; eauto].
  destruct (getitem info "height") as [jh|e2] eqn:E2; [|intros [= <-]; eauto].
  destruct (getitem info "tiles") as [tiles|e3] eqn:E3; [|intros [= <-]; eauto].
  destruct (getitem0 tiles) as [tile0|e4] eqn:E4; [|intros [= <-]; eauto].
  destruct (getitem tile0 "width") as [jtw|e5] eqn:E5; [|intros [= <-]; eauto].
  destruct (dict_get tile0 "height" jtw) as [jth|e6] eqn:E6; [|intros [= <-]; eauto].
  destruct (int_operands jw jtw) as [wt|e7] eqn:E7; [|intros [= <-]; eauto].
  destruct (ceil_truediv (fst wt) (snd wt)) as [c|e8] eqn:E8; [|intros [= <-]; eauto].
  destruct (int_operands jh jth) as [ht|e9] eqn:E9; [|intros [= <-]; eauto].
  destruct (ceil_truediv (fst ht) (snd ht)) as [r|e10] eqn:E10; [|intros [= <-]; eauto].
  discriminate.
Qed.

Lemma descriptor_errors_are_unexpected_witness :
  is_RequestException (mk_exn KeyError "'width'") = false.
Proof. apply (descriptor_errors_are_unexpected (JDict [])). reflexivity. Defined.

(** X15: a descriptor whose tile width is zero makes the column count
    fail: reading it raises [ZeroDivisionError]. *)
Theorem zero_tile_width_divides_by_zero info W h tiles tile0 :
  getitem info "width" = Ok (JInt W) -> getitem info "height" = Ok h ->
  getitem info "tiles" = Ok tiles -> getitem0 tiles = Ok tile0 ->
  getitem tile0 "width" = Ok (JInt 0) ->
  read_descriptor info = Raise (mk_exn ZeroDivisionError "division by zero").
Proof.
  intros Hw Hh Ht Ht0 Htw. unfold read_descriptor, rbind.
  rewrite Hw, Hh, Ht, Ht0, Htw.
  destruct tile0 as [| | | |d]; try discriminate. reflexivity.
Qed.

Lemma zero_tile_width_divides_by_zero_witness :
  read_descriptor (info_json 10 10 0 0) = Raise (mk_exn ZeroDivisionError "division by zero").
Proof.
  apply (zero_tile_width_divides_by_zero (info_json 10 10 0 0) 10 (JInt 10)
           (JList [JDict [("width"%string, JInt 0); ("height"%string, JInt 0)]])
           (JDict [("width"%string, JInt 0); ("height"%string, JInt 0)])); reflexivity.
Defined.

(** ** What a task leaves behind *)

Lemma tile_requests_snoc base ks ts k t :
  length ks = length ts ->
  tile_requests base (ks ++ [k]) (ts ++ [t])
  = tile_requests base ks ts ++ replicate k (tile_url base t).
Proof.
  intros Hlen. unfold tile_requests. rewrite zip_with_app by exact Hlen.
  rewrite flat_map_app. cbn. rewrite app_nil_r. reflexivity.
Qed.

Lemma tile_requests_in base ks ts :
  Forall (fun u => exists t, In t ts /\ u = tile_url base t) (tile_requests base ks ts).
Proof.
  revert ts. induction ks as [|k ks IH]; intros [|t ts]; try constructor.
  unfold tile_requests. cbn [zip_with flat_map fst snd]. apply Forall_app. split.
  - apply Forall_replicate. exists t. split; [left; reflexivity|reflexivity].
  - eapply Forall_impl; [apply IH|]. intros u (t' & Hin & ->).
    exists t'. split; [right; exact Hin|reflexivity].
Qed.

Lemma planned_requests_prefix env image_id W H tw th cols rows ks i :
  metadata_of env image_id = Ok (W, H, tw, th, cols, rows) ->
  Forall (planned_request env image_id)
    (info_url image_id
     :: tile_requests (base_url_of image_id) ks (take i (tile_grid W H tw th cols rows))).
Proof.
  intros Hmeta. constructor; [left; reflexivity|].
  eapply Forall_impl; [apply tile_requests_in|].
  intros u (t & Hin & ->). right. exists W, H, tw, th, cols, rows, t.
  split; [exact Hmeta|split; [|reflexivity]].
  apply list_elem_of_In. apply list_elem_of_In in Hin.
  eapply subseteq_take; exact Hin.
Qed.

Lemma tile_grid_spec W H tw th cols rows i t :
  tile_grid W H tw th cols rows !! i = Some t ->
  tile_spec W H tw th (t_row t) (t_col t) = t.
Proof.
  intros Ht. apply list_elem_of_lookup_2, list_elem_of_In, tile_grid_In in Ht
    as (row & col & _ & _ & ->). reflexivity.
Qed.

(** One turn of the tile loop, seen from the surroundings. *)
Lemma process_tile_artifacts env image_id sid W H tw th cols rows N i t st :
  metadata_of env image_id = Ok (W, H, tw, th, cols, rows) ->
  tile_grid W H tw th cols rows !! i = Some t ->
  stitching image_id W H (tile_grid W H tw th cols rows) i st ->
  match process_tile env sid (base_url_of image_id) W H tw th N (t_row t) (t_col t) st with
  | (Ok _, st') => stitching image_id W H (tile_grid W H tw th cols rows) (S i) st'
  | (Raise e, st') => stitching_failed env image_id st'
  end.
Proof.
  intros Hmeta Ht (Hfiles & Hunf & (cv & Hcv & HcW & HcH & Hp) & ks & [Hlen Hks] & Hlog).
  set (grid := tile_grid W H tw th cols rows) in *.
  unfold process_tile. rewrite (tile_grid_spec W H tw th cols rows i t Ht).
  set (u := tile_url (base_url_of image_id) t).
  unfold bind at 1. unfold bind at 1.
  destruct (fetch_tile_loop_effect env u 3 (seqZ 1 3) None st) as (k & sl & Est & Hk & _ & Hret).
  fold (fetch_tile env u 3) in Est, Hret.
  destruct (fetch_tile env u 3 st) as [res st1]. cbn [fst snd] in Est, Hret. subst st1.
  change (length (seqZ 1 3)) with 3%nat in Hk.
  set (st1 := after_attempts st u k sl).
  assert (Hin : In t grid) by (eapply list_elem_of_In, list_elem_of_lookup_2; exact Ht).
  assert (Hreq : Forall (planned_request env image_id) (http_log st1)).
  { unfold st1, after_attempts. cbn [http_log]. apply Forall_app. split.
    - rewrite Hlog. apply planned_requests_prefix, Hmeta.
    - apply Forall_replicate. right. exists W, H, tw, th, cols, rows, t.
      split; [exact Hmeta|split; [exact Hin|reflexivity]]. }
  assert (Hfail : forall st', files st' = files st1 -> progress_log st' = progress_log st1 ->
            http_log st' = http_log st1 -> stitching_failed env image_id st').
  { intros st' E1 E2 E3. unfold stitching_failed. rewrite E1, E2, E3.
    split; [exact Hfiles|split; [exact Hunf|exact Hreq]]. }
  destruct res as [[r|]|e]; [|apply Hfail; reflexivity|apply Hfail; reflexivity].
  destruct (Hret r eq_refl) as (_ & j & Ek & _).
  destruct (response_ok r && negb (PyStr.is_empty (content r))); [|apply Hfail; reflexivity].
  unfold bind at 1. unfold Image_open.
  destruct (pil_open env (content r)) as [e|img]; [apply Hfail; reflexivity|].
  unfold ret, paste. replace (final_img st1) with (Some cv) by (symmetry; exact Hcv).
  unfold bind, next_tile_num, lift.
  cbn [tile_num clock_reads progress_log final_img http_log files download_progress slept].
  destruct (tile_progress (tile_num st1 + 1) N) as [p|e]; [|apply Hfail; reflexivity].
  unfold update_progress.
  cbn [tile_num clock_reads progress_log final_img http_log files download_progress slept].
  assert (Htake : take (S i) grid = take i grid ++ [t]) by (apply take_S_r; exact Ht).
  assert (Hi : (i < length grid)%nat) by (eapply lookup_lt_Some; exact Ht).
  split; [exact Hfiles|split; [|split]];
    cbn [tile_num clock_reads progress_log final_img http_log files download_progress slept].
  - apply Forall_app. split; [exact Hunf|]. constructor; [reflexivity|constructor].
  - eexists. split; [reflexivity|]. cbn [cv_width cv_height cv_pastes].
    split; [exact HcW|split; [exact HcH|]].
    rewrite map_app, Hp, Htake, map_app. reflexivity.
  - exists (ks ++ [k]). split.
    + split; [rewrite length_app, Hlen; cbn; lia|].
      apply Forall_app. split; [exact Hks|]. constructor; [lia|constructor].
    + unfold st1, after_attempts. cbn [http_log]. rewrite Hlog, Htake.
      rewrite tile_requests_snoc by (rewrite length_take; lia). reflexivity.
Qed.

Lemma download_tiles_artifacts env image_id sid W H tw th cols rows st :
  metadata_of env image_id = Ok (W, H, tw, th, cols, rows) ->
  stitching image_id W H (tile_grid W H tw th cols rows) 0 st ->
  match download_tiles env sid (base_url_of image_id) W H tw th cols rows st with
  | (Ok _, st') =>
      stitching image_id W H (tile_grid W H tw th cols rows)
        (length (tile_grid W H tw th cols rows)) st'
  | (Raise e, st') => stitching_failed env image_id st'
  end.
Proof.
  intros Hmeta H0. rewrite download_tiles_grid.
  pose proof (for_each_inv (stitching image_id W H (tile_grid W H tw th cols rows))
                (fun _ _ st' => stitching_failed env image_id st')
                (fun t => process_tile env sid (base_url_of image_id) W H tw th (cols * rows)
                            (t_row t) (t_col t))
                (tile_grid W H tw th cols rows)) as Hloop.
  specialize (Hloop (fun i t st1 Ht HP =>
                       process_tile_artifacts env image_id sid W H tw th cols rows
                         (cols * rows) i t st1 Hmeta Ht HP) st H0).
  destruct (for_each _ _ st) as [[[]|e] st']; [exact Hloop|].
  destruct Hloop as (i & _ & Hf). exact Hf.
Qed.

(** The [try] block, seen from the surroundings. *)
Lemma try_block_artifacts env image_id sid :
  match try_block env image_id sid (new_task ∅) with
  | (Ok _, st) =>
      (task_rejects image_id = true /\ stitching_failed env image_id st /\ http_log st = [])
      \/ (task_rejects image_id = false /\ stitched env image_id st)
  | (Raise e, st) => task_rejects image_id = false /\ stitching_failed env image_id st
  end.
Proof.
  unfold try_block. unfold bind at 1. unfold update_progress at 1. cbn [new_task].
  cbn [download_progress progress_log http_log slept clock_reads final_img tile_num files].
  destruct (task_rejects image_id) eqn:Hrej.
  { cbn. left. split; [reflexivity|]. split; [|reflexivity].
    split; [reflexivity|split; [|constructor]].
    constructor; [reflexivity|]. constructor; [reflexivity|constructor]. }
  set (st1 := mk_state _ _ _ _ _ _ _ _).
  assert (Hunf1 : unfinished (progress_log st1)) by (constructor; [reflexivity|constructor]).
  unfold stitch. unfold bind at 1. unfold makedirs.
  destruct (os_makedirs env _) as [e|].
  { cbn. split; [reflexivity|]. split; [reflexivity|split; [exact Hunf1|constructor]]. }
  unfold ret. unfold bind at 1.
  rewrite fetch_metadata_run by reflexivity.
  destruct (metadata_of env image_id) as [[[[[[W H] tw] th] cols] rows]|e] eqn:Emeta.
  2:{ split; [reflexivity|]. split; [reflexivity|split; [exact Hunf1|]].
      cbn. constructor; [left; reflexivity|constructor]. }
  unfold bind at 1. unfold update_progress at 1.
  cbn [after_attempts download_progress progress_log http_log slept clock_reads final_img
         tile_num files st1 app replicate Nat.add].
  set (st3 := mk_state _ _ _ _ _ _ _ _).
  assert (Hfail3 : stitching_failed env image_id st3).
  { split; [reflexivity|split].
    - constructor; [reflexivity|]. constructor; [reflexivity|constructor].
    - cbn. constructor; [left; reflexivity|constructor]. }
  unfold bind at 1. unfold Image_new.
  destruct ((W <? 0) || (H <? 0)); [split; [reflexivity|exact Hfail3]|].
  destruct (pil_new env W H) as [e|]; [split; [reflexivity|exact Hfail3]|].
  cbn [st3 download_progress progress_log http_log slept clock_reads final_img tile_num files].
  set (st4 := mk_state _ _ _ _ _ _ _ _).
  unfold bind at 1.
  pose proof (download_tiles_artifacts env image_id sid W H tw th cols rows st4 Emeta) as Hloop.
  assert (H0 : stitching image_id W H (tile_grid W H tw th cols rows) 0 st4).
  { split; [reflexivity|split; [|split]].
    - constructor; [reflexivity|]. constructor; [reflexivity|constructor].
    - eexists. split; [reflexivity|]. repeat split.
    - exists []. split; [split; [reflexivity|constructor]|reflexivity]. }
  specialize (Hloop H0). clear H0.
  destruct (download_tiles env sid (base_url_of image_id) W H tw th cols rows st4)
    as [[[]|e] st5]; [|split; [reflexivity|exact Hloop]].
  destruct Hloop as (Hfiles & Hunf & (cv & Hcv & HcW & HcH & Hp) & ks & Hks & Hlog).
  rewrite firstn_all in Hp, Hlog.
  unfold bind at 1. unfold update_progress at 1.
  set (st6 := mk_state _ _ _ _ _ _ _ _).
  assert (Hunf6 : unfinished (progress_log st6)).
  { cbn. apply Forall_app. split; [exact Hunf|]. constructor; [reflexivity|constructor]. }
  unfold bind at 1. unfold Image_save.
  cbn [st6 download_progress progress_log http_log slept clock_reads final_img tile_num files].
  rewrite Hcv.
  destruct (pil_save env cv (output_file_of env image_id)) as [e|].
  { split; [reflexivity|]. split; [exact Hfiles|split; [exact Hunf6|]].
    cbn [st6 http_log]. rewrite Hlog.
    rewrite <- (firstn_all (tile_grid W H tw th cols rows)) at 1.
    apply planned_requests_prefix, Emeta. }
  unfold update_progress.
  cbn [download_progress progress_log http_log slept clock_reads final_img tile_num files].
  right. split; [reflexivity|].
  exists W, H, tw, th, cols, rows, cv, ks.
  cbn [download_progress progress_log http_log slept clock_reads final_img tile_num files].
  split; [exact Emeta|split; [reflexivity|split; [exact HcW|split; [exact HcH|split; [exact Hp|]]]]].
  split; [rewrite Hfiles; apply insert_empty|split; [exact Hks|split; [exact Hlog|]]].
  eexists. split; [apply in_or_app; right; left; reflexivity|reflexivity].
Qed.

(** A task either goes through, or it leaves no file, has written no
    record that reports completion and has asked for planned URLs only. *)
Lemma task_artifacts env image_id sid :
  (task_rejects image_id = false
   /\ stitched env image_id (download_and_stitch_image env image_id sid (new_task ∅)))
  \/ (stitching_failed env image_id (download_and_stitch_image env image_id sid (new_task ∅))
      /\ (task_rejects image_id = true ->
          http_log (download_and_stitch_image env image_id sid (new_task ∅)) = [])).
Proof.
  pose proof (try_block_artifacts env image_id sid) as Hrun.
  unfold download_and_stitch_image.
  destruct (try_block env image_id sid (new_task ∅)) as [[[]|e] st].
  - destruct Hrun as [(Hrej & Hf & Hlog)|[Hrej Hs]].
    + right. split; [exact Hf|intros _; exact Hlog].
    + left. split; assumption.
  - destruct Hrun as [Hrej (Hfiles & Hunf & Hreq)]. right.
    split; [|intros Hrej'; rewrite Hrej in Hrej'; discriminate].
    destruct (is_RequestException e); cbn; (split; [exact Hfiles|split; [|exact Hreq]]);
      (apply Forall_app; split; [exact Hunf|constructor; [reflexivity|constructor]]).
Qed.

Lemma unfinished_not_completes env image_id sid :
  unfinished (progress_log (download_and_stitch_image env image_id sid (new_task ∅))) ->
  ~ session_completes env image_id sid.
Proof.
  intros Hunf (r & Hin & Hc). unfold session_writes in Hin.
  apply in_map_iff in Hin as (kr & <- & Hin).
  unfold unfinished in Hunf. rewrite Forall_forall in Hunf.
  apply list_elem_of_In in Hin. rewrite (Hunf kr Hin) in Hc. discriminate.
Qed.

Lemma stitched_completes env image_id sid :
  stitched env image_id (download_and_stitch_image env image_id sid (new_task ∅)) ->
  session_completes env image_id sid.
Proof.
  intros (W & H & tw & th & cols & rows & cv & ks & _ & _ & _ & _ & _ & _ & _ & _ & kr & Hin & Hc).
  exists (snd kr). split; [|exact Hc]. unfold session_writes. apply in_map. exact Hin.
Qed.

(** X16: the output file is written exactly by the sessions that
    complete.  A session that completes has saved its canvas under the
    output file name and nothing else; any other session, however far it
    got, has saved no file. *)
Theorem output_file_saved_iff_completed env image_id sid :
  (session_completes env image_id sid
   /\ exists cv,
        final_img (download_and_stitch_image env image_id sid (new_task ∅)) = Some cv
        /\ files (download_and_stitch_image env image_id sid (new_task ∅))
           = {[output_file_of env image_id := cv]})
  \/ (~ session_completes env image_id sid
      /\ files (download_and_stitch_image env image_id sid (new_task ∅)) = ∅).
Proof.
  destruct (task_artifacts env image_id sid) as [[_ Hs]|[(Hfiles & Hunf & _) _]].
  - left. split; [apply stitched_completes, Hs|].
    destruct Hs as (W & H & tw & th & cols & rows & cv & ks & _ & Hcv & _ & _ & _ & Hf & _).
    exists cv. split; assumption.
  - right. split; [apply unfinished_not_completes, Hunf|exact Hfiles].
Qed.

(** X17: in a session that completes the canvas has the size the
    descriptor gives and holds exactly one paste per rectangle of the
    grid, at the origin of that rectangle, in the order of the grid (row
    by row, left to right). *)
Theorem completed_canvas_follows_grid env image_id sid :
  session_completes env image_id sid ->
  exists W H tw th cols rows cv,
    metadata_of env image_id = Ok (W, H, tw, th, cols, rows)
    /\ final_img (download_and_stitch_image env image_id sid (new_task ∅)) = Some cv
    /\ cv_width cv = W /\ cv_height cv = H
    /\ map snd (cv_pastes cv) = map origin (tile_grid W H tw th cols rows).
Proof.
  intros Hdone.
  destruct (task_artifacts env image_id sid) as [[_ Hs]|[(_ & Hunf & _) _]].
  - destruct Hs as (W & H & tw & th & cols & rows & cv & ks & Hm & Hcv & HW & HH & Hp & _).
    exists W, H, tw, th, cols, rows, cv. repeat split; assumption.
  - exfalso. exact (unfinished_not_completes env image_id sid Hunf Hdone).
Qed.

(** X18: in a session that completes the requests are, in order: one for
    the descriptor, then for each rectangle of the grid, in the order of
    the grid, between one and three for its tile. *)
Theorem completed_session_requests env image_id sid :
  session_completes env image_id sid ->
  exists W H tw th cols rows ks,
    metadata_of env image_id = Ok (W, H, tw, th, cols, rows)
    /\ retry_counts (length (tile_grid W H tw th cols rows)) ks
    /\ http_log (download_and_stitch_image env image_id sid (new_task ∅))
       = info_url image_id
         :: tile_requests (base_url_of image_id) ks (tile_grid W H tw th cols rows).
Proof.
  intros Hdone.
  destruct (task_artifacts env image_id sid) as [[_ Hs]|[(_ & Hunf & _) _]].
  - destruct Hs as (W & H & tw & th & cols & rows & cv & ks & Hm & _ & _ & _ & _ & _ & Hks & Hlog & _).
    exists W, H, tw, th, cols, rows, ks. repeat split; try assumption; apply Hks.
  - exfalso. exact (unfinished_not_completes env image_id sid Hunf Hdone).
Qed.

(** X19: whatever the server answers, a task asks for the descriptor of
    its image and for tiles of the grid the descriptor yields, and for
    nothing else; a task whose identifier is refused asks for nothing. *)
Theorem task_requests_are_planned env image_id sid :
  Forall (planned_request env image_id)
    (http_log (download_and_stitch_image env image_id sid (new_task ∅)))
  /\ (task_rejects image_id = true ->
      http_log (download_and_stitch_image env image_id sid (new_task ∅)) = []).
Proof.
  destruct (task_artifacts env image_id sid) as [[Hacc Hs]|[(_ & _ & Hreq) Hrej]].
  - split; [|intros Hrej; rewrite Hacc in Hrej; discriminate].
    destruct Hs as (W & H & tw & th & cols & rows & cv & ks & Hm & _ & _ & _ & _ & _ & _ & Hlog & _).
    rewrite Hlog. rewrite <- (firstn_all (tile_grid W H tw th cols rows)).
    apply planned_requests_prefix, Hm.
  - split; assumption.
Qed.

(** ** Sessions from start to end *)

(** The records of a task: the start record, records that are not
    terminal, and one terminal record at the end. *)
Lemma session_trace env image_id sid :
  exists init final,
    session_writes env image_id sid = start_record env :: init ++ [final]
    /\ Forall (fun r => ~ terminal r) (start_record env :: init)
    /\ terminal final.
Proof.
  unfold session_writes.
  destruct (session_ends env image_id sid) as
    [st Hrej Hlog _|st e Hlog _|st W H tw th cols rows k e _ _ Hlog _
    |st W H tw th cols rows e _ Hlog _|st W H tw th cols rows _ Hlog _];
    rewrite Hlog.
  - exists [], (invalid_record env). split; [reflexivity|]. split.
    + constructor; [apply start_not_terminal|constructor].
    + right. discriminate.
  - exists [], (handler_record env 1 e). split; [reflexivity|]. split.
    + constructor; [apply start_not_terminal|constructor].
    + right. apply handler_record_failed.
  - exists (size_record env W H (cols * rows) :: tile_records env (cols * rows) k),
      (handler_record env (S (S k)) e).
    split; [reflexivity|]. split.
    + exact (tiles_prefix_not_terminal env W H (cols * rows) k).
    + right. apply handler_record_failed.
  - eexists (size_record env W H (cols * rows) :: tile_records env (cols * rows) _ ++ [_]), _.
    split; [cbn [app]; rewrite <- app_assoc; reflexivity|]. split.
    + exact (saving_prefix_not_terminal env W H (cols * rows) _ _).
    + right. apply handler_record_failed.
  - eexists (size_record env W H (cols * rows) :: tile_records env (cols * rows) _ ++ [_]), _.
    split; [cbn [app]; rewrite <- app_assoc; reflexivity|]. split.
    + exact (saving_prefix_not_terminal env W H (cols * rows) _ _).
    + left. reflexivity.
Qed.

Lemma replay_other_key ws sid dp k :
  Forall (fun kr => fst kr = sid) ws -> k <> sid -> replay ws dp !! k = dp !! k.
Proof.
  intros Hws Hk. revert dp. induction Hws as [|[k' r] ws Hkey _ IH]; intros dp; [reflexivity|].
  cbn in Hkey. subst k'. unfold replay in *. cbn [fold_left fst snd].
  rewrite IH. apply lookup_insert_ne. congruence.
Qed.

Lemma replay_last_write ws k r dp : replay (ws ++ [(k, r)]) dp !! k = Some r.
Proof. rewrite replay_app. unfold replay. cbn. apply lookup_insert_eq. Qed.

(** X20: every task writes the start record first and a terminal record
    last, and no record in between is terminal; when the task ends, the
    dictionary holds that terminal record under the session's key,
    whatever the dictionary held when the task started.  No exception
    leaves a session without a terminal record. *)
Theorem task_ends_with_terminal_record env image_id sid dp :
  exists init final,
    session_writes env image_id sid = start_record env :: init ++ [final]
    /\ Forall (fun r => ~ terminal r) (start_record env :: init)
    /\ terminal final
    /\ download_progress (download_and_stitch_image env image_id sid (new_task dp)) !! sid
       = Some final.
Proof.
  destruct (session_trace env image_id sid) as (init & final & Hws & Hinit & Hfinal).
  exists init, final. split; [exact Hws|split; [exact Hinit|split; [exact Hfinal|]]].
  rewrite task_replays_writes. cbn [with_dictionary download_progress].
  pose proof (task_writes_key env image_id sid) as Hkey.
  unfold session_writes in Hws. fold (task_writes env image_id sid) in Hws.
  change (start_record env :: init ++ [final]) with ((start_record env :: init) ++ [final]) in Hws.
  apply map_eq_app in Hws as (l1 & l2 & Hl & _ & H2).
  destruct l2 as [|[k r] [|? ?]]; try discriminate. cbn in H2. injection H2 as ->.
  rewrite Hl in Hkey |- *. apply Forall_app in Hkey as [_ Hk].
  apply Forall_cons in Hk as [Hk _]. cbn in Hk. subst k. apply replay_last_write.
Qed.

(** X21: a task writes under its own key only and never reads the
    dictionary: it leaves the records of all other sessions as they
    were, and its requests, its records and the file it saves are the
    same whatever the dictionary holds. *)
Theorem task_leaves_other_sessions env image_id sid dp :
  (forall k, k <> sid ->
     download_progress (download_and_stitch_image env image_id sid (new_task dp)) !! k = dp !! k)
  /\ progress_log (download_and_stitch_image env image_id sid (new_task dp))
     = task_writes env image_id sid
  /\ http_log (download_and_stitch_image env image_id sid (new_task dp))
     = http_log (download_and_stitch_image env image_id sid (new_task ∅))
  /\ files (download_and_stitch_image env image_id sid (new_task dp))
     = files (download_and_stitch_image env image_id sid (new_task ∅)).
Proof.
  rewrite task_replays_writes. cbn [with_dictionary download_progress progress_log http_log files].
  split; [|repeat split].
  intros k Hk. apply replay_other_key with (sid := sid); [apply task_writes_key|exact Hk].
Qed.

(** X22: [update_progress] followed by [get_progress]: the session's
    record is the one just written, made of the arguments of the call
    and the time of the call and of nothing of the record it replaces;
    the answers for all other sessions are unchanged. *)
Theorem update_then_get_progress env sid msg prog err done_flag path st :
  get_progress (download_progress (snd (update_progress env sid msg prog err done_flag path st)))
    sid
  = Json 200 (ProgressBody (record_at env (clock_reads st) msg prog err done_flag path))
  /\ forall other, other <> sid ->
       get_progress
         (download_progress (snd (update_progress env sid msg prog err done_flag path st))) other
       = get_progress (download_progress st) other.
Proof.
  unfold update_progress, get_progress. cbn [snd download_progress]. split.
  - rewrite lookup_insert_eq. reflexivity.
  - intros other Hne. rewrite lookup_insert_ne by congruence. reflexivity.
Qed.

(** X23: the descriptor is asked for once, without the retries of a tile:
    when the request or the reading of its answer raises, the session
    ends at once with the record of the handler for that exception,
    after one request, no sleep and no file. *)
Theorem descriptor_failure_not_retried env image_id sid e :
  task_rejects image_id = false ->
  os_makedirs env (PyStr.path_join (os_getcwd env) "downloads") = None ->
  metadata_of env image_id = Raise e ->
  session_writes env image_id sid = [start_record env; handler_record env 1 e]
  /\ http_log (download_and_stitch_image env image_id sid (new_task ∅)) = [info_url image_id]
  /\ slept (download_and_stitch_image env image_id sid (new_task ∅)) = 0%nat
  /\ files (download_and_stitch_image env image_id sid (new_task ∅)) = ∅.
Proof.
  intros Hrej Hmk Hmeta.
  assert (Htry : exists st,
            try_block env image_id sid (new_task ∅) = (Raise e, st)
            /\ map snd (progress_log st) = [start_record env] /\ clock_reads st = 1%nat
            /\ http_log st = [info_url image_id] /\ slept st = 0%nat /\ files st = ∅).
  { unfold try_block. unfold bind at 1. unfold update_progress at 1. rewrite Hrej.
    unfold stitch. unfold bind at 1. unfold makedirs. rewrite Hmk.
    unfold ret. unfold bind at 1. rewrite fetch_metadata_run by reflexivity.
    rewrite Hmeta. eexists. split; [reflexivity|]. repeat split. }
  destruct Htry as (st & Htry & Hlog & Hclock & Hhttp & Hslept & Hfiles).
  unfold session_writes, download_and_stitch_image. rewrite Htry. unfold handler_record.
  destruct (is_RequestException e); cbn [snd update_progress progress_log http_log slept files];
    rewrite map_app, Hlog, Hclock; repeat split; assumption.
Qed.

Lemma descriptor_failure_not_retried_witness :
  session_writes (stub_world failing_server (decode_as 1 1)) "abc" "sid"
  = [start_record (stub_world failing_server (decode_as 1 1));
     handler_record (stub_world failing_server (decode_as 1 1)) 1
       (mk_exn HTTPError (http_error_msg (server_error (info_url "abc"))))]
  /\ http_log (download_and_stitch_image (stub_world failing_server (decode_as 1 1)) "abc" "sid"
                 (new_task ∅)) = [info_url "abc"]
  /\ slept (download_and_stitch_image (stub_world failing_server (decode_as 1 1)) "abc" "sid"
              (new_task ∅)) = 0%nat
  /\ files (download_and_stitch_image (stub_world failing_server (decode_as 1 1)) "abc" "sid"
              (new_task ∅)) = ∅.
Proof.
  apply (descriptor_failure_not_retried (stub_world failing_server (decode_as 1 1)) "abc" "sid");
    reflexivity.
Defined.

(** ** The records the handlers serve *)

Lemma running_record_wellformed env i msg p :
  (0 <= p <= 100)%Q -> record_wellformed (record_at env i msg (Some p) None false None).
Proof.
  intros Hp. split; [discriminate|split; [reflexivity|split]].
  - intros H. contradiction H. reflexivity.
  - intros _. exists p. split; [reflexivity|exact Hp].
Qed.

Lemma failed_record_wellformed env i msg err :
  record_wellformed (record_at env i msg None (Some err) false None).
Proof. split; [discriminate|split; [reflexivity|split; [split; reflexivity|discriminate]]]. Qed.

Lemma handler_record_wellformed env i e : record_wellformed (handler_record env i e).
Proof. unfold handler_record. destruct (is_RequestException e); apply failed_record_wellformed. Qed.

Lemma ready_record_wellformed env i path : record_wellformed (ready_record env i path).
Proof.
  split; [repeat split; discriminate|split; [discriminate|split]].
  - intros H. contradiction H. reflexivity.
  - intros _. exists 100%Q. split; [reflexivity|split; discriminate].
Qed.

Lemma tile_records_wellformed env W H tw th cols rows k :
  (k <= length (tile_grid W H tw th cols rows))%nat ->
  Forall record_wellformed (tile_records env (cols * rows) k).
Proof.
  intros Hk. unfold tile_records. apply Forall_map, Forall_forall. intros j Hj.
  apply list_elem_of_In, in_seq in Hj. unfold tile_record.
  apply running_record_wellformed.
  rewrite (tile_grid_total W H tw th cols rows) by lia.
  destruct (tile_progress_value_range (Z.of_nat j)
              (Z.of_nat (length (tile_grid W H tw th cols rows)))) as [Hlo Hhi]; [lia..|].
  split.
  - eapply Qle_trans; [|exact Hlo]. discriminate.
  - eapply Qle_trans; [exact Hhi|]. discriminate.
Qed.

(** Every record a task writes has the shape of [record_wellformed]. *)
Lemma session_records_wellformed env image_id sid :
  Forall record_wellformed (session_writes env image_id sid).
Proof.
  unfold session_writes.
  assert (Hstart : record_wellformed (start_record env))
    by (apply running_record_wellformed; split; discriminate).
  assert (Hsize : forall W H N, record_wellformed (size_record env W H N))
    by (intros; apply running_record_wellformed; split; discriminate).
  assert (Hsaving : forall i, record_wellformed (saving_record env i))
    by (intros; apply running_record_wellformed; split; discriminate).
  destruct (session_ends env image_id sid) as
    [st Hrej Hlog _|st e Hlog _|st W H tw th cols rows k e _ Hk Hlog _
    |st W H tw th cols rows e _ Hlog _|st W H tw th cols rows _ Hlog _];
    rewrite Hlog.
  - constructor; [exact Hstart|]. constructor; [apply failed_record_wellformed|constructor].
  - constructor; [exact Hstart|]. constructor; [apply handler_record_wellformed|constructor].
  - apply Forall_app. split; [constructor; [exact Hstart|constructor; [apply Hsize|constructor]]|].
    apply Forall_app. split; [apply (tile_records_wellformed env W H tw th), Hk|].
    constructor; [apply handler_record_wellformed|constructor].
  - apply Forall_app. split; [constructor; [exact Hstart|constructor; [apply Hsize|constructor]]|].
    apply Forall_app. split; [apply (tile_records_wellformed env W H tw th); lia|].
    constructor; [apply Hsaving|].
    constructor; [apply handler_record_wellformed|constructor].
  - apply Forall_app. split; [constructor; [exact Hstart|constructor; [apply Hsize|constructor]]|].
    apply Forall_app. split; [apply (tile_records_wellformed env W H tw th); lia|].
    constructor; [apply Hsaving|].
    constructor; [apply ready_record_wellformed|constructor].
Qed.

(** A record that reports completion is the last record of a task whose
    identifier passed the test; its file path is the output file. *)
Lemma completed_record_path env image_id sid r :
  In r (session_writes env image_id sid) -> completed r = true ->
  task_rejects image_id = false /\ file_path r = Some (output_file_of env image_id).
Proof.
  intros Hin Hdone.
  assert (Hcompl : session_completes env image_id sid) by (exists r; split; assumption).
  split.
  - destruct (task_artifacts env image_id sid) as [[Hacc _]|[(_ & Hunf & _) _]]; [exact Hacc|].
    exfalso. exact (unfinished_not_completes env image_id sid Hunf Hcompl).
  - destruct (completed_session_writes env image_id sid Hcompl)
      as (W & H & tw & th & cols & rows & _ & Hws).
    rewrite Hws in Hin. cbn [app] in Hin.
    destruct Hin as [<-|[<-|Hin]]; [discriminate..|].
    apply in_app_iff in Hin as [Hin|[<-|[<-|[]]]].
    + apply tile_records_not_completed in Hin. congruence.
    + discriminate.
    + reflexivity.
Qed.

Lemma reachable_records s : reachable s -> server_records_inv s.
Proof.
  induction 1 as [|s s' _ [Hdict Hthreads] Hstep].
  - split; [|constructor]. intros k r Hr. cbn in Hr. rewrite lookup_empty in Hr. discriminate.
  - destruct Hstep as [s env field fresh image_id r Hstart|s field fresh r _
                      |s before after sid r rest Hth].
    + split; cbn [srv_progress srv_sessions srv_threads]; [exact Hdict|].
      constructor; [|exact Hthreads].
      apply Forall_forall. intros kr Hkr. exists env, image_id, fresh.
      unfold session_writes. fold (task_writes env image_id fresh).
      apply in_map, list_elem_of_In, Hkr.
    + split; assumption.
    + rewrite Hth in Hthreads.
      apply Forall_app in Hthreads as [Hbefore Hmid].
      apply Forall_cons in Hmid as [Hcur Hafter].
      apply Forall_cons in Hcur as [Hr Hrest].
      split; cbn [srv_progress srv_sessions srv_threads].
      * intros k r' Hk. destruct (decide (sid = k)) as [<-|Hne].
        -- rewrite lookup_insert_eq in Hk. injection Hk as <-. exact Hr.
        -- rewrite lookup_insert_ne in Hk by exact Hne. eapply Hdict, Hk.
      * apply Forall_app. split; [exact Hbefore|]. constructor; assumption.
Qed.

(** A thread that has been started can make all its writes. *)
Lemma thread_runs_to_end ws :
  forall s before after,
    reachable s -> srv_threads s = before ++ ws :: after ->
    reachable (mk_server (replay ws (srv_progress s)) (srv_sessions s) (before ++ [] :: after)).
Proof.
  induction ws as [|[k r] ws IH]; intros s before after Hs Hth.
  - destruct s as [dp sess th]. cbn in *. subst th. exact Hs.
  - apply (IH (mk_server (<[k := r]> (srv_progress s)) (srv_sessions s) (before ++ ws :: after))
              before after); [|reflexivity].
    apply (reach_step s); [exact Hs|]. apply (step_write s before after k r ws Hth).
Qed.

Lemma finished_server_reachable : reachable finished_server.
Proof.
  apply (thread_runs_to_end (task_writes scenario_world "abc" "sid1") started_server [] []);
    [|reflexivity].
  apply (reach_step server_start); [apply reach_start|].
  apply (step_start server_start scenario_world "abc" "sid1" "abc"
           (Json 200 (SessionBody "sid1"))).
  reflexivity.
Qed.

(** X24: whatever the threads have done so far, a record the progress
    endpoint shows has one of three shapes: running, with a progress
    value between 0 and 100 and neither error nor file path; failed,
    with an error and no progress value, file path or completion; or
    completed, with progress 100, a file path and no error. *)
Theorem progress_endpoint_record_shape s sid r :
  reachable s ->
  get_progress (srv_progress s) sid = Json 200 (ProgressBody r) ->
  record_wellformed r.
Proof.
  intros Hs Hget. unfold get_progress in Hget.
  destruct (srv_progress s !! sid) as [r'|] eqn:Hr; [|discriminate].
  injection Hget as ->.
  destruct (reachable_records s Hs) as [Hdict _].
  destruct (Hdict sid r Hr) as (env & image_id & sid' & Hin).
  pose proof (session_records_wellformed env image_id sid') as Hall.
  rewrite Forall_forall in Hall. apply Hall, list_elem_of_In, Hin.
Qed.

Lemma progress_endpoint_record_shape_witness :
  record_wellformed (ready_record scenario_world 4 "/srv/downloads/abc_stitched.jpg").
Proof.
  apply (progress_endpoint_record_shape finished_server "sid1").
  - exact finished_server_reachable.
  - vm_compute. reflexivity.
Defined.

(** X25: whatever the threads have done so far, a file the download
    endpoint sends is the output file of a task whose identifier passed
    the test of the task; it exists, it is sent under the name of the
    identifier followed by [_stitched.jpg], as a JPEG image. *)
Theorem download_endpoint_serves_output_file s path_exists sid path name mimetype :
  reachable s ->
  download_file (srv_progress s) path_exists sid = SendFile path name mimetype ->
  exists env image_id,
    task_rejects image_id = false
    /\ path = output_file_of env image_id
    /\ path_exists path = true
    /\ name = image_id +:+ "_stitched.jpg"
    /\ mimetype = "image/jpeg"%string.
Proof.
  intros Hs Hsend. unfold download_file in Hsend.
  destruct (srv_progress s !! sid) as [r|] eqn:Hr; [|discriminate].
  destruct (completed r) eqn:Hdone; [|discriminate]. cbn [negb] in Hsend.
  destruct (file_path r) as [p|] eqn:Hp; [|discriminate].
  destruct (PyStr.is_empty p || negb (path_exists p)) eqn:Hex; [discriminate|].
  injection Hsend as <- <- <-.
  apply orb_false_iff in Hex as [_ Hex]. apply negb_false_iff in Hex.
  destruct (reachable_records s Hs) as [Hdict _].
  destruct (Hdict sid r Hr) as (env & image_id & sid' & Hin).
  destruct (completed_record_path env image_id sid' r Hin Hdone) as [Hacc Hpath].
  rewrite Hp in Hpath. injection Hpath as ->.
  exists env, image_id. repeat split; [exact Hacc|exact Hex|].
  unfold task_rejects in Hacc. apply orb_false_iff in Hacc as [Hacc _].
  apply orb_false_iff in Hacc as [Hslash _].
  unfold output_file_of. apply basename_path_join. rewrite contains_app, Hslash. reflexivity.
Qed.

Lemma download_endpoint_serves_output_file_witness :
  exists env image_id,
    task_rejects image_id = false
    /\ "/srv/downloads/abc_stitched.jpg"%string = output_file_of env image_id
    /\ (fun _ : string => true) "/srv/downloads/abc_stitched.jpg"%string = true
    /\ "abc_stitched.jpg"%string = image_id +:+ "_stitched.jpg"
    /\ "image/jpeg"%string = "image/jpeg"%string.
Proof.
  apply (download_endpoint_serves_output_file finished_server (fun _ => true) "sid1").
  - exact finished_server_reachable.
  - vm_compute. reflexivity.
Defined.

(** ** Sessions side by side *)

Lemma step_sessions s s' :
  server_step s s' ->
  srv_sessions s' = srv_sessions s \/ exists fresh, srv_sessions s' = fresh :: srv_sessions s.
Proof. intros [ | | ]; cbn; eauto. Qed.

Lemma step_NoDup s s' :
  server_step s s' -> NoDup (srv_sessions s') -> NoDup (srv_sessions s).
Proof.
  intros Hstep Hnd. destruct (step_sessions s s' Hstep) as [E|[fresh E]]; rewrite E in Hnd.
  - exact Hnd.
  - apply NoDup_cons in Hnd as [_ Hnd]. exact Hnd.
Qed.

Lemma steps_NoDup s s' :
  rtc server_step s s' -> NoDup (srv_sessions s') -> NoDup (srv_sessions s).
Proof.
  induction 1 as [|s y s' Hstep _ IH]; [auto|].
  intros Hnd. eapply step_NoDup; [exact Hstep|]. apply IH, Hnd.
Qed.

Lemma lookup_middle_ne {A} (before after : list A) (x y : A) i :
  i <> length before ->
  (before ++ y :: after) !! i = (before ++ x :: after) !! i.
Proof.
  intros Hi. destruct (Nat.lt_ge_cases i (length before)) as [Hlt|Hge].
  - rewrite !lookup_app_l by exact Hlt. reflexivity.
  - rewrite !lookup_app_r by exact Hge.
    destruct (i - length before)%nat as [|m] eqn:Em; [lia|reflexivity].
Qed.

(** While the identifiers handed out are distinct, every thread belongs
    to its session. *)
Lemma reachable_owned s : reachable s -> NoDup (srv_sessions s) -> server_owned s.
Proof.
  induction 1 as [|s s' Hs IH Hstep]; intros Hnd.
  - split; [reflexivity|]. intros i sid th Hsid. cbn in Hsid. rewrite lookup_nil in Hsid.
    discriminate.
  - pose proof (step_NoDup s s' Hstep Hnd) as Hnd0.
    destruct (IH Hnd0) as [Hlen Hown]. destruct (reachable_inv s Hs) as [Hdom _].
    destruct Hstep as [s env field fresh image_id r Hstart|s field fresh r _
                      |s before after k r rest Hth].
    + cbn [srv_sessions] in Hnd. apply NoDup_cons in Hnd as [Hfresh _].
      split; cbn [srv_progress srv_sessions srv_threads]; [cbn; lia|].
      intros [|i] sid th Hsid Hthread; cbn in Hsid, Hthread.
      * injection Hsid as <-. injection Hthread as <-.
        exists env, image_id, []. split; [reflexivity|]. cbn.
        destruct (srv_progress s !! fresh) as [r0|] eqn:E; [|reflexivity].
        exfalso. apply Hfresh, list_elem_of_In, Hdom. rewrite E. eauto.
      * exact (Hown i sid th Hsid Hthread).
    + split; assumption.
    + cbn [srv_sessions] in Hnd.
      assert (Hj : exists sidj, srv_sessions s !! length before = Some sidj).
      { apply lookup_lt_is_Some_2. rewrite Hlen, Hth, length_app. cbn. lia. }
      destruct Hj as [sidj Hj].
      assert (Hcur : srv_threads s !! length before = Some ((k, r) :: rest)).
      { rewrite Hth, lookup_app_r by lia. rewrite Nat.sub_diag. reflexivity. }
      destruct (Hown _ _ _ Hj Hcur) as (env & image_id & written & Hws & Hdict).
      assert (Hk : k = sidj).
      { pose proof (task_writes_key env image_id sidj) as Hkey. rewrite Hws in Hkey.
        apply Forall_app in Hkey as [_ Hkey]. apply Forall_cons in Hkey as [Hkey _].
        exact Hkey. }
      subst k.
      split; cbn [srv_progress srv_sessions srv_threads].
      * rewrite Hlen, Hth, !length_app. reflexivity.
      * intros i sid th Hsid Hthread.
        destruct (decide (i = length before)) as [->|Hne].
        -- rewrite Hj in Hsid. injection Hsid as <-.
           rewrite lookup_app_r in Hthread by lia. rewrite Nat.sub_diag in Hthread.
           injection Hthread as <-.
           exists env, image_id, (written ++ [(sidj, r)]).
           split; [rewrite <- app_assoc; exact Hws|].
           rewrite lookup_insert_eq, last_snoc. reflexivity.
        -- rewrite (lookup_middle_ne before after ((sidj, r) :: rest) rest i Hne), <- Hth
             in Hthread.
           destruct (Hown _ _ _ Hsid Hthread) as (env' & image_id' & written' & Hws' & Hdict').
           exists env', image_id', written'. split; [exact Hws'|].
           rewrite lookup_insert_ne; [exact Hdict'|].
           intros <-. apply Hne. eapply NoDup_lookup; eassumption.
Qed.

(** A terminal record among the writes of a task is the last of them. *)
Lemma terminal_write_is_last env image_id sid written k r rest :
  task_writes env image_id sid = written ++ (k, r) :: rest -> terminal r -> rest = [].
Proof.
  intros Hws Hr.
  destruct (session_trace env image_id sid) as (init & final & Htrace & Hinit & _).
  unfold session_writes in Htrace. fold (task_writes env image_id sid) in Htrace.
  rewrite Hws, map_app in Htrace. cbn [map snd] in Htrace.
  change (start_record env :: init ++ [final]) with ((start_record env :: init) ++ [final])
    in Htrace.
  assert (Hi : ((start_record env :: init) ++ [final]) !! length (map snd written) = Some r).
  { rewrite <- Htrace, lookup_app_r by lia. rewrite Nat.sub_diag. reflexivity. }
  destruct (terminal_only_last _ _ _ _ Hinit Hi Hr) as [Hlen _].
  rewrite <- Htrace, length_app in Hlen. cbn [length] in Hlen.
  rewrite length_map in Hlen. destruct rest; [reflexivity|cbn in Hlen; lia].
Qed.

Lemma terminal_stable_step s s' sid r :
  reachable s -> server_step s s' -> NoDup (srv_sessions s') ->
  srv_progress s !! sid = Some r -> terminal r ->
  srv_progress s' !! sid = Some r.
Proof.
  intros Hs Hstep Hnd Hr Hterm.
  pose proof (step_NoDup s s' Hstep Hnd) as Hnd0.
  destruct (reachable_owned s Hs Hnd0) as [Hlen Hown].
  destruct Hstep as [s env field fresh image_id r0 Hstart|s field fresh r0 _
                    |s before after k r0 rest Hth]; cbn [srv_progress]; try exact Hr.
  destruct (decide (k = sid)) as [->|Hne]; [|rewrite lookup_insert_ne by exact Hne; exact Hr].
  exfalso.
  assert (Hj : exists sidj, srv_sessions s !! length before = Some sidj).
  { apply lookup_lt_is_Some_2. rewrite Hlen, Hth, length_app. cbn. lia. }
  destruct Hj as [sidj Hj].
  assert (Hcur : srv_threads s !! length before = Some ((sid, r0) :: rest)).
  { rewrite Hth, lookup_app_r by lia. rewrite Nat.sub_diag. reflexivity. }
  destruct (Hown _ _ _ Hj Hcur) as (env & image_id & written & Hws & Hdict).
  assert (Hk : sid = sidj).
  { pose proof (task_writes_key env image_id sidj) as Hkey. rewrite Hws in Hkey.
    apply Forall_app in Hkey as [_ Hkey]. apply Forall_cons in Hkey as [Hkey _].
    exact Hkey. }
  subst sidj. rewrite Hr in Hdict.
  destruct written as [|kr written _] using rev_ind; [discriminate|].
  rewrite last_snoc in Hdict. injection Hdict as Hkr. destruct kr as [k' r']. cbn in Hkr. subst r'.
  rewrite <- app_assoc in Hws. cbn [app] in Hws.
  pose proof (terminal_write_is_last env image_id sid written k' r _ Hws Hterm) as Hrest.
  discriminate.
Qed.

(** X26: while the session identifiers handed out are distinct, a
    terminal record is final on the server as well: once the dictionary
    holds a record with an error or with completion for a session, it
    holds that record in every later state, whatever the other threads
    write and whichever sessions are started. *)
Theorem terminal_record_stays s s' sid r :
  reachable s -> rtc server_step s s' -> NoDup (srv_sessions s') ->
  srv_progress s !! sid = Some r -> terminal r ->
  srv_progress s' !! sid = Some r.
Proof.
  intros Hs Hsteps. revert Hs. induction Hsteps as [s|s y s' Hstep Hrest IH]; intros Hs Hnd Hr Hterm.
  - exact Hr.
  - apply IH; [apply (reach_step s); assumption|exact Hnd| |exact Hterm].
    apply (terminal_stable_step s y sid r Hs Hstep); [|exact Hr|exact Hterm].
    eapply steps_NoDup; eassumption.
Qed.

Lemma terminal_record_stays_witness :
  srv_progress restarted_server !! "sid1"
  = Some (ready_record scenario_world 4 "/srv/downloads/abc_stitched.jpg").
Proof.
  apply (terminal_record_stays finished_server restarted_server "sid1").
  - exact finished_server_reachable.
  - apply rtc_once.
    apply (step_start finished_server scenario_world "abc" "sid2" "abc"
             (Json 200 (SessionBody "sid2"))).
    reflexivity.
  - apply NoDup_cons. split; [|apply NoDup_singleton].
    intros H. apply list_elem_of_singleton in H. discriminate H.
  - vm_compute. reflexivity.
  - left. reflexivity.
Defined.



(** ** Further statements on the scenarios *)

Lemma fetch_tile_other_exception_escapes_witness :
  fetch_tile (stub_world broken_client_server (decode_as 1 1)) "u" 3 (new_task ∅)
  = (Raise (mk_exn ValueError "check_hostname requires server_hostname"),
     after_attempts (new_task ∅) "u" 2 1).
Proof.
  apply (fetch_tile_other_exception_escapes (stub_world broken_client_server (decode_as 1 1))
           "u" 3 (new_task ∅) 1).
  - lia.
  - intros i Hi. destruct i as [|i]; [reflexivity|lia].
  - reflexivity.
  - reflexivity.
Defined.

Lemma fetch_tile_returns_only_success_witness :
  status_code (ok_response "u" "tile" None) = 200
  /\ exists j, Z.of_nat j < 3
       /\ after_attempts (new_task ∅) "u" 3 2 = after_attempts (new_task ∅) "u" (S j) j
       /\ attempt (stub_world flaky_server (decode_as 1 1)) (new_task ∅) "u" j
          = Returned (ok_response "u" "tile" None)
       /\ forall i, (i < j)%nat ->
            failure (attempt (stub_world flaky_server (decode_as 1 1)) (new_task ∅) "u" i) = true.
Proof.
  apply (fetch_tile_returns_only_success (stub_world flaky_server (decode_as 1 1)) "u" 3
           (new_task ∅)).
  reflexivity.
Defined.

Lemma fetch_tile_unraised_status_witness :
  fetch_tile (stub_world no_content_server (decode_as 1 1)) "u" 3 (new_task ∅)
  = (Ok None, after_attempts (new_task ∅) "u" 3 3).
Proof.
  apply (fetch_tile_unraised_status (stub_world no_content_server (decode_as 1 1)) "u" 3
           (new_task ∅) 2 (mk_response 204 "No Content" "u" "" None)).
  - reflexivity.
  - intros i Hi. reflexivity.
  - reflexivity.
  - cbn. lia.
  - cbn. lia.
Defined.

Lemma tile_height_defaults_to_width_witness : 384 = 384.
Proof.
  apply (tile_height_defaults_to_width (square_info 1000 600 384)
           (JList [JDict [("width"%string, JInt 384)]]) [("width"%string, JInt 384)]
           1000 600 384 384 3 2).
  - reflexivity.
  - reflexivity.
  - reflexivity.
  - vm_compute. reflexivity.
Defined.

Lemma scenario_completes : session_completes scenario_world "abc" "sid".
Proof.
  exists (ready_record scenario_world 4 "/srv/downloads/abc_stitched.jpg").
  split; [|reflexivity].
  vm_compute. do 4 right. left. reflexivity.
Qed.

Lemma completed_canvas_follows_grid_witness :
  exists W H tw th cols rows cv,
    metadata_of scenario_world "abc" = Ok (W, H, tw, th, cols, rows)
    /\ final_img (download_and_stitch_image scenario_world "abc" "sid" (new_task ∅)) = Some cv
    /\ cv_width cv = W /\ cv_height cv = H
    /\ map snd (cv_pastes cv) = map origin (tile_grid W H tw th cols rows).
Proof. apply (completed_canvas_follows_grid scenario_world "abc" "sid" scenario_completes). Defined.

Lemma completed_session_requests_witness :
  exists W H tw th cols rows ks,
    metadata_of scenario_world "abc" = Ok (W, H, tw, th, cols, rows)
    /\ retry_counts (length (tile_grid W H tw th cols rows)) ks
    /\ http_log (download_and_stitch_image scenario_world "abc" "sid" (new_task ∅))
       = info_url "abc" :: tile_requests (base_url_of "abc") ks (tile_grid W H tw th cols rows).
Proof. apply (completed_session_requests scenario_world "abc" "sid" scenario_completes). Defined.
